(** * FrappeBR: backup-set grouping and the verified transfer engine

    A shallow embedding of [core/backup_manager.py], [core/transfer_manager.py]
    and [models/config.py].

    Conventions of the embedding:
    - Python [str] is [string]; file names are ASCII, so [\d] is ['0'..'9'].
    - Python [float] is idealised as an exact rational ([Q]); [int(x)] on a
      float truncates towards zero.
    - [datetime] values are totally ordered; they are represented by their
      ordinal ([Z]).
    - an insertion-ordered [dict] that is iterated is an association list.
    - [print] calls are omitted. *)

From Stdlib Require Import ZArith QArith Qminmax Qround String Ascii List Sorted Permutation Lia.
From Stdlib.Strings Require Import Byte.
From stdpp Require Import base option list gmap strings.

Import ListNotations.
Local Open Scope string_scope.
Local Open Scope list_scope.
Local Open Scope Z_scope.

(** ** Python string primitives *)

Module PyStr.

Definition is_digit (c : ascii) : bool :=
  let n := nat_of_ascii c in (48 <=? n)%nat && (n <=? 57)%nat.

(** [s.startswith(p)] *)
Fixpoint startswith (s p : string) : bool :=
  match p, s with
  | EmptyString, _ => true
  | String _ _, EmptyString => false
  | String a p', String b s' => if Ascii.eqb a b then startswith s' p' else false
  end.

(** [needle in s] *)
Fixpoint contains (s needle : string) : bool :=
  if startswith s needle then true
  else match s with
       | EmptyString => false
       | String _ s' => contains s' needle
       end.

Fixpoint rev_onto (s acc : string) : string :=
  match s with
  | EmptyString => acc
  | String c s' => rev_onto s' (String c acc)
  end.

Definition rev (s : string) : string := rev_onto s EmptyString.

(** [s.endswith(suffix)] *)
Definition endswith (s suffix : string) : bool :=
  startswith (rev s) (rev suffix).

(** [s.endswith((a, b, ...))] with a tuple of suffixes *)
Definition endswith_any (s : string) (suffixes : list string) : bool :=
  existsb (endswith s) suffixes.

Definition lower_char (c : ascii) : ascii :=
  let n := nat_of_ascii c in
  if (65 <=? n)%nat && (n <=? 90)%nat then ascii_of_nat (n + 32) else c.

(** [s.lower()] *)
Fixpoint lower (s : string) : string :=
  match s with
  | EmptyString => EmptyString
  | String c s' => String (lower_char c) (lower s')
  end.

(** [s.split(sep)] for a one-character separator: the pieces between the
    separators, always at least one piece. *)
Fixpoint split (sep : ascii) (s : string) : list string :=
  match s with
  | EmptyString => [EmptyString]
  | String c s' =>
      if Ascii.eqb c sep then EmptyString :: split sep s'
      else match split sep s' with
           | [] => [String c EmptyString]
           | p :: ps => String c p :: ps
           end
  end.

(** [s.replace(a, b)] for one-character [a] and [b] *)
Fixpoint replace (a b : ascii) (s : string) : string :=
  match s with
  | EmptyString => EmptyString
  | String c s' => String (if Ascii.eqb c a then b else c) (replace a b s')
  end.

(** [n] leading decimal digits of [s], and what follows them *)
Fixpoint take_digits (n : nat) (s : string) : option (string * string) :=
  match n with
  | O => Some (EmptyString, s)
  | S n' =>
      match s with
      | String c s' =>
          if is_digit c then
            match take_digits n' s' with
            | Some (d, r) => Some (String c d, r)
            | None => None
            end
          else None
      | EmptyString => None
      end
  end.

(** ASCII white space, as [str.strip()] sees it *)
Definition is_space (c : ascii) : bool :=
  let n := nat_of_ascii c in
  ((9 <=? n)%nat && (n <=? 13)%nat) || ((28 <=? n)%nat && (n <=? 32)%nat).

Fixpoint lstrip (s : string) : string :=
  match s with
  | EmptyString => EmptyString
  | String c s' => if is_space c then lstrip s' else s
  end.

(** drop the trailing characters that satisfy [p] *)
Fixpoint rstrip_by (p : ascii -> bool) (s : string) : string :=
  match s with
  | EmptyString => EmptyString
  | String c s' =>
      match rstrip_by p s' with
      | EmptyString => if p c then EmptyString else String c EmptyString
      | r => String c r
      end
  end.

(** [s.strip()] *)
Definition strip (s : string) : string := rstrip_by is_space (lstrip s).

Fixpoint all_chars (p : ascii -> bool) (s : string) : bool :=
  match s with
  | EmptyString => true
  | String c s' => p c && all_chars p s'
  end.

(** [s.isdigit()]: at least one character, all of them digits *)
Definition isdigit (s : string) : bool :=
  match s with
  | EmptyString => false
  | _ => all_chars is_digit s
  end.

Fixpoint to_int_from (acc : Z) (s : string) : Z :=
  match s with
  | EmptyString => acc
  | String c s' => to_int_from (10 * acc + (Z.of_nat (nat_of_ascii c) - 48)) s'
  end.

(** [int(s)] for a string of digits *)
Definition to_int (s : string) : Z := to_int_from 0 s.

Definition is_sep (c : ascii) : bool := Ascii.eqb c "/".

(** [p[:p.rfind('/') + 1]] *)
Fixpoint upto_last_sep (p : string) : string :=
  match p with
  | EmptyString => EmptyString
  | String c p' =>
      match upto_last_sep p' with
      | EmptyString => if is_sep c then String c EmptyString else EmptyString
      | h => String c h
      end
  end.

(** [os.path.dirname] (posixpath) *)
Definition dirname (p : string) : string :=
  let head := upto_last_sep p in
  match head with
  | EmptyString => head
  | _ => if all_chars is_sep head then head else rstrip_by is_sep head
  end.

(** [sep.join(parts)] *)
Fixpoint join (sep : string) (parts : list string) : string :=
  match parts with
  | [] => EmptyString
  | [part] => part
  | part :: rest => (part ++ sep ++ join sep rest)%string
  end.

(** [s.split()]: the maximal runs of characters that are not white space *)
Fixpoint split_ws (s : string) : list string :=
  match s with
  | EmptyString => []
  | String c r =>
      if is_space c then split_ws r
      else match r with
           | EmptyString => [String c EmptyString]
           | String c' _ =>
               if is_space c' then String c EmptyString :: split_ws r
               else match split_ws r with
                    | w :: ws => String c w :: ws
                    | [] => [String c EmptyString]
                    end
           end
  end.

(** The digits of an [int] literal: single underscores are allowed between
    digits only. [seen] tells whether the previous character was a digit. *)
Fixpoint digits_value (s : string) (acc : Z) (seen : bool) : option Z :=
  match s with
  | EmptyString => if seen then Some acc else None
  | String c r =>
      if is_digit c then
        digits_value r (10 * acc + (Z.of_nat (nat_of_ascii c) - 48)) true
      else if Ascii.eqb c "_" && seen then digits_value r acc false
      else None
  end.

(** [int(s)] for a string: [None] is [ValueError] *)
Definition parse_int (s : string) : option Z :=
  match strip s with
  | String "+" r => digits_value r 0 false
  | String "-" r => option_map Z.opp (digits_value r 0 false)
  | t => digits_value t 0 false
  end.

(** [new.join(s)] around every character: [s.replace('', new)] *)
Fixpoint interleave (new s : string) : string :=
  match s with
  | EmptyString => new
  | String c r => (new ++ String c (interleave new r))%string
  end.

(** The scan of [s.replace(old, new)] for a non-empty [old]; [skip] characters
    of a match found earlier are still to be passed over. *)
Fixpoint replace_scan (old new s : string) (skip : nat) : string :=
  match s with
  | EmptyString => EmptyString
  | String c r =>
      match skip with
      | S k => replace_scan old new r k
      | O =>
          if startswith s old
          then (new ++ replace_scan old new r (String.length old - 1))%string
          else String c (replace_scan old new r 0)
      end
  end.

(** [s.replace(old, new)] *)
Definition replace_sub (old new s : string) : string :=
  match old with
  | EmptyString => interleave new s
  | _ => replace_scan old new s 0
  end.

End PyStr.

(** ** [pathlib.PurePosixPath]: how a path is parsed, written and joined *)

Module PurePath.

(** The root: two leading slashes are kept, one or three and more are one. *)
Definition root_of (s : string) : string :=
  if PyStr.startswith s "//" && negb (PyStr.startswith s "///") then "//"
  else if PyStr.startswith s "/" then "/"
  else EmptyString.

(** The components: empty ones and [.] are dropped, [..] is kept. *)
Definition parts_of (s : string) : list string :=
  List.filter (fun part => negb (String.eqb part EmptyString || String.eqb part "."))
    (PyStr.split "/" s).

(** [str(PurePosixPath(s))] *)
Definition to_str (s : string) : string :=
  match root_of s, parts_of s with
  | EmptyString, [] => "."
  | root, parts => (root ++ PyStr.join "/" parts)%string
  end.

(** [posixpath.join(a, b)] *)
Definition posix_join (a b : string) : string :=
  if PyStr.startswith b "/" then b
  else if String.eqb a EmptyString || PyStr.endswith a "/" then (a ++ b)%string
  else (a ++ "/" ++ b)%string.

(** [str(PurePosixPath(a) / b)] *)
Definition joinpath (a b : string) : string := to_str (posix_join a b).

(** [PurePosixPath(s).name]: the last component, empty when there is none *)
Definition name (s : string) : string := List.last (parts_of s) EmptyString.

End PurePath.

(** [re.match(r'(\d{8}_\d{6})', filename)]: the match is anchored at the start
    of the name; the result is [group(1)], the 15-character token. *)
Definition timestamp_match (filename : string) : option string :=
  match PyStr.take_digits 8 filename with
  | Some (d1, String "_" rest) =>
      match PyStr.take_digits 6 rest with
      | Some (d2, _) => Some (d1 ++ "_" ++ d2)%string
      | None => None
      end
  | _ => None
  end.

(** ** Data model ([models/config.py]) *)

Module BackupInfo.
Record t : Type := mk {
  filename : string;
  filepath : string;
  site_name : string;
  backup_type : string;
  created_at : Z;
  size_mb : Q;
  compressed : bool;
  md5_hash : option string
}.
End BackupInfo.

Module BackupSet.
Record t : Type := mk {
  timestamp : string;
  site_name : string;
  backup_type : string;
  created_at : Z;
  total_size_mb : Q;
  files : list BackupInfo.t
}.
(** The [for] loop of [primary_filename]: the name of the first file that has
    'database' in its name. *)
Fixpoint first_database (files : list BackupInfo.t) : option string :=
  match files with
  | [] => None
  | backup_file :: rest =>
      if PyStr.contains (BackupInfo.filename backup_file) "database"
      then Some (BackupInfo.filename backup_file)
      else first_database rest
  end.

(** [primary_filename] *)
Definition primary_filename (self : t) : string :=
  match first_database (files self) with
  | Some name => name
  | None =>
      match files self with
      | backup_file :: _ => BackupInfo.filename backup_file
      | [] => (timestamp self ++ "-" ++ site_name self)%string
      end
  end.
End BackupSet.

(** ** Python built-ins used by the grouping code *)

(** [sum(xs)]: starts from [0] and adds from the left. *)
Definition py_sum (xs : list Q) : Q := fold_left Qplus xs 0%Q.

(** [max(xs)]: [ValueError] ([None]) on an empty sequence. *)
Definition py_max (xs : list Z) : option Z :=
  match xs with
  | [] => None
  | x :: xs' => Some (fold_left Z.max xs' x)
  end.

(** [xs[k:]]: a negative [k] counts from the end. *)
Definition py_slice_from {A : Type} (k : Z) (xs : list A) : list A :=
  if 0 <=? k then drop (Z.to_nat k) xs
  else drop (Z.to_nat (Z.of_nat (length xs) + k)) xs.

(** [round(x, 2)]: to the nearest hundredth, a tie to the even one. *)
Definition py_round2 (x : Q) : Q :=
  let t := (x * 100)%Q in
  let f := Qfloor t in
  let d := (t - inject_Z f)%Q in
  let n := match (d ?= 1 # 2)%Q with
           | Lt => f
           | Gt => f + 1
           | Eq => if Z.even f then f else f + 1
           end in
  (n # 100)%Q.

(** [sorted(xs, key=key, reverse=True)]: a stable sort, descending in the key;
    elements with equal keys keep their relative order. *)
Section PySorted.
Context {A : Type} (key : A -> Z).

Fixpoint insert_desc (x : A) (l : list A) : list A :=
  match l with
  | [] => [x]
  | y :: l' => if key x <? key y then y :: insert_desc x l' else x :: y :: l'
  end.

Definition py_sorted_reverse (l : list A) : list A :=
  fold_right insert_desc [] l.
End PySorted.

(** ** Grouping records by timestamp token *)

(** The dictionary [backup_groups]: token -> list of records, in insertion
    order of the tokens. *)
Definition groups := list (string * list BackupInfo.t).

(** [if timestamp not in backup_groups: backup_groups[timestamp] = []]
    followed by [backup_groups[timestamp].append(backup)]. *)
Fixpoint groups_append (g : groups) (ts : string) (b : BackupInfo.t) : groups :=
  match g with
  | [] => [(ts, [b])]
  | (k, fs) :: rest =>
      if String.eqb k ts then (k, fs ++ [b]) :: rest
      else (k, fs) :: groups_append rest ts b
  end.

(** One iteration of the grouping loop: a record whose name has no token is
    skipped ([if timestamp_match:] has no [else]). *)
Definition group_step (g : groups) (backup : BackupInfo.t) : groups :=
  match timestamp_match (BackupInfo.filename backup) with
  | Some ts => groups_append g ts backup
  | None => g
  end.

Definition group_by_timestamp (all_backups : list BackupInfo.t) : groups :=
  fold_left group_step all_backups [].

Definition has_database (backup_files : list BackupInfo.t) : bool :=
  existsb (fun f => PyStr.contains (BackupInfo.filename f) "database") backup_files.

Definition has_files (backup_files : list BackupInfo.t) : bool :=
  existsb (fun f => PyStr.endswith (BackupInfo.filename f) ".tar") backup_files.

Definition has_config (backup_files : list BackupInfo.t) : bool :=
  existsb (fun f => PyStr.contains (BackupInfo.filename f) "config") backup_files.

(** ** [BackupManager.list_backup_sets] ([core/backup_manager.py]) *)

Module BackupManager.

(** [_determine_backup_type] *)
Definition _determine_backup_type (filename : string) : string :=
  let filename_lower := PyStr.lower filename in
  if PyStr.contains filename_lower "database" || PyStr.endswith filename_lower ".sql.gz"
  then "database"
  else if PyStr.contains filename_lower "files"
          && negb (PyStr.contains filename_lower "database")
  then "files"
  else "complete".

(** [_is_backup_file] *)
Definition _is_backup_file (filename : string) : bool :=
  existsb (PyStr.endswith filename) [".sql.gz"; ".tar"; ".tar.gz"; ".tgz"].

(** The type of a set, lines 266-277. *)
Definition set_backup_type (backup_files : list BackupInfo.t) : string :=
  if has_database backup_files && has_files backup_files && has_config backup_files
  then "complete"
  else if has_database backup_files && negb (has_files backup_files)
  then "database"
  else if has_files backup_files && negb (has_database backup_files)
  then "files"
  else "mixed".

(** Body of the loop over [backup_groups.items()]; [None] is the
    [ValueError] of [max()] on an empty bucket. *)
Definition make_set (site_name : string) (g : string * list BackupInfo.t)
  : option BackupSet.t :=
  let '(timestamp, backup_files) := g in
  let backup_type := set_backup_type backup_files in
  let total_size := py_sum (map BackupInfo.size_mb backup_files) in
  match py_max (map BackupInfo.created_at backup_files) with
  | None => None
  | Some latest_time =>
      Some (BackupSet.mk timestamp site_name backup_type latest_time
              total_size backup_files)
  end.

(** The list [backup_sets] before it is sorted. *)
Definition backup_sets_unsorted (site_name : string) (all_backups : list BackupInfo.t)
  : option (list BackupSet.t) :=
  mapM (make_set site_name) (group_by_timestamp all_backups).

(** [list_backup_sets], given the result of [list_backups]. *)
Definition list_backup_sets (site_name : string) (all_backups : list BackupInfo.t)
  : option (list BackupSet.t) :=
  match backup_sets_unsorted site_name all_backups with
  | None => None
  | Some backup_sets => Some (py_sorted_reverse BackupSet.created_at backup_sets)
  end.

End BackupManager.


(** ** Exceptions, results and the world the transfer engine runs in *)

(** [TransferError] carries a message; the messages of the source are the
    constructors of [message], an f-string field [{e}] holds the exception
    it formats. *)
Inductive exception : Type :=
| FileNotFoundError (msg : string)
| ZeroDivisionError
| RecursionError
| OtherError (msg : string)
| TransferError (msg : message)
with message : Type :=
| Could_not_determine_size_of_remote_file (filepath : string)
| SFTP_transfer_failed (e : exception)
| Download_verification_failed
| Download_failed_after_attempts (max_retries : Z) (e : exception)
| Download_failed
| Local_file_not_found (local_path : string)
| Upload_failed (e : exception)
| Could_not_determine_remote_file_size
| Local_file_is_larger_than_remote_file
| Transfer_cancelled_by_user
| Resume_download_verification_failed
| Resume_download_failed (e : exception).

Inductive result (A : Type) : Type :=
| Return (a : A)
| Raise (e : exception).
Arguments Return {A} a.
Arguments Raise {A} e.


(** What the engine does to its surroundings, in the order it does it. *)
Inductive event : Type :=
| ExecuteCommand (hostname command : string)
| GetSftpClient (hostname : string)
| SftpGet (remotepath localpath : string)
| SftpPut (localpath remotepath : string)
| SftpStat (path : string)
| SftpMkdir (path : string)
| SftpFile (remotepath : string)
| RemoteSeek (offset : Z)
| RemoteRead (size : Z)
| SftpClose
| LocalOpenAppend (localpath : string)
| LocalWrite (localpath : string) (size : Z)
| Unlink (localpath : string)
| Sleep (seconds : Z)
| ProgressCreated (total_size : Z)
| CallbackInvoked (transferred total_size : Z).

(** A progress callback receives the tracker; what matters of it is whether
    it calls [cancel()] on the tracker it is shown ([true]) or not. *)
Definition observer := Z -> Z -> bool.

(** [int(x)] of a float: truncation towards zero. *)
Definition py_int (x : Q) : Z := Z.quot (Qnum x) (Z.pos (Qden x)).

(** [a / b]: [ZeroDivisionError] when [b] is zero. *)
Definition py_truediv (a b : Q) : result Q :=
  if Qeq_bool b 0 then Raise ZeroDivisionError else Return (a / b)%Q.

(** ** [TransferProgress] *)

Module TransferProgress.

Record t : Type := mk {
  total_size : Z;
  transferred : Z;
  start_time : Q;
  callback : option observer;
  cancelled : bool
}.

(** [__init__]; [now] is the value of [time.time()]. *)
Definition init (total_size : Z) (callback : option observer) (now : Q) : t :=
  mk total_size 0 now callback false.

(** [update]: the new tracker and the callback invocations it made. *)
Definition update (self : t) (bytes_transferred : Z) : t * list event :=
  let transferred' := transferred self + bytes_transferred in
  let self' := mk (total_size self) transferred' (start_time self)
                  (callback self) (cancelled self) in
  match callback self with
  | Some cb =>
      if negb (cancelled self) then
        (mk (total_size self) transferred' (start_time self) (callback self)
            (cb transferred' (total_size self)),
         [CallbackInvoked transferred' (total_size self)])
      else (self', [])
  | None => (self', [])
  end.

(** [cancel] *)
Definition cancel (self : t) : t :=
  mk (total_size self) (transferred self) (start_time self) (callback self) true.

(** [min(100.0, x)] *)
Definition min_100 (x : Q) : Q := if Qlt_le_dec x 100 then x else 100%Q.

(** [percentage] *)
Definition percentage (self : t) : result Q :=
  if total_size self =? 0 then Return 0%Q
  else
    match py_truediv (inject_Z (transferred self)) (inject_Z (total_size self)) with
    | Raise e => Raise e
    | Return r => Return (min_100 (r * 100))
    end.

(** [eta_seconds]; [now] is the value of [time.time()]. *)
Definition eta_seconds (self : t) (now : Q) : result (option Z) :=
  if transferred self =? 0 then Return None
  else
    let elapsed := (now - start_time self)%Q in
    match py_truediv (inject_Z (transferred self)) elapsed with
    | Raise e => Raise e
    | Return rate =>
        let remaining_bytes := total_size self - transferred self in
        if Qeq_bool rate 0 then Return None
        else
          match py_truediv (inject_Z remaining_bytes) rate with
          | Raise e => Raise e
          | Return q => Return (Some (py_int q))
          end
    end.

(** The two operations any holder of the tracker can perform. *)
Inductive op : Type :=
| Update (bytes_transferred : Z)
| Cancel.

Definition step (self : t) (o : op) : t * list event :=
  match o with
  | Update d => update self d
  | Cancel => (cancel self, [])
  end.

Fixpoint run (self : t) (ops : list op) : t * list event :=
  match ops with
  | [] => (self, [])
  | o :: ops' =>
      let '(self1, ev1) := step self o in
      let '(self2, ev2) := run self1 ops' in
      (self2, ev1 ++ ev2)
  end.

End TransferProgress.


(** ** Collaborators of the transfer engine

    The SSH manager, the SFTP client, the clock and the operating system's
    say on removing a local file are outside the engine.  Their state is an
    abstract [R]; every call may change it. *)

(** What one [sftp.get(remotepath, localpath, callback)] does: it fails
    before the local file is opened, or opens the local file for writing,
    writes the chunks in turn (reporting the running byte count to the callback
    after each) and ends with or without an exception. *)
Inductive get_outcome : Type :=
| GetNotStarted (e : exception)
| GetTransferred (chunks : list (list byte)) (e : option exception).

(** What one [sftp.put(localpath, remotepath, callback)] does: the running
    byte counts it reports, and the exception it ends with, if any. *)
Record put_outcome : Type := mk_put {
  put_progress : list Z;
  put_error : option exception
}.

Class Collaborators (R : Type) : Type := {
  execute_command : string -> string -> R -> R * result (Z * string * string);
  get_sftp_client : string -> R -> R * result unit;
  sftp_get : string -> string -> R -> R * get_outcome;
  sftp_put : list byte -> string -> R -> R * put_outcome;
  sftp_stat : string -> R -> R * result unit;
  sftp_mkdir : string -> R -> R * result unit;
  sftp_file : string -> R -> R * result unit;
  (** the successive results of [remote_file.read(size)] after
      [seek(offset)]; when they are used up the file is at its end *)
  sftp_reads : Z -> Z -> R -> R * list (result (list byte));
  time_time : R -> R * Q;
  (** whether the operating system lets [path.unlink()] remove an existing
      local file, or the exception it raises instead *)
  os_unlink : string -> R -> R * result unit
}.

(** The local disk, the collaborators, the one [TransferProgress] object of
    the running operation, and the trace.  The local disk holds the regular
    files by the path the engine names them with: a path is either such a
    file, which can be examined and read, or absent; directories, paths that
    cannot be examined and two names for one file are outside the model. *)
Record world (R : Type) : Type := World {
  local_fs : gmap string (list byte);
  remote : R;
  tracker : option TransferProgress.t;
  trace : list event
}.
Arguments World {R} _ _ _ _.
Arguments local_fs {R} _.
Arguments remote {R} _.
Arguments tracker {R} _.
Arguments trace {R} _.

Definition file_size (content : list byte) : Z := Z.of_nat (length content).

(** The double quote of the shell commands. *)
Definition dquote : string := String (ascii_of_nat 34) EmptyString.

(** ** The engine monad: state and exceptions *)

Section Monad.
Context {R : Type}.

Definition M (A : Type) : Type := world R -> world R * result A.

Definition ret {A} (a : A) : M A := fun w => (w, Return a).

Definition raise {A} (e : exception) : M A := fun w => (w, Raise e).

Definition bind {A B} (m : M A) (k : A -> M B) : M B :=
  fun w =>
    match m w with
    | (w', Return a) => k a w'
    | (w', Raise e) => (w', Raise e)
    end.

(** [try: m except Exception as e: h e] *)
Definition try_except {A} (m : M A) (h : exception -> M A) : M A :=
  fun w =>
    match m w with
    | (w', Return a) => (w', Return a)
    | (w', Raise e) => h e w'
    end.

Definition emit (e : event) : M unit :=
  fun w => (World (local_fs w) (remote w) (tracker w) (trace w ++ [e]), Return tt).

(** a collaborator call that cannot raise *)
Definition ask {A} (f : R -> R * A) : M A :=
  fun w => let '(r, a) := f (remote w) in
           (World (local_fs w) r (tracker w) (trace w), Return a).

(** a collaborator call that may raise *)
Definition call {A} (f : R -> R * result A) : M A :=
  fun w => let '(r, a) := f (remote w) in
           (World (local_fs w) r (tracker w) (trace w), a).

(** [path.stat().st_size] when [path.exists()]; on the local disk of the
    model every path can be examined, so neither call raises *)
Definition local_size (path : string) : M (option Z) :=
  fun w => (w, Return (file_size <$> local_fs w !! path)).

(** [open(path, 'wb')] *)
Definition local_truncate (path : string) : M unit :=
  fun w => (World (<[path := []]> (local_fs w)) (remote w) (tracker w) (trace w),
            Return tt).

(** [f.write(chunk)] on a file opened at its end *)
Definition local_append (path : string) (chunk : list byte) : M unit :=
  fun w =>
    let old := default [] (local_fs w !! path) in
    (World (<[path := old ++ chunk]> (local_fs w)) (remote w) (tracker w) (trace w),
     Return tt).

(** the removal of a file from the local disk *)
Definition local_unlink (path : string) : M unit :=
  fun w => (World (delete path (local_fs w)) (remote w) (tracker w)
              (trace w ++ [Unlink path]), Return tt).

(** [progress = TransferProgress(total_size, callback)] *)
Definition new_progress (total_size : Z) (cb : option observer) (now : Q) : M unit :=
  fun w => (World (local_fs w) (remote w)
              (Some (TransferProgress.init total_size cb now))
              (trace w ++ [ProgressCreated total_size]), Return tt).

Definition get_progress : M (option TransferProgress.t) :=
  fun w => (w, Return (tracker w)).

Definition set_progress (p : TransferProgress.t) : M unit :=
  fun w => (World (local_fs w) (remote w) (Some p) (trace w), Return tt).

Definition emit_all (evs : list event) : M unit :=
  fun w => (World (local_fs w) (remote w) (tracker w) (trace w ++ evs), Return tt).

(** [time.sleep(seconds)]: a negative length is a [ValueError] *)
Definition time_sleep (seconds : Z) : M unit :=
  if seconds <? 0
  then raise (OtherError "ValueError: sleep length must be non-negative")
  else emit (Sleep seconds).

(** [path.unlink()] of an existing file: the operating system may refuse, and
    then the file stays *)
Definition os_remove {C : Collaborators R} (path : string) : M unit :=
  bind (call (os_unlink path)) (fun _ => local_unlink path).

End Monad.

Notation "x <- m ;; k" := (bind m (fun x => k))
  (at level 100, m at next level, right associativity).
Notation "m ;; k" := (bind m (fun _ => k))
  (at level 100, right associativity).

(** ** [TransferManager] ([core/transfer_manager.py]) *)

Module TransferManager.

Record t : Type := mk {
  local_storage_path : string;
  chunk_size : Z;
  max_retries : Z;
  retry_delay : Z
}.

(** [__init__]: the transfer settings. *)
Definition init (local_storage_path : string) : t :=
  mk local_storage_path 32768 3 5.

(** [str(self.local_storage_path / local_filename)] *)
Definition path_join (root name : string) : string := PurePath.joinpath root name.

Section Engine.
Context {R : Type} {C : Collaborators R}.
Variable self : t.

(** Apply a method of the tracker object and log the callbacks it made. *)
Definition with_progress
  (f : TransferProgress.t -> TransferProgress.t * list event) : M (R := R) unit :=
  p <- get_progress ;;
  match p with
  | Some progress =>
      let '(progress', evs) := f progress in
      set_progress progress' ;; emit_all evs
  | None => ret tt
  end.

(** The shell command of [_get_remote_file_size]. *)
Definition stat_command (remote_path : string) : string :=
  ("stat -c %s " ++ dquote ++ remote_path ++ dquote
   ++ " 2>/dev/null || stat -f %z " ++ dquote ++ remote_path ++ dquote)%string.

(** [_get_remote_file_size] *)
Definition _get_remote_file_size (hostname remote_path : string) : M (R := R) (option Z) :=
  try_except
    (let command := stat_command remote_path in
     emit (ExecuteCommand hostname command) ;;
     r <- call (execute_command hostname command) ;;
     let '(exit_code, stdout, _) := r in
     if (exit_code =? 0) && PyStr.isdigit (PyStr.strip stdout)
     then ret (Some (PyStr.to_int (PyStr.strip stdout)))
     else ret None)
    (fun _ => ret None).

(** The closure [progress_callback(bytes_transferred, total_size)] handed to
    [sftp.get] and [sftp.put]. *)
Definition progress_callback (bytes_transferred : Z)
  (progress : TransferProgress.t) : TransferProgress.t * list event :=
  if TransferProgress.transferred progress =? 0
  then TransferProgress.update progress bytes_transferred
  else TransferProgress.update progress
         (bytes_transferred - TransferProgress.transferred progress).

(** The body of [sftp.get] once the local file is open: each chunk is written
    and the running byte count reported. *)
Fixpoint receive_chunks (local_path : string) (so_far : Z)
  (chunks : list (list byte)) : M (R := R) unit :=
  match chunks with
  | [] => ret tt
  | chunk :: rest =>
      let so_far' := so_far + file_size chunk in
      local_append local_path chunk ;;
      with_progress (progress_callback so_far') ;;
      receive_chunks local_path so_far' rest
  end.

(** [_download_file_with_progress] *)
Definition _download_file_with_progress (hostname remote_path local_path : string)
  : M (R := R) unit :=
  try_except
    (emit (GetSftpClient hostname) ;;
     call (get_sftp_client hostname) ;;
     emit (SftpGet remote_path local_path) ;;
     out <- ask (sftp_get remote_path local_path) ;;
     match out with
     | GetNotStarted e => raise e
     | GetTransferred chunks err =>
         local_truncate local_path ;;
         receive_chunks local_path 0 chunks ;;
         match err with
         | Some e => raise e
         | None => emit SftpClose
         end
     end)
    (fun e => raise (TransferError (SFTP_transfer_failed e))).

(** [_verify_download] *)
Definition _verify_download (local_path : string) (expected_size : Z) : M (R := R) bool :=
  sz <- local_size local_path ;;
  match sz with
  | None => ret false
  | Some actual_size => ret (actual_size =? expected_size)
  end.

(** The [try] block of one attempt (lines 132-141): transfer, then verify. *)
Definition download_attempt (hostname remote_path local_path : string)
  (remote_size : Z) : M (R := R) string :=
  _download_file_with_progress hostname remote_path local_path ;;
  ok <- _verify_download local_path remote_size ;;
  if ok then ret local_path
  else raise (TransferError Download_verification_failed).

(** What the [except] clause does before the next attempt (lines 147-151):
    the wait and the removal of the partial file.  Neither is inside a [try],
    so what they raise leaves [download_backup] as it is. *)
Definition before_retry (local_path : string) : M (R := R) unit :=
  time_sleep (retry_delay self) ;;
  sz <- local_size local_path ;;
  match sz with
  | Some _ => os_remove local_path
  | None => ret tt
  end.

(** The [for attempt in range(self.max_retries)] loop of [download_backup];
    [n] iterations remain. *)
Fixpoint download_attempts (n : nat) (attempt : Z)
  (hostname remote_path local_path : string) (remote_size : Z) : M (R := R) string :=
  match n with
  | O => raise (TransferError Download_failed)
  | S n' =>
      try_except
        (download_attempt hostname remote_path local_path remote_size)
        (fun e =>
           if attempt <? max_retries self - 1 then
             before_retry local_path ;;
             download_attempts n' (attempt + 1) hostname remote_path local_path
               remote_size
           else
             raise (TransferError (Download_failed_after_attempts
                                     (max_retries self) e)))
  end.

(** The target of a download (lines 105-108). *)
Definition local_target (backup_info : BackupInfo.t) (local_filename : option string)
  : string :=
  let local_filename :=
    match local_filename with
    | None | Some EmptyString => BackupInfo.filename backup_info
    | Some name => name
    end in
  path_join (local_storage_path self) local_filename.

(** The size the record states, in bytes (line 113). *)
Definition recorded_size (backup_info : BackupInfo.t) : Z :=
  py_int (BackupInfo.size_mb backup_info * 1024 * 1024).

(** [download_backup] *)
Definition download_backup (hostname : string) (backup_info : BackupInfo.t)
  (local_filename : option string) (on_progress : option observer) : M (R := R) string :=
  let local_path := local_target backup_info local_filename in
  sz <- local_size local_path ;;
  let same_size :=
    match sz with
    | Some local_size => local_size =? recorded_size backup_info
    | None => false
    end in
  if same_size then ret local_path
  else
    remote_size <- _get_remote_file_size hostname (BackupInfo.filepath backup_info) ;;
    match remote_size with
    | None =>
        raise (TransferError (Could_not_determine_size_of_remote_file
                                (BackupInfo.filepath backup_info)))
    | Some remote_size =>
        now <- ask time_time ;;
        new_progress remote_size on_progress now ;;
        download_attempts (Z.to_nat (max_retries self)) 0 hostname
          (BackupInfo.filepath backup_info) local_path remote_size
    end.

(** The body of [sftp.put]: the running byte counts are reported. *)
Fixpoint report_progress (counts : list Z) : M (R := R) unit :=
  match counts with
  | [] => ret tt
  | c :: rest => with_progress (progress_callback c) ;; report_progress rest
  end.

(** [_ensure_remote_directory]; [depth] bounds the recursion. *)
Fixpoint _ensure_remote_directory (depth : nat) (remote_dir : string) : M (R := R) unit :=
  match depth with
  | O => raise RecursionError
  | S depth' =>
      try_except
        (emit (SftpStat remote_dir) ;; call (sftp_stat remote_dir))
        (fun e =>
           match e with
           | FileNotFoundError _ =>
               let parent_dir := PyStr.dirname remote_dir in
               (if negb (String.eqb parent_dir EmptyString)
                   && negb (String.eqb parent_dir remote_dir)
                then _ensure_remote_directory depth' parent_dir
                else ret tt) ;;
               emit (SftpMkdir remote_dir) ;;
               call (sftp_mkdir remote_dir)
           | _ => raise e
           end)
  end.

(** [upload_backup] *)
Definition upload_backup (hostname local_path remote_path : string)
  (on_progress : option observer) : M (R := R) bool :=
  sz <- local_size local_path ;;
  match sz with
  | None => raise (TransferError (Local_file_not_found local_path))
  | Some local_size =>
      now <- ask time_time ;;
      new_progress local_size on_progress now ;;
      try_except
        (emit (GetSftpClient hostname) ;;
         call (get_sftp_client hostname) ;;
         let remote_dir := PyStr.dirname remote_path in
         (if negb (String.eqb remote_dir EmptyString)
          then _ensure_remote_directory (S (String.length remote_dir)) remote_dir
          else ret tt) ;;
         emit (SftpPut local_path remote_path) ;;
         content <- (fun w => (w, Return (default [] (local_fs w !! local_path)))) ;;
         out <- ask (sftp_put content remote_path) ;;
         report_progress (put_progress out) ;;
         match put_error out with
         | Some e => raise e
         | None => emit SftpClose ;; ret true
         end)
        (fun e => raise (TransferError (Upload_failed e)))
  end.

(** The [while True] loop of [resume_download] over the results of the
    remote reads. *)
Fixpoint resume_chunks (local_path : string) (reads : list (result (list byte)))
  : M (R := R) unit :=
  match reads with
  | [] => emit (RemoteRead (chunk_size self))
  | Raise e :: _ => emit (RemoteRead (chunk_size self)) ;; raise e
  | Return chunk :: rest =>
      emit (RemoteRead (chunk_size self)) ;;
      match chunk with
      | [] => ret tt
      | _ =>
          emit (LocalWrite local_path (file_size chunk)) ;;
          local_append local_path chunk ;;
          with_progress (fun p => TransferProgress.update p (file_size chunk)) ;;
          p <- get_progress ;;
          if from_option TransferProgress.cancelled false p
          then raise (TransferError Transfer_cancelled_by_user)
          else resume_chunks local_path rest
      end
  end.

(** [resume_download] *)
Definition resume_download (hostname : string) (backup_info : BackupInfo.t)
  (local_path : string) (on_progress : option observer) : M (R := R) string :=
  sz <- local_size local_path ;;
  match sz with
  | None =>
      download_backup hostname backup_info (Some (PurePath.name local_path))
        on_progress
  | Some local_size =>
      remote_size <- _get_remote_file_size hostname (BackupInfo.filepath backup_info) ;;
      match remote_size with
      | None => raise (TransferError Could_not_determine_remote_file_size)
      | Some remote_size =>
          if local_size >=? remote_size then
            if local_size =? remote_size then ret local_path
            else raise (TransferError Local_file_is_larger_than_remote_file)
          else
            now <- ask time_time ;;
            new_progress remote_size on_progress now ;;
            with_progress (fun p =>
              (TransferProgress.mk (TransferProgress.total_size p) local_size
                 (TransferProgress.start_time p) (TransferProgress.callback p)
                 (TransferProgress.cancelled p), [])) ;;
            try_except
              (emit (GetSftpClient hostname) ;;
               call (get_sftp_client hostname) ;;
               emit (LocalOpenAppend local_path) ;;
               emit (SftpFile (BackupInfo.filepath backup_info)) ;;
               call (sftp_file (BackupInfo.filepath backup_info)) ;;
               emit (RemoteSeek local_size) ;;
               reads <- ask (sftp_reads local_size (chunk_size self)) ;;
               resume_chunks local_path reads ;;
               emit SftpClose ;;
               ok <- _verify_download local_path remote_size ;;
               if ok then ret local_path
               else raise (TransferError Resume_download_verification_failed))
              (fun e => raise (TransferError (Resume_download_failed e)))
      end
  end.

End Engine.

(** *** Local backup sets *)

(** One value of the dictionary returned by [get_local_backups]. *)
Record local_backup : Type := mk_local {
  path : string;
  size_mb : Q;
  modified : Z;
  md5 : string
}.

(** [_determine_local_backup_type] *)
Definition _determine_local_backup_type (filename : string) : string :=
  let filename_lower := PyStr.lower filename in
  if PyStr.contains filename_lower "database" || PyStr.endswith filename_lower ".sql.gz"
  then "database"
  else if PyStr.endswith filename_lower ".tar" && PyStr.contains filename_lower "private"
  then "private_files"
  else if PyStr.endswith filename_lower ".tar"
  then "files"
  else if PyStr.contains filename_lower "config"
  then "config"
  else "unknown".

(** The [BackupInfo] built from a local file (lines 372-381). *)
Definition local_backup_info (filename : string) (info : local_backup) : BackupInfo.t :=
  BackupInfo.mk filename (path info) "unknown"
    (_determine_local_backup_type filename) (modified info) (size_mb info)
    (PyStr.endswith_any filename [".gz"; ".tar"; ".tgz"]) (Some (md5 info)).

(** One iteration of the grouping loop (lines 361-382). *)
Definition local_group_step (g : groups) (entry : string * local_backup) : groups :=
  let '(filename, info) := entry in
  match timestamp_match filename with
  | Some ts => groups_append g ts (local_backup_info filename info)
  | None => g
  end.

(** The site name of a set (lines 388-393). *)
Fixpoint set_site_name (backup_files : list BackupInfo.t) : string :=
  match backup_files with
  | [] => "unknown"
  | backup_file :: rest =>
      match PyStr.split "-" (BackupInfo.filename backup_file) with
      | _ :: part1 :: _ => PyStr.replace "_" "." part1
      | _ => set_site_name rest
      end
  end.

(** The type of a set (lines 396-407). *)
Definition set_backup_type (backup_files : list BackupInfo.t) : string :=
  if has_database backup_files && has_files backup_files
  then "complete"
  else if has_database backup_files && negb (has_files backup_files)
  then "database"
  else if has_files backup_files && negb (has_database backup_files)
  then "files"
  else "mixed".

(** Body of the loop over [backup_groups.items()]. *)
Definition make_set (g : string * list BackupInfo.t) : option (string * BackupSet.t) :=
  let '(timestamp, backup_files) := g in
  let site_name := set_site_name backup_files in
  let backup_type := set_backup_type backup_files in
  let total_size := py_sum (map BackupInfo.size_mb backup_files) in
  match py_max (map BackupInfo.created_at backup_files) with
  | None => None
  | Some latest_time =>
      Some (timestamp,
            BackupSet.mk timestamp site_name backup_type latest_time total_size
              backup_files)
  end.

(** [get_local_backup_sets], given the result of [get_local_backups]; the
    dictionary it returns is listed in insertion order. *)
Definition get_local_backup_sets (local_backups : list (string * local_backup))
  : option (list (string * BackupSet.t)) :=
  match local_backups with
  | [] => Some []
  | _ => mapM make_set (fold_left local_group_step local_backups [])
  end.

(** *** Housekeeping of the local storage *)

(** [file_path.unlink()] inside [try: ... except Exception as e: print(...)]:
    a file that is not there, or that the operating system does not let go,
    is reported and passed over. *)
Definition unlink_or_report {R : Type} {C : Collaborators R} (file_path : string)
  : M (R := R) unit :=
  try_except
    (sz <- local_size file_path ;;
     match sz with
     | Some _ => os_remove file_path
     | None => raise (FileNotFoundError file_path)
     end)
    (fun _ => ret tt).

(** The loop over [sorted_backups[keep_latest:]] of [cleanup_local_backups]. *)
Fixpoint remove_backups {R : Type} {C : Collaborators R}
  (entries : list (string * local_backup)) : M (R := R) unit :=
  match entries with
  | [] => ret tt
  | (filename, info) :: rest =>
      unlink_or_report (path info) ;; remove_backups rest
  end.

(** [cleanup_local_backups], given the result of [get_local_backups]. *)
Definition cleanup_local_backups {R : Type} {C : Collaborators R}
  (backups : list (string * local_backup)) (keep_latest : Z) : M (R := R) unit :=
  if Z.of_nat (length backups) <=? keep_latest then ret tt
  else
    let sorted_backups := py_sorted_reverse (fun x => modified (snd x)) backups in
    remove_backups (py_slice_from keep_latest sorted_backups).

(** *** Checksums *)

(** [hashlib]: [new] raises for an algorithm it does not know. *)
Record hashlib : Type := mk_hashlib {
  hash_state : Type;
  hash_new : string -> result hash_state;
  hash_update : hash_state -> list byte -> hash_state;
  hexdigest : hash_state -> string
}.

(** [f.read(n)] on what is left of a file: a negative [n] reads it all. *)
Definition file_read (n : Z) (rest : list byte) : list byte :=
  if n <? 0 then rest else take (Z.to_nat n) rest.

(** [while chunk := f.read(self.chunk_size): hash_obj.update(chunk)]; every
    round takes at least one byte, so [rounds] above the length of the file
    is never used up. *)
Fixpoint hash_chunks (lib : hashlib) (n : Z) (rounds : nat)
  (hash_obj : hash_state lib) (rest : list byte) : hash_state lib :=
  match rounds with
  | O => hash_obj
  | S rounds' =>
      match file_read n rest with
      | [] => hash_obj
      | chunk =>
          hash_chunks lib n rounds' (hash_update lib hash_obj chunk)
            (drop (length chunk) rest)
      end
  end.

(** [calculate_file_hash] *)
Definition calculate_file_hash {R : Type} (lib : hashlib) (self : t)
  (file_path algorithm : string) : M (R := R) string :=
  fun w =>
    match hash_new lib algorithm with
    | Raise e => (w, Raise e)
    | Return hash_obj =>
        match local_fs w !! file_path with
        | None => (w, Raise (FileNotFoundError file_path))
        | Some content =>
            (w, Return (hexdigest lib
                          (hash_chunks lib (chunk_size self) (S (length content))
                             hash_obj content)))
        end
    end.

(** The shell command of [compare_checksums]. *)
Definition md5_command (remote_path : string) : string :=
  ("md5sum " ++ dquote ++ remote_path ++ dquote
   ++ " 2>/dev/null || md5 -r " ++ dquote ++ remote_path ++ dquote)%string.

(** [compare_checksums]; [split()[0]] of an empty answer is an [IndexError],
    which the [except] turns into [False] like every other exception. *)
Definition compare_checksums {R : Type} {C : Collaborators R} (lib : hashlib)
  (self : t) (hostname local_path remote_path : string) : M (R := R) bool :=
  try_except
    (local_checksum <- calculate_file_hash lib self local_path "md5" ;;
     emit (ExecuteCommand hostname (md5_command remote_path)) ;;
     r <- call (execute_command hostname (md5_command remote_path)) ;;
     let '(exit_code, stdout, _) := r in
     if exit_code =? 0 then
       match PyStr.split_ws (PyStr.strip stdout) with
       | remote_checksum :: _ => ret (String.eqb local_checksum remote_checksum)
       | [] => raise (OtherError "IndexError: list index out of range")
       end
     else ret false)
    (fun _ => ret false).

End TransferManager.

(** ** [SSHManager]: the probes built on [execute_command]
    ([core/ssh_manager.py]) *)

Module SSHManager.
Section Remote.
Context {R : Type} {C : Collaborators R}.

(** [file_exists] *)
Definition file_exists (hostname remote_path : string) : M (R := R) bool :=
  try_except
    (let command := ("test -e " ++ dquote ++ remote_path ++ dquote)%string in
     emit (ExecuteCommand hostname command) ;;
     r <- call (execute_command hostname command) ;;
     let '(exit_code, _, _) := r in
     ret (exit_code =? 0))
    (fun _ => ret false).

(** [is_directory] *)
Definition is_directory (hostname remote_path : string) : M (R := R) bool :=
  try_except
    (let command := ("test -d " ++ dquote ++ remote_path ++ dquote)%string in
     emit (ExecuteCommand hostname command) ;;
     r <- call (execute_command hostname command) ;;
     let '(exit_code, _, _) := r in
     ret (exit_code =? 0))
    (fun _ => ret false).

End Remote.
End SSHManager.

(** ** [BackupManager]: the methods that talk to the remote host
    ([core/backup_manager.py]) *)

Module BackupManagerIO.

(** The exceptions that leave these methods. *)
Inductive error : Type :=
| IndexError
| ValueError
| BackupError (msg : error_message)
with error_message : Type :=
| Failed_to_list_backups_for (site_name : string) (e : exception).

Inductive outcome (A : Type) : Type :=
| Done (a : A)
| Fail (e : error).
Arguments Done {A} a.
Arguments Fail {A} e.

Definition newline : ascii := ascii_of_nat 10.

Section Remote.
Context {R : Type} {C : Collaborators R}.

(** Whether [datetime.fromtimestamp] accepts a timestamp (the range depends on
    the platform); it raises otherwise. *)
Variable timestamp_in_range : Z -> bool.

(** The shell command of [_parse_backup_info]. *)
Definition stat_command (filepath : string) : string :=
  ("stat -c " ++ dquote ++ "%s %Y" ++ dquote ++ " " ++ dquote ++ filepath ++ dquote
   ++ " 2>/dev/null || stat -f " ++ dquote ++ "%z %m" ++ dquote ++ " "
   ++ dquote ++ filepath ++ dquote)%string.

(** [_parse_backup_info]: every exception inside ends in [None]. *)
Definition _parse_backup_info (hostname filepath filename site_name : string)
  : M (R := R) (option BackupInfo.t) :=
  try_except
    (emit (ExecuteCommand hostname (stat_command filepath)) ;;
     r <- call (execute_command hostname (stat_command filepath)) ;;
     let '(exit_code, stdout, _) := r in
     if negb (exit_code =? 0) then ret None
     else
       match PyStr.split_ws (PyStr.strip stdout) with
       | part0 :: part1 :: _ =>
           match PyStr.parse_int part0, PyStr.parse_int part1 with
           | Some size_bytes, Some timestamp =>
               let size_mb := py_round2 (inject_Z size_bytes / inject_Z (1024 * 1024)) in
               if timestamp_in_range timestamp then
                 ret (Some (BackupInfo.mk filename filepath site_name
                              (BackupManager._determine_backup_type filename)
                              timestamp size_mb
                              (PyStr.endswith_any filename [".gz"; ".tar"; ".tgz"])
                              None))
               else raise (OtherError "OverflowError: timestamp out of range")
           | _, _ => raise (OtherError "ValueError: invalid literal for int()")
           end
       | _ => ret None
       end)
    (fun _ => ret None).

(** The directory the backups of a site are in. *)
Definition backup_path_of (bench_path site_name : string) : string :=
  (bench_path ++ "/sites/" ++ site_name ++ "/private/backups")%string.

(** The loop of [list_backups] over the lines of the listing. *)
Fixpoint scan_lines (hostname backup_path site_name : string) (lines : list string)
  (backups : list BackupInfo.t) : M (R := R) (list BackupInfo.t) :=
  match lines with
  | [] => ret backups
  | line :: rest =>
      if String.eqb (PyStr.strip line) EmptyString || PyStr.startswith line "total"
      then scan_lines hostname backup_path site_name rest backups
      else
        let parts := PyStr.split_ws line in
        if (length parts <? 9)%nat || PyStr.startswith (hd EmptyString parts) "d"
        then scan_lines hostname backup_path site_name rest backups
        else
          let filename := List.last parts EmptyString in
          if negb (BackupManager._is_backup_file filename)
          then scan_lines hostname backup_path site_name rest backups
          else
            let filepath := (backup_path ++ "/" ++ filename)%string in
            backup_info <- _parse_backup_info hostname filepath filename site_name ;;
            match backup_info with
            | Some info =>
                scan_lines hostname backup_path site_name rest (backups ++ [info])
            | None => scan_lines hostname backup_path site_name rest backups
            end
  end.

(** The [try] block of [list_backups]. *)
Definition read_listing (hostname backup_path site_name : string)
  : M (R := R) (list BackupInfo.t) :=
  let command := ("ls -la " ++ dquote ++ backup_path ++ dquote)%string in
  emit (ExecuteCommand hostname command) ;;
  r <- call (execute_command hostname command) ;;
  let '(exit_code, stdout, _) := r in
  if negb (exit_code =? 0) then ret []
  else scan_lines hostname backup_path site_name (PyStr.split newline stdout) [].

(** [list_backups] *)
Definition list_backups (hostname bench_path site_name : string) (w : world R)
  : world R * outcome (list BackupInfo.t) :=
  let backup_path := backup_path_of bench_path site_name in
  match SSHManager.is_directory hostname backup_path w with
  | (w1, Return true) =>
      match read_listing hostname backup_path site_name w1 with
      | (w2, Return backups) =>
          (w2, Done (py_sorted_reverse BackupInfo.created_at backups))
      | (w2, Raise e) =>
          (w2, Fail (BackupError (Failed_to_list_backups_for site_name e)))
      end
  | (w1, _) => (w1, Done [])
  end.

(** [get_backup_set_files] *)
Definition get_backup_set_files (hostname : string) (backup_info : BackupInfo.t)
  (w : world R) : world R * outcome (list BackupInfo.t) :=
  match timestamp_match (BackupInfo.filename backup_info) with
  | None => (w, Done [backup_info])
  | Some timestamp =>
      match PyStr.split "-" (BackupInfo.filename backup_info) with
      | _ :: site_prefix :: _ =>
          let bench_path :=
            PyStr.dirname
              (PyStr.replace_sub
                 ("/sites/" ++ BackupInfo.site_name backup_info ++ "/private/backups")
                 EmptyString (BackupInfo.filepath backup_info)) in
          match list_backups hostname bench_path (BackupInfo.site_name backup_info) w with
          | (w1, Done all_backups) =>
              let related_backups :=
                List.filter
                  (fun backup =>
                     PyStr.startswith (BackupInfo.filename backup)
                       (timestamp ++ "-" ++ site_prefix))
                  all_backups in
              (w1, Done (match related_backups with
                         | [] => [backup_info]
                         | _ => related_backups
                         end))
          | (w1, Fail e) => (w1, Fail e)
          end
      | _ => (w, Fail IndexError)
      end
  end.

(** [list_backup_sets]: [list_backups], then the grouping of
    [BackupManager.list_backup_sets]. *)
Definition list_backup_sets (hostname bench_path site_name : string) (w : world R)
  : world R * outcome (list BackupSet.t) :=
  match list_backups hostname bench_path site_name w with
  | (w1, Done all_backups) =>
      match BackupManager.list_backup_sets site_name all_backups with
      | Some backup_sets => (w1, Done backup_sets)
      | None => (w1, Fail ValueError)
      end
  | (w1, Fail e) => (w1, Fail e)
  end.

(** [get_backup_size] *)
Definition get_backup_size (hostname backup_path : string) : M (R := R) (option Z) :=
  try_except
    (let command :=
       ("stat -c %s " ++ dquote ++ backup_path ++ dquote
        ++ " 2>/dev/null || stat -f %z " ++ dquote ++ backup_path ++ dquote)%string in
     emit (ExecuteCommand hostname command) ;;
     r <- call (execute_command hostname command) ;;
     let '(exit_code, stdout, _) := r in
     if (exit_code =? 0) && PyStr.isdigit (PyStr.strip stdout)
     then ret (Some (PyStr.to_int (PyStr.strip stdout)))
     else ret None)
    (fun _ => ret None).

(** One remote command of [verify_backup_integrity], judged by its exit code. *)
Definition exit_code_is_zero (hostname command : string) : M (R := R) bool :=
  emit (ExecuteCommand hostname command) ;;
  r <- call (execute_command hostname command) ;;
  let '(exit_code, _, _) := r in
  ret (exit_code =? 0).

(** [verify_backup_integrity] *)
Definition verify_backup_integrity (hostname : string) (backup_info : BackupInfo.t)
  : M (R := R) bool :=
  try_except
    (found <- SSHManager.file_exists hostname (BackupInfo.filepath backup_info) ;;
     if negb found then ret false
     else
       size <- get_backup_size hostname (BackupInfo.filepath backup_info) ;;
       match size with
       | None | Some 0 => ret false
       | Some _ =>
           if BackupInfo.compressed backup_info then
             if PyStr.endswith (BackupInfo.filename backup_info) ".gz" then
               exit_code_is_zero hostname
                 ("gzip -t " ++ dquote ++ BackupInfo.filepath backup_info ++ dquote)
             else if PyStr.endswith_any (BackupInfo.filename backup_info)
                       [".tar"; ".tgz"] then
               exit_code_is_zero hostname
                 ("tar -tf " ++ dquote ++ BackupInfo.filepath backup_info ++ dquote
                  ++ " > /dev/null")
             else ret true
           else ret true
       end)
    (fun _ => ret false).

End Remote.
End BackupManagerIO.

(** ** Concrete collaborators and sample data for the examples *)

Module Sample.

(** A remote side whose state is the number of calls made so far: the size
    query answers [stat_out], every [sftp.get] writes [partial] and then
    fails, every remote read fails. *)
Definition flaky (stat_out : string) (partial : list (list byte)) : Collaborators nat := {|
  execute_command := fun _ _ n => (S n, Return (0, stat_out, EmptyString));
  get_sftp_client := fun _ n => (S n, Return tt);
  sftp_get := fun _ _ n =>
    (S n, GetTransferred partial (Some (OtherError "Connection reset by peer")));
  sftp_put := fun _ _ n => (S n, mk_put [] (Some (OtherError "Connection reset by peer")));
  sftp_stat := fun _ n => (S n, Raise (FileNotFoundError "No such file"));
  sftp_mkdir := fun _ n => (S n, Return tt);
  sftp_file := fun _ n => (S n, Return tt);
  sftp_reads := fun _ _ n => (S n, [Raise (OtherError "Connection reset by peer")]);
  time_time := fun n => (S n, inject_Z (Z.of_nat n));
  os_unlink := fun _ n => (S n, Return tt)
|}.

(** A remote side that works: the artifact has ten bytes, and every
    [sftp.get] delivers them in one chunk. *)
Definition ten_bytes : list byte := repeat "000"%byte 10.

Definition steady : Collaborators nat := {|
  execute_command := fun _ _ n => (S n, Return (0, "10", EmptyString));
  get_sftp_client := fun _ n => (S n, Return tt);
  sftp_get := fun _ _ n => (S n, GetTransferred [ten_bytes] None);
  sftp_put := fun content _ n => (S n, mk_put [file_size content] None);
  sftp_stat := fun _ n => (S n, Return tt);
  sftp_mkdir := fun _ n => (S n, Return tt);
  sftp_file := fun _ n => (S n, Return tt);
  sftp_reads := fun _ _ n => (S n, [Return ten_bytes]);
  time_time := fun n => (S n, inject_Z (Z.of_nat n));
  os_unlink := fun _ n => (S n, Return tt)
|}.

Definition record (filename : string) (created_at : Z) (size_mb : Q) : BackupInfo.t :=
  BackupInfo.mk filename ("/home/frappe/bench/sites/s1/private/backups/" ++ filename)
    "s1" (BackupManager._determine_backup_type filename) created_at size_mb
    (PyStr.endswith_any filename [".gz"; ".tar"; ".tgz"]) None.

Definition db_2025 : BackupInfo.t := record "20250101_000000_database.sql.gz" 1000 (3 # 2).
Definition tar_2025 : BackupInfo.t := record "20250101_000000_public.tar" 1010 (5 # 2).
Definition no_token : BackupInfo.t := record "latest-database.sql.gz" 900 1.
Definition tiny : BackupInfo.t := record "20250101_000000_tiny.tar" 1020 0.

Definition empty_world (fs : gmap string (list byte)) : world nat := World fs O None [].

(** A download whose every attempt writes one byte of ten and then fails. *)
Definition failing_download : world nat * result string :=
  TransferManager.download_backup (C := flaky "10" [["000"%byte]])
    (TransferManager.init "/backups") "host1" db_2025 None None (empty_world ∅).

(** One download of that artifact into an empty directory. *)
Definition download_once : world nat * result string :=
  TransferManager.download_backup (C := steady)
    (TransferManager.init "/backups") "host1" tiny None None (empty_world ∅).


(** A resume of a one-byte partial file whose first remote read fails. *)
Definition failing_resume : world nat * result string :=
  TransferManager.resume_download (C := flaky "10" [])
    (TransferManager.init "/backups") "host1" db_2025
    "/backups/20250101_000000_database.sql.gz" None
    (empty_world {[ "/backups/20250101_000000_database.sql.gz" := ["000"%byte] ]}).

(** The remote side [flaky] on a local disk that lets no file go. *)
Definition locked (stat_out : string) (partial : list (list byte)) : Collaborators nat := {|
  execute_command := execute_command (Collaborators := flaky stat_out partial);
  get_sftp_client := get_sftp_client (Collaborators := flaky stat_out partial);
  sftp_get := sftp_get (Collaborators := flaky stat_out partial);
  sftp_put := sftp_put (Collaborators := flaky stat_out partial);
  sftp_stat := sftp_stat (Collaborators := flaky stat_out partial);
  sftp_mkdir := sftp_mkdir (Collaborators := flaky stat_out partial);
  sftp_file := sftp_file (Collaborators := flaky stat_out partial);
  sftp_reads := sftp_reads (Collaborators := flaky stat_out partial);
  time_time := time_time (Collaborators := flaky stat_out partial);
  os_unlink := fun _ n =>
    (S n, Raise (OtherError "PermissionError: [Errno 13] Permission denied"))
|}.

(** A streaming hash for the examples: the state is what was fed so far, the
    digest spells it out. *)
Definition spelling_hash : TransferManager.hashlib :=
  TransferManager.mk_hashlib (list byte) (fun _ => Return [])
    (fun hash_obj chunk => hash_obj ++ chunk) string_of_list_byte.

End Sample.

(** ** Vocabulary of the properties *)

(** The mathematical sum of a list of rationals. *)
Definition Qsum (xs : list Q) : Q := fold_right Qplus 0%Q xs.

(** Descending order of the sort key. *)
Definition desc {A : Type} (key : A -> Z) (a b : A) : Prop := key b <= key a.

(** A record whose file name starts with a timestamp token. *)
Definition has_token (b : BackupInfo.t) : bool :=
  match timestamp_match (BackupInfo.filename b) with
  | Some _ => true
  | None => false
  end.

Definition token_is (k : string) (b : BackupInfo.t) : Prop :=
  timestamp_match (BackupInfo.filename b) = Some k.

(** Every bucket is non-empty and holds records of its own token only. *)
Definition bucket_ok (kv : string * list BackupInfo.t) : Prop :=
  snd kv <> [] /\ Forall (token_is (fst kv)) (snd kv).

Definition well_grouped (g : groups) : Prop :=
  NoDup (map fst g) /\ Forall bucket_ok g.

(** What a set built by [list_backup_sets] is, in terms of its bucket. *)
Definition set_of_bucket (site : string) (kv : string * list BackupInfo.t)
  (s : BackupSet.t) : Prop :=
  BackupManager.make_set site kv = Some s.

Definition local_set_of_bucket (kv : string * list BackupInfo.t)
  (ks : string * BackupSet.t) : Prop :=
  TransferManager.make_set kv = Some ks.

(** The records the local scanner builds from the directory entries. *)
Definition local_records (entries : list (string * TransferManager.local_backup))
  : list BackupInfo.t :=
  map (fun e => TransferManager.local_backup_info (fst e) (snd e)) entries.

(** The derived fields of every set [list_backup_sets] builds. *)
Definition set_fields_ok (site : string) (s : BackupSet.t) : Prop :=
  py_max (map BackupInfo.created_at (BackupSet.files s)) = Some (BackupSet.created_at s)
  /\ BackupSet.total_size_mb s = py_sum (map BackupInfo.size_mb (BackupSet.files s))
  /\ BackupSet.site_name s = site
  /\ BackupSet.backup_type s = BackupManager.set_backup_type (BackupSet.files s).

(** The bytes a sequence of tracker operations adds to the counter. *)
Fixpoint total_delta (ops : list TransferProgress.op) : Z :=
  match ops with
  | [] => 0
  | TransferProgress.Update d :: ops' => d + total_delta ops'
  | TransferProgress.Cancel :: ops' => total_delta ops'
  end.

(** Every transfer attempt starts by asking for an SFTP client, so the
    attempts an operation made are the [GetSftpClient] events of its trace. *)
Definition is_GetSftpClient (e : event) : bool :=
  match e with
  | GetSftpClient _ => true
  | _ => false
  end.

Definition sessions (tr : list event) : nat :=
  length (List.filter is_GetSftpClient tr).

(** Arithmetic on the number of attempts in a trace. *)
Ltac sessions_lia :=
  unfold sessions in *; cbn [trace] in *;
  repeat rewrite List.filter_app in *; repeat rewrite length_app in *;
  simpl in *; lia.

(** The tokens of the records in the order in which they first appear: the
    insertion order of the dictionary [backup_groups]. *)
Definition remember_token (seen : list string) (b : BackupInfo.t) : list string :=
  match timestamp_match (BackupInfo.filename b) with
  | Some ts => if existsb (fun k => String.eqb k ts) seen then seen else seen ++ [ts]
  | None => seen
  end.

Definition tokens_in_order (recs : list BackupInfo.t) : list string :=
  fold_left remember_token recs [].

(** The calls of the closure [progress_callback] that one [sftp.get] makes:
    after each chunk, with the running byte count. *)
Fixpoint report_counts (p : TransferProgress.t) (so_far : Z) (sizes : list Z)
  : TransferProgress.t * list event :=
  match sizes with
  | [] => (p, [])
  | s :: rest =>
      let '(p1, e1) := TransferManager.progress_callback (so_far + s) p in
      let '(p2, e2) := report_counts p1 (so_far + s) rest in
      (p2, e1 ++ e2)
  end.

(** The running totals of a list of sizes, starting from [so_far]. *)
Fixpoint running_sums (so_far : Z) (sizes : list Z) : list Z :=
  match sizes with
  | [] => []
  | s :: rest => (so_far + s) :: running_sums (so_far + s) rest
  end.

(** The number of [update] calls in a sequence of tracker operations. *)
Fixpoint updates_in (ops : list TransferProgress.op) : nat :=
  match ops with
  | [] => 0
  | TransferProgress.Update _ :: ops' => S (updates_in ops')
  | TransferProgress.Cancel :: ops' => updates_in ops'
  end.

(** An observer that never cancels. *)
Definition never_cancels (cb : option observer) : Prop :=
  forall f, cb = Some f -> forall a b, f a b = false.

(** An SFTP request about [remote_dir] or one of the paths it starts with. *)
Definition on_the_way_to (remote_dir : string) (e : event) : Prop :=
  match e with
  | SftpStat p | SftpMkdir p => PyStr.startswith remote_dir p = true
  | _ => False
  end.

(** The directories a trace creates, in the order it creates them. *)
Fixpoint mkdirs (evs : list event) : list string :=
  match evs with
  | [] => []
  | SftpMkdir p :: rest => p :: mkdirs rest
  | _ :: rest => mkdirs rest
  end.

(** [a] is a proper leading part of [b]. *)
Definition proper_prefix (a b : string) : Prop :=
  PyStr.startswith b a = true /\ (String.length a < String.length b)%nat.

(** A remote command in a trace. *)
Definition is_command (e : event) : Prop :=
  match e with
  | ExecuteCommand _ _ => True
  | _ => False
  end.

(** From [w] to [w'] only remote commands were run: the local disk and the
    tracker are as they were. *)
Definition only_ran_commands {R : Type} (w w' : world R) : Prop :=
  local_fs w' = local_fs w /\ tracker w' = tracker w
  /\ exists evs, trace w' = trace w ++ evs /\ Forall is_command evs.

(** What holds of every record [list_backups] returns for the backup
    directory [backup_path] of the site [site]. *)
Definition listed_ok (backup_path site : string) (b : BackupInfo.t) : Prop :=
  BackupManager._is_backup_file (BackupInfo.filename b) = true
  /\ BackupInfo.filepath b = (backup_path ++ "/" ++ BackupInfo.filename b)%string
  /\ BackupInfo.site_name b = site
  /\ BackupInfo.backup_type b
     = BackupManager._determine_backup_type (BackupInfo.filename b)
  /\ BackupInfo.compressed b = true
  /\ BackupInfo.md5_hash b = None.

(** From [w] to [w'] exactly [n] remote commands were run, and nothing else
    happened. *)
Definition ran_commands {R : Type} (n : nat) (w w' : world R) : Prop :=
  local_fs w' = local_fs w /\ tracker w' = tracker w
  /\ exists evs, trace w' = trace w ++ evs /\ Forall is_command evs
                 /\ length evs = n.

(** [k] attempts in a row fail, from [w] on: after each of them but the last
    the wait and the removal before the retry go through, and the next
    attempt starts without a file at [lp]; the last one ends in [w'] with the
    error [e]. *)
Inductive failed_attempts {R : Type} {C : Collaborators R}
  (self : TransferManager.t) (h rp lp : string) (rs : Z)
  : nat -> world R -> world R -> exception -> Prop :=
| failed_last (w w' : world R) (e : exception) :
    TransferManager.download_attempt h rp lp rs w = (w', Raise e) ->
    failed_attempts self h rp lp rs 1 w w' e
| failed_retry (k : nat) (w w1 w2 w' : world R) (e1 e : exception) :
    TransferManager.download_attempt h rp lp rs w = (w1, Raise e1) ->
    TransferManager.before_retry self lp w1 = (w2, Return tt) ->
    local_fs w2 !! lp = None ->
    failed_attempts self h rp lp rs k w2 w' e ->
    failed_attempts self h rp lp rs (S k) w w' e.


(** The offsets a trace seeks the remote file to, in the order it does. *)
Fixpoint seeks (evs : list event) : list Z :=
  match evs with
  | [] => []
  | RemoteSeek offset :: rest => offset :: seeks rest
  | _ :: rest => seeks rest
  end.

(** The chunks a sequence of remote reads delivers before its first
    failure. *)
Fixpoint chunks_of (reads : list (result (list byte))) : list (list byte) :=
  match reads with
  | Return chunk :: rest => chunk :: chunks_of rest
  | _ => []
  end.

(** The shell command [list_backups] reads the backup directory with. *)
Definition listing_command (backup_path : string) : string :=
  ("ls -la " ++ dquote ++ backup_path ++ dquote)%string.

(** The remote commands of [verify_backup_integrity], in the order it runs
    them: the existence test, the size query and, for a record marked
    compressed, the test of the archive its file name calls for. *)
Definition integrity_commands (h : string) (info : BackupInfo.t) : list event :=
  [ExecuteCommand h ("test -e " ++ dquote ++ BackupInfo.filepath info ++ dquote);
   ExecuteCommand h
     ("stat -c %s " ++ dquote ++ BackupInfo.filepath info ++ dquote
      ++ " 2>/dev/null || stat -f %z " ++ dquote ++ BackupInfo.filepath info
      ++ dquote)]
  ++ (if BackupInfo.compressed info then
        if PyStr.endswith (BackupInfo.filename info) ".gz" then
          [ExecuteCommand h
             ("gzip -t " ++ dquote ++ BackupInfo.filepath info ++ dquote)]
        else if PyStr.endswith_any (BackupInfo.filename info) [".tar"; ".tgz"] then
          [ExecuteCommand h
             ("tar -tf " ++ dquote ++ BackupInfo.filepath info ++ dquote
              ++ " > /dev/null")]
        else []
      else []).

(** * Properties *)

(** ** Python built-ins *)

Lemma fold_left_Zmax_ge (l : list Z) (a : Z) : a <= fold_left Z.max l a.
Proof.
  revert a; induction l as [|x l IH]; intros a; simpl; [lia|].
  specialize (IH (Z.max a x)); lia.
Qed.

Lemma fold_left_Zmax_upper (l : list Z) (a x : Z) :
  In x l -> x <= fold_left Z.max l a.
Proof.
  revert a; induction l as [|y l IH]; intros a Hin; simpl in *; [tauto|].
  destruct Hin as [->|Hin].
  - pose proof (fold_left_Zmax_ge l (Z.max a x)); lia.
  - now apply IH.
Qed.

Lemma fold_left_Zmax_attained (l : list Z) (a : Z) :
  fold_left Z.max l a = a \/ In (fold_left Z.max l a) l.
Proof.
  revert a; induction l as [|y l IH]; intros a; simpl; [now left|].
  destruct (IH (Z.max a y)) as [H|H]; [|now right; right].
  rewrite H. destruct (Z.max_spec a y) as [[_ ->]|[_ ->]]; [right; now left | now left].
Qed.

Lemma py_max_spec (l : list Z) (m : Z) :
  py_max l = Some m -> In m l /\ (forall x, In x l -> x <= m).
Proof.
  destruct l as [|a l]; simpl; [discriminate|].
  intros [= <-]. split.
  - destruct (fold_left_Zmax_attained l a) as [->|H]; [now left | now right].
  - intros x [<-|Hx]; [apply fold_left_Zmax_ge | now apply fold_left_Zmax_upper].
Qed.

Lemma fold_left_Qplus (xs : list Q) (a : Q) :
  (fold_left Qplus xs a == a + Qsum xs)%Q.
Proof.
  revert a; induction xs as [|x xs IH]; intros a; simpl.
  - ring.
  - rewrite IH. ring.
Qed.

Lemma py_sum_Qsum (xs : list Q) : (py_sum xs == Qsum xs)%Q.
Proof. unfold py_sum. rewrite fold_left_Qplus. ring. Qed.

Section PySortedFacts.
Context {A : Type} (key : A -> Z).

Lemma insert_desc_perm (x : A) (l : list A) : Permutation (insert_desc key x l) (x :: l).
Proof.
  induction l as [|y l IH]; simpl; [reflexivity|].
  destruct (key x <? key y); [|reflexivity].
  rewrite IH. apply perm_swap.
Qed.

Lemma py_sorted_reverse_perm (l : list A) : Permutation (py_sorted_reverse key l) l.
Proof.
  induction l as [|x l IH]; simpl; [reflexivity|].
  rewrite insert_desc_perm. now constructor.
Qed.

Lemma insert_desc_sorted (x : A) (l : list A) :
  StronglySorted (desc key) l -> StronglySorted (desc key) (insert_desc key x l).
Proof.
  induction 1 as [|y l Hs IH Hy]; simpl.
  - repeat constructor.
  - destruct (Z.ltb_spec (key x) (key y)) as [Hlt|Hge].
    + constructor; [exact IH|].
      eapply Permutation_Forall; [symmetry; apply insert_desc_perm|].
      constructor; [unfold desc; lia | exact Hy].
    + constructor; [now constructor|].
      constructor; [exact Hge|].
      eapply Forall_impl; [exact Hy|]. unfold desc; simpl; intros; lia.
Qed.

Lemma py_sorted_reverse_sorted (l : list A) :
  StronglySorted (desc key) (py_sorted_reverse key l).
Proof.
  induction l as [|x l IH]; simpl; [constructor | now apply insert_desc_sorted].
Qed.

(** Stability: the elements of any one key keep their order. *)
Lemma insert_desc_stable (t : Z) (x : A) (l : list A) :
  List.filter (fun a => key a =? t) (insert_desc key x l)
  = List.filter (fun a => key a =? t) (x :: l).
Proof.
  induction l as [|y l IH]; [reflexivity|].
  cbn [insert_desc]. destruct (Z.ltb_spec (key x) (key y)) as [Hlt|Hge]; [|reflexivity].
  cbn [List.filter] in *. rewrite IH.
  destruct (Z.eqb_spec (key x) t), (Z.eqb_spec (key y) t); try reflexivity; lia.
Qed.

Lemma py_sorted_reverse_stable (t : Z) (l : list A) :
  List.filter (fun a => key a =? t) (py_sorted_reverse key l)
  = List.filter (fun a => key a =? t) l.
Proof.
  induction l as [|x l IH]; [reflexivity|].
  cbn [py_sorted_reverse fold_right]. rewrite insert_desc_stable.
  cbn [List.filter]. fold (py_sorted_reverse key l). now rewrite IH.
Qed.

End PySortedFacts.

(** ** Remote paths *)

Lemma rstrip_by_length (p : ascii -> bool) (s : string) :
  (String.length (PyStr.rstrip_by p s) <= String.length s)%nat.
Proof.
  induction s as [|c s IH]; simpl; [lia|].
  destruct (PyStr.rstrip_by p s); [destruct (p c)|]; simpl in *; lia.
Qed.

Lemma rstrip_by_full (p : ascii -> bool) (s : string) :
  String.length (PyStr.rstrip_by p s) = String.length s -> PyStr.rstrip_by p s = s.
Proof.
  induction s as [|c s IH]; simpl; [reflexivity|].
  destruct (PyStr.rstrip_by p s) as [|c' r].
  - destruct (p c); simpl; [discriminate|].
    destruct s; [reflexivity | discriminate].
  - simpl. intros [= Hlen]. now rewrite IH.
Qed.

Lemma upto_last_sep_length (s : string) :
  (String.length (PyStr.upto_last_sep s) <= String.length s)%nat.
Proof.
  induction s as [|c s IH]; simpl; [lia|].
  destruct (PyStr.upto_last_sep s); [destruct (PyStr.is_sep c)|]; simpl in *; lia.
Qed.

Lemma upto_last_sep_full (s : string) :
  String.length (PyStr.upto_last_sep s) = String.length s -> PyStr.upto_last_sep s = s.
Proof.
  induction s as [|c s IH]; simpl; [reflexivity|].
  destruct (PyStr.upto_last_sep s) as [|c' r].
  - destruct (PyStr.is_sep c); simpl; [|discriminate].
    destruct s; [reflexivity | discriminate].
  - simpl. intros [= Hlen]. now rewrite IH.
Qed.

(** A proper parent directory is a shorter path: the recursion of
    [_ensure_remote_directory] ends. *)
Lemma dirname_shorter (p : string) :
  PyStr.dirname p <> p -> (String.length (PyStr.dirname p) < String.length p)%nat.
Proof.
  unfold PyStr.dirname. intros Hne.
  pose proof (upto_last_sep_length p) as Hlen.
  pose proof (upto_last_sep_full p) as Hfull.
  destruct (PyStr.upto_last_sep p) as [|c head] eqn:E.
  - destruct p; [congruence | simpl; lia].
  - destruct (PyStr.all_chars PyStr.is_sep (String c head)).
    + destruct (Nat.eq_dec (String.length (String c head)) (String.length p)) as [Heq|];
        [now apply Hfull in Heq | lia].
    + pose proof (rstrip_by_length PyStr.is_sep (String c head)) as Hlen'.
      pose proof (rstrip_by_full PyStr.is_sep (String c head)) as Hfull'.
      destruct (Nat.eq_dec (String.length (PyStr.rstrip_by PyStr.is_sep (String c head)))
                  (String.length p)) as [Heq|]; [|lia].
      exfalso. apply Hne. rewrite Hfull' by lia. apply Hfull. lia.
Qed.

(** ** Grouping by timestamp token *)

Lemma groups_append_keys (g : groups) (ts : string) (b : BackupInfo.t) (k : string) :
  In k (map fst (groups_append g ts b)) <-> k = ts \/ In k (map fst g).
Proof.
  induction g as [|[k0 fs] g IH]; simpl.
  - intuition.
  - destruct (String.eqb_spec k0 ts) as [->|Hne]; simpl; [intuition|].
    rewrite IH. intuition.
Qed.

Lemma groups_append_well_grouped (g : groups) (ts : string) (b : BackupInfo.t) :
  token_is ts b -> well_grouped g -> well_grouped (groups_append g ts b).
Proof.
  intros Hb. induction g as [|[k0 fs] g IH]; intros [Hnd Hok]; simpl.
  - split; [apply NoDup_singleton|].
    constructor; [|constructor]. split; simpl; [discriminate|].
    constructor; [exact Hb | constructor].
  - simpl in Hnd. apply NoDup_cons in Hnd as [Hk0 Hnd].
    apply Forall_cons in Hok as [[Hne Hfs] Hok]. simpl in Hne, Hfs.
    destruct (String.eqb_spec k0 ts) as [->|Hneq]; simpl.
    + split; [apply NoDup_cons; split; assumption|].
      constructor; [|exact Hok]. split; simpl.
      * intros Happ. apply app_eq_nil in Happ as [_ Habs]. discriminate.
      * apply Forall_app; split; [exact Hfs | repeat constructor; exact Hb].
    + destruct (IH (conj Hnd Hok)) as [Hnd' Hok'].
      split.
      * apply NoDup_cons; split; [|exact Hnd'].
        intros Hin. simpl in Hin.
        apply (proj1 (list_elem_of_In _ _)) in Hin.
        apply (proj1 (groups_append_keys _ _ _ _)) in Hin.
        destruct Hin as [->|Hin]; [congruence|].
        apply Hk0. apply (proj2 (list_elem_of_In _ _)), Hin.
      * constructor; [split; assumption | exact Hok'].
Qed.

Lemma groups_append_members (g : groups) (ts : string) (b : BackupInfo.t) :
  Permutation (concat (map snd (groups_append g ts b))) (concat (map snd g) ++ [b]).
Proof.
  induction g as [|[k0 fs] g IH]; simpl; [reflexivity|].
  destruct (String.eqb k0 ts); simpl.
  - rewrite <- !app_assoc. apply Permutation_app_head, Permutation_app_comm.
  - rewrite IH. now rewrite app_assoc.
Qed.

Lemma group_step_well_grouped (g : groups) (b : BackupInfo.t) :
  well_grouped g -> well_grouped (group_step g b).
Proof.
  unfold group_step. destruct (timestamp_match (BackupInfo.filename b)) eqn:E; [|tauto].
  now apply groups_append_well_grouped.
Qed.

Lemma group_step_members (g : groups) (b : BackupInfo.t) :
  Permutation (concat (map snd (group_step g b)))
              (concat (map snd g) ++ List.filter has_token [b]).
Proof.
  unfold group_step, has_token; simpl.
  destruct (timestamp_match (BackupInfo.filename b)); simpl.
  - apply groups_append_members.
  - now rewrite app_nil_r.
Qed.

Lemma fold_group_step_well_grouped (l : list BackupInfo.t) (g : groups) :
  well_grouped g -> well_grouped (fold_left group_step l g).
Proof.
  revert g; induction l as [|b l IH]; intros g Hg; simpl; [exact Hg|].
  apply IH, group_step_well_grouped, Hg.
Qed.

Lemma fold_group_step_members (l : list BackupInfo.t) (g : groups) :
  Permutation (concat (map snd (fold_left group_step l g)))
              (concat (map snd g) ++ List.filter has_token l).
Proof.
  revert g; induction l as [|b l IH]; intros g.
  - simpl. now rewrite app_nil_r.
  - cbn [fold_left]. rewrite IH, group_step_members.
    rewrite <- app_assoc. apply Permutation_app_head.
    change (b :: l) with ([b] ++ l). now rewrite List.filter_app.
Qed.

Lemma group_by_timestamp_well_grouped (l : list BackupInfo.t) :
  well_grouped (group_by_timestamp l).
Proof.
  apply fold_group_step_well_grouped. split; constructor.
Qed.

Lemma group_by_timestamp_members (l : list BackupInfo.t) :
  Permutation (concat (map snd (group_by_timestamp l))) (List.filter has_token l).
Proof. apply (fold_group_step_members l []). Qed.

Lemma groups_append_order (g : groups) (ts : string) (b : BackupInfo.t) :
  map fst (groups_append g ts b)
  = if existsb (fun k => String.eqb k ts) (map fst g) then map fst g
    else map fst g ++ [ts].
Proof.
  induction g as [|[k0 fs] g IH]; simpl; [reflexivity|].
  destruct (String.eqb k0 ts); simpl; [reflexivity|].
  rewrite IH. now destruct (existsb _ (map fst g)).
Qed.

(** The buckets are in the order in which their tokens first appear. *)
Lemma group_by_timestamp_order (l : list BackupInfo.t) :
  map fst (group_by_timestamp l) = tokens_in_order l.
Proof.
  unfold group_by_timestamp, tokens_in_order.
  change (@nil string) with (map fst (@nil (string * list BackupInfo.t))).
  generalize (@nil (string * list BackupInfo.t)) as g.
  induction l as [|b l IH]; intros g; [reflexivity|].
  cbn [fold_left]. rewrite IH. f_equal.
  unfold group_step, remember_token.
  destruct (timestamp_match (BackupInfo.filename b)); [|reflexivity].
  apply groups_append_order.
Qed.

(** The grouping loop of the local scanner is the same loop, run on the
    records built from the directory entries. *)
Lemma fold_local_group_step (entries : list (string * TransferManager.local_backup))
  (g : groups) :
  fold_left TransferManager.local_group_step entries g
  = fold_left group_step
      (map (fun e => TransferManager.local_backup_info (fst e) (snd e)) entries) g.
Proof.
  revert g; induction entries as [|[filename info] entries IH]; intros g; [reflexivity|].
  cbn [fold_left map]. rewrite IH. reflexivity.
Qed.

(** *** From buckets to sets *)

Lemma BackupManager_make_set_spec (site : string) (kv : string * list BackupInfo.t)
  (s : BackupSet.t) :
  BackupManager.make_set site kv = Some s ->
  BackupSet.timestamp s = fst kv /\ BackupSet.files s = snd kv
  /\ BackupSet.site_name s = site
  /\ BackupSet.backup_type s = BackupManager.set_backup_type (snd kv)
  /\ py_max (map BackupInfo.created_at (snd kv)) = Some (BackupSet.created_at s)
  /\ BackupSet.total_size_mb s = py_sum (map BackupInfo.size_mb (snd kv)).
Proof.
  destruct kv as [k fs]; unfold BackupManager.make_set.
  destruct (py_max _) eqn:E; [|discriminate].
  intros [= <-]. repeat split; first [exact E | reflexivity].
Qed.

Lemma BackupManager_make_set_total (site : string) (kv : string * list BackupInfo.t) :
  bucket_ok kv -> is_Some (BackupManager.make_set site kv).
Proof.
  destruct kv as [k fs]; intros [Hne _]; simpl in Hne.
  unfold BackupManager.make_set.
  destruct fs; [congruence|]. eexists; reflexivity.
Qed.

Lemma TransferManager_make_set_spec (kv : string * list BackupInfo.t)
  (ks : string * BackupSet.t) :
  TransferManager.make_set kv = Some ks ->
  fst ks = fst kv /\ BackupSet.timestamp (snd ks) = fst kv
  /\ BackupSet.files (snd ks) = snd kv
  /\ BackupSet.backup_type (snd ks) = TransferManager.set_backup_type (snd kv)
  /\ py_max (map BackupInfo.created_at (snd kv)) = Some (BackupSet.created_at (snd ks))
  /\ BackupSet.total_size_mb (snd ks) = py_sum (map BackupInfo.size_mb (snd kv)).
Proof.
  destruct kv as [k fs]; unfold TransferManager.make_set.
  destruct (py_max _) eqn:E; [|discriminate].
  intros [= <-]. repeat split; first [exact E | reflexivity].
Qed.

Lemma TransferManager_make_set_total (kv : string * list BackupInfo.t) :
  bucket_ok kv -> is_Some (TransferManager.make_set kv).
Proof.
  destruct kv as [k fs]; intros [Hne _]; simpl in Hne.
  unfold TransferManager.make_set.
  destruct fs; [congruence|]. eexists; reflexivity.
Qed.

Lemma Permutation_concat {A : Type} (l1 l2 : list (list A)) :
  Permutation l1 l2 -> Permutation (concat l1) (concat l2).
Proof.
  induction 1 as [|x l1 l2 _ IH|x y l|l1 l2 l3 _ IH1 _ IH2]; simpl.
  - reflexivity.
  - now apply Permutation_app_head.
  - rewrite !app_assoc. apply Permutation_app_tail, Permutation_app_comm.
  - now transitivity (concat l2).
Qed.

Lemma sets_of_buckets (site : string) (g : groups) (sets : list BackupSet.t) :
  Forall2 (set_of_bucket site) g sets ->
  map BackupSet.timestamp sets = map fst g /\ map BackupSet.files sets = map snd g.
Proof.
  induction 1 as [|kv s g sets Hs _ [IH1 IH2]]; [now split|].
  apply BackupManager_make_set_spec in Hs as (Ht & Hf & _).
  simpl. now rewrite Ht, Hf, IH1, IH2.
Qed.

Lemma backup_sets_unsorted_total (site : string) (recs : list BackupInfo.t) :
  exists sets,
    BackupManager.backup_sets_unsorted site recs = Some sets
    /\ Forall2 (set_of_bucket site) (group_by_timestamp recs) sets.
Proof.
  unfold BackupManager.backup_sets_unsorted.
  destruct (mapM_is_Some_2 (BackupManager.make_set site) (group_by_timestamp recs))
    as [sets Hsets].
  - eapply Forall_impl; [apply group_by_timestamp_well_grouped|].
    intros kv Hkv. now apply BackupManager_make_set_total.
  - exists sets. split; [exact Hsets|]. now apply mapM_Some_1.
Qed.

Lemma local_sets_of_buckets (g : groups) (sets : list (string * BackupSet.t)) :
  Forall2 local_set_of_bucket g sets ->
  map fst sets = map fst g
  /\ map (fun ks => BackupSet.files (snd ks)) sets = map snd g
  /\ Forall (fun ks => BackupSet.timestamp (snd ks) = fst ks) sets.
Proof.
  induction 1 as [|kv s g sets Hs _ (IH1 & IH2 & IH3)]; [now repeat split|].
  apply TransferManager_make_set_spec in Hs as (Hk & Ht & Hf & _).
  simpl. rewrite Hk, Hf, IH1, IH2. repeat split.
  constructor; [congruence | exact IH3].
Qed.

Lemma get_local_backup_sets_total (entries : list (string * TransferManager.local_backup)) :
  exists sets,
    TransferManager.get_local_backup_sets entries = Some sets
    /\ Forall2 local_set_of_bucket (group_by_timestamp (local_records entries)) sets.
Proof.
  unfold TransferManager.get_local_backup_sets.
  destruct entries as [|e entries]; [exists []; split; [reflexivity | constructor]|].
  rewrite fold_local_group_step. fold (local_records (e :: entries)).
  fold (group_by_timestamp (local_records (e :: entries))).
  destruct (mapM_is_Some_2 TransferManager.make_set
              (group_by_timestamp (local_records (e :: entries)))) as [sets Hsets].
  - eapply Forall_impl; [apply group_by_timestamp_well_grouped|].
    intros kv Hkv. now apply TransferManager_make_set_total.
  - exists sets. split; [exact Hsets|]. now apply mapM_Some_1.
Qed.

(** *** The type of a set *)

Lemma TransferManager_set_backup_type_spec (fs : list BackupInfo.t) :
  TransferManager.set_backup_type fs =
    match has_database fs, has_files fs with
    | true, true => "complete"
    | true, false => "database"
    | false, true => "files"
    | false, false => "mixed"
    end.
Proof.
  unfold TransferManager.set_backup_type.
  now destruct (has_database fs), (has_files fs).
Qed.

Lemma BackupManager_set_backup_type_spec (fs : list BackupInfo.t) :
  BackupManager.set_backup_type fs =
    match has_database fs, has_files fs with
    | true, true => if has_config fs then "complete" else "mixed"
    | true, false => "database"
    | false, true => "files"
    | false, false => "mixed"
    end.
Proof.
  unfold BackupManager.set_backup_type.
  now destruct (has_database fs), (has_files fs), (has_config fs).
Qed.

Lemma sets_of_buckets_fields (site : string) (g : groups) (sets : list BackupSet.t) :
  Forall2 (set_of_bucket site) g sets -> Forall (set_fields_ok site) sets.
Proof.
  induction 1 as [|kv s g sets Hs _ IH]; constructor; [|exact IH].
  apply BackupManager_make_set_spec in Hs as (_ & Hf & Hsite & Hty & Hmax & Hsum).
  unfold set_fields_ok. rewrite Hf. auto.
Qed.

(** ** Claims about backup-set grouping *)

(** C3, as the specification states it, fails: a record whose file name does
    not start with a timestamp token is in the input but in none of the
    resulting sets, for [list_backup_sets] and for the local scanner alike. *)
Lemma C3_record_without_token_is_dropped :
  timestamp_match (BackupInfo.filename Sample.no_token) = None
  /\ In Sample.no_token [Sample.db_2025; Sample.no_token]
  /\ (exists sets,
        BackupManager.list_backup_sets "s1" [Sample.db_2025; Sample.no_token] = Some sets
        /\ length sets = 1%nat
        /\ ~ exists s, In s sets /\ In Sample.no_token (BackupSet.files s))
  /\ TransferManager.get_local_backup_sets
       [("latest-database.sql.gz",
         TransferManager.mk_local "/backups/latest-database.sql.gz" 1 900 "d41d8")]
     = Some [].
Proof.
  split; [reflexivity|]. split; [right; left; reflexivity|]. split; [|reflexivity].
  eexists. split; [vm_compute; reflexivity|]. split; [reflexivity|].
  intros (s & [<-|[]] & Hin).
  vm_compute in Hin. destruct Hin as [Heq|[]]. discriminate Heq.
Qed.

(** C3, amended: grouping never fails, and it keeps exactly the records whose
    file name starts with a timestamp token. The members of the resulting sets
    are, up to order, the input records that have a token; the sets have
    pairwise different timestamps, none is empty, and each holds only records
    whose token is the timestamp of the set. So a record with a token is in
    exactly one set, and a record without one is in none. This holds for
    [list_backup_sets] and for [get_local_backup_sets]. *)
Theorem C3_grouping_keeps_exactly_the_token_records
  (site : string) (recs : list BackupInfo.t)
  (entries : list (string * TransferManager.local_backup)) :
  (exists sets,
     BackupManager.list_backup_sets site recs = Some sets
     /\ Permutation (concat (map BackupSet.files sets)) (List.filter has_token recs)
     /\ NoDup (map BackupSet.timestamp sets)
     /\ Forall (fun s => BackupSet.files s <> []
                         /\ Forall (token_is (BackupSet.timestamp s)) (BackupSet.files s))
          sets)
  /\ (exists sets,
        TransferManager.get_local_backup_sets entries = Some sets
        /\ Permutation (concat (map (fun ks => BackupSet.files (snd ks)) sets))
             (List.filter has_token (local_records entries))
        /\ NoDup (map fst sets)
        /\ Forall (fun ks => BackupSet.timestamp (snd ks) = fst ks
                             /\ BackupSet.files (snd ks) <> []
                             /\ Forall (token_is (fst ks)) (BackupSet.files (snd ks)))
             sets).
Proof.
  split.
  - destruct (backup_sets_unsorted_total site recs) as (unsorted & Hun & HF2).
    unfold BackupManager.list_backup_sets. rewrite Hun.
    eexists; split; [reflexivity|].
    pose proof (py_sorted_reverse_perm BackupSet.created_at unsorted) as Hperm.
    destruct (sets_of_buckets _ _ _ HF2) as [Hts Hfs].
    destruct (group_by_timestamp_well_grouped recs) as [Hnd Hok].
    split; [|split].
    + rewrite (Permutation_concat _ _ (Permutation_map BackupSet.files Hperm)).
      rewrite Hfs. apply group_by_timestamp_members.
    + rewrite Hperm, Hts. exact Hnd.
    + eapply Permutation_Forall; [symmetry; exact Hperm|].
      clear Hperm Hun Hts Hfs Hnd.
      induction HF2 as [|kv s g sets Hs _ IH]; [constructor|].
      apply Forall_cons in Hok as [[Hne Htok] Hok].
      apply BackupManager_make_set_spec in Hs as (Ht & Hf & _).
      constructor; [rewrite Ht, Hf; now split | now apply IH].
  - destruct (get_local_backup_sets_total entries) as (sets & Hsets & HF2).
    exists sets; split; [exact Hsets|].
    destruct (local_sets_of_buckets _ _ HF2) as (Hks & Hfs & Hts).
    destruct (group_by_timestamp_well_grouped (local_records entries)) as [Hnd Hok].
    split; [|split].
    + rewrite Hfs. apply group_by_timestamp_members.
    + now rewrite Hks.
    + clear Hsets Hks Hfs Hnd Hts.
      induction HF2 as [|kv s g sets Hs _ IH]; [constructor|].
      apply Forall_cons in Hok as [[Hne Htok] Hok].
      apply TransferManager_make_set_spec in Hs as (Hk & Ht & Hf & _).
      constructor; [rewrite Ht, Hf, Hk; now repeat split | now apply IH].
Qed.

(** C4 at the bucket of the specification's own example, one database dump
    and one files archive of the same timestamp: both kinds of record are
    present, yet [list_backup_sets] reports the set as 'mixed', because it
    asks for a config artifact as well; [get_local_backup_sets] reports the
    same two files as 'complete'. *)
Theorem C4_database_and_archive_listed_as_mixed :
  has_database [Sample.db_2025; Sample.tar_2025] = true
  /\ has_files [Sample.db_2025; Sample.tar_2025] = true
  /\ option_map (map BackupSet.backup_type)
       (BackupManager.list_backup_sets "s1" [Sample.db_2025; Sample.tar_2025])
     = Some ["mixed"]
  /\ option_map (map (fun ks => BackupSet.backup_type (snd ks)))
       (TransferManager.get_local_backup_sets
          [("20250101_000000_database.sql.gz",
            TransferManager.mk_local "/backups/20250101_000000_database.sql.gz"
              (3 # 2) 1000 "9e107");
           ("20250101_000000_public.tar",
            TransferManager.mk_local "/backups/20250101_000000_public.tar"
              (5 # 2) 1010 "e4d90")])
     = Some ["complete"].
Proof. repeat split; vm_compute; reflexivity. Qed.

(** C7: [list_backup_sets] always returns; its result is sorted by
    [created_at], newest first; it is a rearrangement of the sets in insertion
    order (the order in which their tokens first appear in the input) in which
    the sets of any one [created_at] keep their insertion order (the sort is
    stable); and in each set [created_at] is the greatest [created_at] of its
    members, attained by one of them, and the total size is the sum of the
    members' sizes. *)
Theorem C7_sets_sorted_newest_first_stable (site : string) (recs : list BackupInfo.t) :
  exists sets unsorted,
    BackupManager.backup_sets_unsorted site recs = Some unsorted
    /\ map BackupSet.timestamp unsorted = tokens_in_order recs
    /\ BackupManager.list_backup_sets site recs = Some sets
    /\ StronglySorted (fun a b => BackupSet.created_at b <= BackupSet.created_at a) sets
    /\ Permutation sets unsorted
    /\ (forall t,
          List.filter (fun s => BackupSet.created_at s =? t) sets
          = List.filter (fun s => BackupSet.created_at s =? t) unsorted)
    /\ Forall (fun s =>
                 (exists f, In f (BackupSet.files s)
                            /\ BackupInfo.created_at f = BackupSet.created_at s)
                 /\ (forall f, In f (BackupSet.files s) ->
                               BackupInfo.created_at f <= BackupSet.created_at s)
                 /\ (BackupSet.total_size_mb s
                     == Qsum (map BackupInfo.size_mb (BackupSet.files s)))%Q)
         sets.
Proof.
  destruct (backup_sets_unsorted_total site recs) as (unsorted & Hun & HF2).
  exists (py_sorted_reverse BackupSet.created_at unsorted), unsorted.
  split; [exact Hun|].
  split; [rewrite (proj1 (sets_of_buckets _ _ _ HF2)); apply group_by_timestamp_order|].
  split; [unfold BackupManager.list_backup_sets; now rewrite Hun|].
  split; [apply (py_sorted_reverse_sorted BackupSet.created_at)|].
  split; [apply py_sorted_reverse_perm|].
  split; [intros t; apply py_sorted_reverse_stable|].
  eapply Permutation_Forall; [symmetry; apply py_sorted_reverse_perm|].
  eapply Forall_impl; [apply (sets_of_buckets_fields _ _ _ HF2)|].
  intros s (Hmax & Hsum & _). apply py_max_spec in Hmax as [Hin Hub].
  split; [|split].
  - apply in_map_iff in Hin as (f & Hf & Hin). now exists f.
  - intros f Hf. apply Hub. now apply in_map.
  - rewrite Hsum. apply py_sum_Qsum.
Qed.

(** ** Claims about [TransferProgress] *)

Lemma min_100_Qmin (x : Q) : (TransferProgress.min_100 x == Qmin 100 x)%Q.
Proof.
  unfold TransferProgress.min_100. destruct (Qlt_le_dec x 100) as [Hlt|Hle].
  - symmetry. apply Q.min_r. now apply Qlt_le_weak.
  - symmetry. now apply Q.min_l.
Qed.

Lemma py_truediv_nonzero (a : Q) (b : Z) :
  b <> 0 -> py_truediv a (inject_Z b) = Return (a / inject_Z b)%Q.
Proof.
  intros Hb. unfold py_truediv.
  destruct (Qeq_bool (inject_Z b) 0) eqn:E; [|reflexivity].
  apply Qeq_bool_iff in E. unfold Qeq, inject_Z in E; simpl in E. lia.
Qed.

(** C8: [percentage] never raises; it is [0.0] when the total is zero and
    [min(100, transferred / total * 100)] otherwise. [eta_seconds] is [None]
    when nothing was transferred, and when the rate it computed is zero.
    (Floats are exact rationals here.) *)
Theorem C8_percentage_and_eta (self : TransferProgress.t) (now : Q) :
  (exists q,
     TransferProgress.percentage self = Return q
     /\ (q == if TransferProgress.total_size self =? 0 then 0
              else Qmin 100 (inject_Z (TransferProgress.transferred self)
                             / inject_Z (TransferProgress.total_size self) * 100))%Q)
  /\ (TransferProgress.total_size self = 0 ->
      TransferProgress.percentage self = Return 0%Q)
  /\ (TransferProgress.transferred self = 0 ->
      TransferProgress.eta_seconds self now = Return None)
  /\ (forall rate,
        py_truediv (inject_Z (TransferProgress.transferred self))
          (now - TransferProgress.start_time self) = Return rate ->
        (rate == 0)%Q ->
        TransferProgress.eta_seconds self now = Return None).
Proof.
  unfold TransferProgress.percentage, TransferProgress.eta_seconds.
  repeat split.
  - destruct (Z.eqb_spec (TransferProgress.total_size self) 0) as [Hz|Hnz].
    + exists 0%Q. split; reflexivity.
    + rewrite py_truediv_nonzero by exact Hnz.
      eexists. split; [reflexivity | apply min_100_Qmin].
  - intros ->. reflexivity.
  - intros ->. reflexivity.
  - intros rate Hrate Hzero.
    destruct (TransferProgress.transferred self =? 0); [reflexivity|].
    rewrite Hrate. apply Qeq_bool_iff in Hzero. now rewrite Hzero.
Qed.

Lemma C8_percentage_and_eta_witness :
  TransferProgress.percentage (TransferProgress.init 0 None 0) = Return 0%Q
  /\ TransferProgress.eta_seconds (TransferProgress.init 0 None 0) 5 = Return None
  /\ TransferProgress.eta_seconds (TransferProgress.init 7 None 1) 3 = Return None.
Proof.
  split; [|split].
  - apply (C8_percentage_and_eta (TransferProgress.init 0 None 0) 5). reflexivity.
  - apply (C8_percentage_and_eta (TransferProgress.init 0 None 0) 5). reflexivity.
  - apply (proj2 (proj2 (proj2
             (C8_percentage_and_eta (TransferProgress.init 7 None 1) 3))) (0 / 2)%Q);
      reflexivity.
Defined.

Lemma run_after_cancel (self : TransferProgress.t) (ops : list TransferProgress.op) :
  TransferProgress.cancelled self = true ->
  snd (TransferProgress.run self ops) = []
  /\ TransferProgress.cancelled (fst (TransferProgress.run self ops)) = true
  /\ TransferProgress.transferred (fst (TransferProgress.run self ops))
     = TransferProgress.transferred self + total_delta ops.
Proof.
  revert self; induction ops as [|o ops IH]; intros self Hc; simpl.
  - repeat split; [exact Hc | lia].
  - destruct o as [d|]; simpl.
    + unfold TransferProgress.update. rewrite Hc.
      destruct (TransferProgress.callback self); simpl;
        match goal with
        | |- context [TransferProgress.run ?p ops] =>
            destruct (IH p eq_refl) as (He & Hc' & Ht);
            destruct (TransferProgress.run p ops) as [p' evs]; simpl in *;
            subst evs; repeat split; [exact Hc' | lia]
        end.
    + destruct (IH (TransferProgress.cancel self) eq_refl) as (He & Hc' & Ht).
      destruct (TransferProgress.run (TransferProgress.cancel self) ops) as [p' evs].
      simpl in *. subst evs. repeat split; [exact Hc' | lia].
Qed.

(** C10: after [cancel()], whatever updates and cancels follow, the callback
    is not invoked again, and the counter has grown by the sum of the deltas;
    every [update] adds its delta to the counter; and an [update] of a tracker
    that has a callback and is not cancelled invokes the callback exactly
    once, with the new counter. *)
Theorem C10_no_callback_after_cancel (self : TransferProgress.t)
  (ops : list TransferProgress.op) (d : Z) :
  (snd (TransferProgress.run (TransferProgress.cancel self) ops) = []
   /\ TransferProgress.transferred
        (fst (TransferProgress.run (TransferProgress.cancel self) ops))
      = TransferProgress.transferred self + total_delta ops)
  /\ TransferProgress.transferred (fst (TransferProgress.update self d))
     = TransferProgress.transferred self + d
  /\ (forall cb,
        TransferProgress.callback self = Some cb ->
        TransferProgress.cancelled self = false ->
        snd (TransferProgress.update self d)
        = [CallbackInvoked (TransferProgress.transferred self + d)
             (TransferProgress.total_size self)]).
Proof.
  split; [|split].
  - destruct (run_after_cancel (TransferProgress.cancel self) ops eq_refl)
      as (He & _ & Ht). split; [exact He | exact Ht].
  - unfold TransferProgress.update.
    destruct (TransferProgress.callback self), (TransferProgress.cancelled self);
      reflexivity.
  - intros cb Hcb Hc. unfold TransferProgress.update. rewrite Hcb, Hc. reflexivity.
Qed.

Lemma C10_no_callback_after_cancel_witness :
  snd (TransferProgress.update
         (TransferProgress.init 100 (Some (fun _ _ => false)) 0) 40)
  = [CallbackInvoked 40 100].
Proof.
  apply (proj2 (proj2 (C10_no_callback_after_cancel
           (TransferProgress.init 100 (Some (fun _ _ => false)) 0) [] 40))
           (fun _ _ => false)); reflexivity.
Defined.

(** ** The transfer engine *)

Lemma sessions_app (tr evs : list event) :
  sessions (tr ++ evs) = (sessions tr + sessions evs)%nat.
Proof. unfold sessions. now rewrite List.filter_app, length_app. Qed.

Lemma update_no_session (p : TransferProgress.t) (d : Z) :
  sessions (snd (TransferProgress.update p d)) = 0%nat.
Proof.
  unfold TransferProgress.update.
  destruct (TransferProgress.callback p), (TransferProgress.cancelled p); reflexivity.
Qed.

Section EngineFacts.
Context {R : Type} {C : Collaborators R}.
Variable self : TransferManager.t.

Lemma progress_callback_no_session (c : Z) (p : TransferProgress.t) :
  sessions (snd (TransferManager.progress_callback c p)) = 0%nat.
Proof.
  unfold TransferManager.progress_callback.
  destruct (TransferProgress.transferred p =? 0); apply update_no_session.
Qed.

(** A method of the tracker changes the tracker and logs callbacks only. *)
Lemma with_progress_run
  (f : TransferProgress.t -> TransferProgress.t * list event) (w : world R) :
  (forall p, sessions (snd (f p)) = 0%nat) ->
  exists w',
    TransferManager.with_progress f w = (w', Return tt)
    /\ local_fs w' = local_fs w /\ remote w' = remote w
    /\ sessions (trace w') = sessions (trace w).
Proof.
  intros Hf. unfold TransferManager.with_progress, bind, get_progress.
  destruct (tracker w) as [p|] eqn:Ep.
  - specialize (Hf p). destruct (f p) as [p' evs]. simpl in *.
    eexists; split; [reflexivity|]. simpl.
    rewrite sessions_app, Hf. repeat split. lia.
  - eexists; split; [reflexivity|]. repeat split.
Qed.

Lemma receive_chunks_run (lp : string) (chunks : list (list byte)) :
  forall (so_far : Z) (w : world R),
  exists w',
    TransferManager.receive_chunks lp so_far chunks w = (w', Return tt)
    /\ remote w' = remote w
    /\ sessions (trace w') = sessions (trace w).
Proof.
  induction chunks as [|chunk rest IH]; intros so_far w.
  - exists w. repeat split.
  - cbn [TransferManager.receive_chunks]. unfold bind at 1. unfold local_append.
    match goal with
    | |- context [bind (TransferManager.with_progress ?f) _ ?w0] =>
        destruct (with_progress_run f w0
                    (progress_callback_no_session (so_far + file_size chunk)))
          as (w1 & E1 & _ & Hr1 & Hs1);
        unfold bind at 1; rewrite E1
    end.
    destruct (IH (so_far + file_size chunk) w1) as (w2 & E2 & Hr2 & Hs2).
    exists w2. split; [exact E2|]. simpl in *. split; congruence.
Qed.

(** One attempt asks for exactly one SFTP client. *)
Lemma _download_file_with_progress_sessions (h rp lp : string) (w w' : world R)
  (r : result unit) :
  TransferManager._download_file_with_progress h rp lp w = (w', r) ->
  sessions (trace w') = S (sessions (trace w)).
Proof.
  unfold TransferManager._download_file_with_progress, try_except.
  unfold bind at 1. unfold emit at 1. unfold bind at 1. unfold call at 1.
  cbn [remote local_fs tracker trace].
  destruct (get_sftp_client h (remote w)) as [r1 [[]|e]].
  - unfold bind at 1. unfold emit at 1. unfold bind at 1. unfold ask at 1.
    cbn [remote local_fs tracker trace].
    destruct (sftp_get rp lp r1) as [r2 [e|chunks err]].
    + unfold raise. intros [= <- <-]. sessions_lia.
    + unfold bind at 1. unfold local_truncate at 1. unfold bind at 1.
      match goal with
      | |- context [TransferManager.receive_chunks lp 0 chunks ?w0] =>
          destruct (receive_chunks_run lp chunks 0 w0) as (w1 & E1 & _ & Hs1);
          rewrite E1
      end.
      destruct err as [e|]; unfold raise, emit; intros [= <- <-]; sessions_lia.
  - unfold raise. intros [= <- <-]. sessions_lia.
Qed.

Lemma _verify_download_run (lp : string) (expected : Z) (w : world R) :
  TransferManager._verify_download lp expected w
  = (w, Return (match local_fs w !! lp with
                | Some content => file_size content =? expected
                | None => false
                end)).
Proof.
  unfold TransferManager._verify_download, bind, local_size, ret.
  now destruct (local_fs w !! lp).
Qed.

Lemma download_attempt_sessions (h rp lp : string) (rs : Z) (w w' : world R)
  (r : result string) :
  TransferManager.download_attempt h rp lp rs w = (w', r) ->
  sessions (trace w') = S (sessions (trace w)).
Proof.
  unfold TransferManager.download_attempt. unfold bind at 1.
  destruct (TransferManager._download_file_with_progress h rp lp w)
    as [w1 [[]|e]] eqn:E1;
    apply _download_file_with_progress_sessions in E1.
  - unfold bind. rewrite _verify_download_run.
    destruct (match local_fs w1 !! lp with Some _ => _ | None => _ end);
      unfold ret, raise; intros [= <- <-]; exact E1.
  - intros [= <- <-]; exact E1.
Qed.

End EngineFacts.

Section EngineClaims.
Context {R : Type} {C : Collaborators R}.
Variable self : TransferManager.t.

(** The size query never raises; it runs one remote command and touches
    neither the local disk nor the tracker. *)
Lemma _get_remote_file_size_run (h p : string) (w : world R) :
  exists r' o,
    TransferManager._get_remote_file_size h p w
    = (World (local_fs w) r' (tracker w)
         (trace w ++ [ExecuteCommand h (TransferManager.stat_command p)]),
       Return o).
Proof.
  unfold TransferManager._get_remote_file_size, try_except, bind, emit, call, ret.
  cbn [remote local_fs tracker trace].
  destruct (execute_command h (TransferManager.stat_command p) (remote w))
    as [r' [[[exit_code stdout] stderr]|e]].
  - destruct ((exit_code =? 0) && PyStr.isdigit (PyStr.strip stdout));
      eexists _, _; reflexivity.
  - eexists _, _; reflexivity.
Qed.

(** The wait and the removal before a retry touch only the target, ask for
    no SFTP client and leave the tracker alone.  When they return, the target
    is gone; what they raise comes from the wait or from the removal, and the
    local disk is then as it was. *)
Lemma before_retry_spec (lp : string) (w w' : world R) (r : result unit) :
  TransferManager.before_retry self lp w = (w', r) ->
  tracker w' = tracker w
  /\ sessions (trace w') = sessions (trace w)
  /\ (forall q, q <> lp -> local_fs w' !! q = local_fs w !! q)
  /\ match r with
     | Return _ => local_fs w' !! lp = None /\ 0 <= TransferManager.retry_delay self
     | Raise e =>
         local_fs w' = local_fs w
         /\ (TransferManager.retry_delay self < 0
             /\ e = OtherError "ValueError: sleep length must be non-negative"
             \/ 0 <= TransferManager.retry_delay self
                /\ is_Some (local_fs w !! lp)
                /\ snd (os_unlink lp (remote w)) = Raise e)
     end.
Proof.
  unfold TransferManager.before_retry, time_sleep.
  destruct (Z.ltb_spec (TransferManager.retry_delay self) 0) as [Hneg|Hpos].
  - unfold bind, raise. intros [= <- <-].
    repeat split; try reflexivity. left. now split.
  - unfold bind at 1. unfold emit at 1. unfold bind at 1. unfold local_size at 1.
    cbn [local_fs remote tracker trace].
    destruct (local_fs w !! lp) as [content|] eqn:Efile;
      cbn [fmap option_fmap option_map].
    + unfold os_remove, bind, call, local_unlink. cbn [local_fs remote tracker trace].
      destruct (os_unlink lp (remote w)) as [r1 [[]|e]] eqn:Eun;
        intros [= <- <-]; cbn [local_fs tracker trace].
      * split; [reflexivity|]. split; [sessions_lia|].
        split; [intros q Hq; now apply lookup_delete_ne|].
        split; [apply lookup_delete_eq | exact Hpos].
      * split; [reflexivity|]. split; [sessions_lia|].
        split; [reflexivity|]. split; [reflexivity|]. right.
        split; [exact Hpos|]. split; [now exists content | reflexivity].
    + unfold ret. intros [= <- <-]. cbn [local_fs tracker trace].
      split; [reflexivity|]. split; [sessions_lia|].
      split; [reflexivity|]. split; [exact Efile | exact Hpos].
Qed.

Lemma before_retry_ok (lp : string) (w : world R) :
  0 <= TransferManager.retry_delay self ->
  (forall p r, snd (os_unlink p r) = Return tt) ->
  exists w', TransferManager.before_retry self lp w = (w', Return tt).
Proof.
  intros Hdelay Hunlink.
  destruct (TransferManager.before_retry self lp w) as [w' [[]|e]] eqn:E;
    [now exists w'|].
  apply before_retry_spec in E as (_ & _ & _ & _ & [[Hneg _]|(_ & _ & Hraise)]);
    [lia|]. rewrite Hunlink in Hraise. discriminate.
Qed.

(** The retry loop when every attempt fails, the wait is not negative and the
    removal of the partial file goes through. *)
Lemma download_attempts_exhaust (h rp lp : string) (rs : Z) :
  0 <= TransferManager.retry_delay self ->
  (forall p r, snd (os_unlink p r) = Return tt) ->
  (forall w0, exists w1 e,
      TransferManager.download_attempt h rp lp rs w0 = (w1, Raise e)) ->
  forall (n : nat) (attempt : Z) (w : world R),
    attempt + Z.of_nat (S n) = TransferManager.max_retries self ->
    exists w_last w' e,
      TransferManager.download_attempts self (S n) attempt h rp lp rs w
      = (w', Raise (TransferError
                      (Download_failed_after_attempts
                         (TransferManager.max_retries self) e)))
      /\ TransferManager.download_attempt h rp lp rs w_last = (w', Raise e)
      /\ sessions (trace w') = (sessions (trace w) + S n)%nat
      /\ (n = 0%nat -> w_last = w)
      /\ (n <> 0%nat -> local_fs w_last !! lp = None)
      /\ failed_attempts self h rp lp rs (S n) w w' e.
Proof.
  intros Hdelay Hunlink Hfail. induction n as [|n IH]; intros attempt w Hn.
  - cbn [TransferManager.download_attempts]. unfold try_except.
    destruct (Hfail w) as (w1 & e & E). rewrite E.
    destruct (Z.ltb_spec attempt (TransferManager.max_retries self - 1)); [lia|].
    exists w, w1, e. unfold raise. split; [reflexivity|]. split; [exact E|].
    split; [apply download_attempt_sessions in E; lia|].
    split; [reflexivity|]. split; [congruence|]. now constructor.
  - remember (S n) as m eqn:Hm.
    cbn [TransferManager.download_attempts]. unfold try_except.
    destruct (Hfail w) as (w1 & e & E). rewrite E.
    pose proof (download_attempt_sessions _ _ _ _ _ _ _ E) as Hs1.
    destruct (Z.ltb_spec attempt (TransferManager.max_retries self - 1)); [|lia].
    unfold bind at 1.
    destruct (before_retry_ok lp w1 Hdelay Hunlink) as (w3 & E3). rewrite E3.
    destruct (before_retry_spec _ _ _ _ E3) as (_ & Hs3 & _ & Hgone & _).
    subst m.
    destruct (IH (attempt + 1) w3 ltac:(lia))
      as (wl & w' & e' & E' & El & Hs & H0 & Hpos & Hchain).
    exists wl, w', e'. split; [exact E'|]. split; [exact El|].
    split; [lia|]. split; [lia|]. split.
    + intros _. destruct n as [|n']; [rewrite (H0 eq_refl); exact Hgone | now apply Hpos].
    + econstructor; eassumption.
Qed.

(** C1, as the specification states it, fails in its last part: with a remote
    side whose every [sftp.get] writes one byte of ten and then fails, the
    download gives up after three attempts with the last error, and the
    one-byte partial file of the third attempt is still at the destination. *)
Lemma C1_partial_file_left_after_exhaustion :
  snd Sample.failing_download
  = Raise (TransferError
             (Download_failed_after_attempts 3
                (TransferError
                   (SFTP_transfer_failed (OtherError "Connection reset by peer")))))
  /\ sessions (trace (fst Sample.failing_download)) = 3%nat
  /\ local_fs (fst Sample.failing_download) !! "/backups/20250101_000000_database.sql.gz"
     = Some ["000"%byte].
Proof. repeat split; vm_compute; reflexivity. Qed.

(** C1, amended: on a local disk where the partial file can be removed
    ([unlink] does not fail) and with a wait that is not negative, when every
    attempt (transfer, then verification) fails and [max_retries] is at least
    1, [download_backup] raises
    [TransferError("Download failed after {max_retries} attempts: {e}")] after
    exactly [max_retries] attempts, where [e] is the error of the last
    attempt.  The first attempt starts on the local disk as it was; before
    every retry the file at the destination is deleted, so every attempt after
    the first starts without one; what the last attempt leaves at the
    destination is not deleted: the download ends in the state that attempt
    ended in. *)
Theorem C1_download_exhausts_after_max_retries
  (h : string) (info : BackupInfo.t) (name : option string) (cb : option observer)
  (w : world R) (rs : Z) :
  1 <= TransferManager.max_retries self ->
  0 <= TransferManager.retry_delay self ->
  (forall p r, snd (os_unlink p r) = Return tt) ->
  file_size <$> local_fs w !! TransferManager.local_target self info name
    <> Some (TransferManager.recorded_size info) ->
  snd (TransferManager._get_remote_file_size h (BackupInfo.filepath info) w)
    = Return (Some rs) ->
  (forall w0, exists w1 e,
      TransferManager.download_attempt h (BackupInfo.filepath info)
        (TransferManager.local_target self info name) rs w0 = (w1, Raise e)) ->
  exists w_first w_last w' e,
    TransferManager.download_backup self h info name cb w
    = (w', Raise (TransferError
                    (Download_failed_after_attempts
                       (TransferManager.max_retries self) e)))
    /\ local_fs w_first = local_fs w
    /\ failed_attempts self h (BackupInfo.filepath info)
         (TransferManager.local_target self info name) rs
         (Z.to_nat (TransferManager.max_retries self)) w_first w' e
    /\ TransferManager.download_attempt h (BackupInfo.filepath info)
         (TransferManager.local_target self info name) rs w_last = (w', Raise e)
    /\ Z.of_nat (sessions (trace w'))
       = Z.of_nat (sessions (trace w)) + TransferManager.max_retries self
    /\ (1 < TransferManager.max_retries self ->
        local_fs w_last !! TransferManager.local_target self info name = None).
Proof.
  intros Hmax Hdelay Hunlink Hsize Hrs Hfail.
  unfold TransferManager.download_backup. unfold bind at 1. unfold local_size at 1.
  cbn beta iota.
  assert (Hne : match file_size <$> local_fs w !! TransferManager.local_target self info name with
                | Some local_size => local_size =? TransferManager.recorded_size info
                | None => false
                end = false).
  { destruct (local_fs w !! TransferManager.local_target self info name) as [c|];
      [|reflexivity]. cbn in *. apply Z.eqb_neq. congruence. }
  rewrite Hne. unfold bind at 1.
  destruct (_get_remote_file_size_run h (BackupInfo.filepath info) w) as (r' & o & E).
  rewrite E in Hrs |- *. cbn in Hrs. injection Hrs as ->.
  unfold bind at 1. unfold ask at 1. cbn [remote local_fs tracker trace].
  destruct (time_time r') as [r2 now].
  unfold bind at 1. unfold new_progress at 1. cbn [remote local_fs tracker trace].
  remember (Z.to_nat (TransferManager.max_retries self - 1)) as n eqn:Hn.
  replace (Z.to_nat (TransferManager.max_retries self)) with (S n) by lia.
  match goal with
  | |- context [TransferManager.download_attempts self (S n) 0 _ _ _ _ ?w0] =>
      destruct (download_attempts_exhaust h (BackupInfo.filepath info)
                  (TransferManager.local_target self info name) rs
                  Hdelay Hunlink Hfail n 0 w0 ltac:(lia))
        as (wl & w' & e & E' & El & Hs & _ & Hpos & Hchain);
      exists w0, wl, w', e
  end.
  split; [exact E'|]. split; [reflexivity|]. split; [exact Hchain|].
  split; [exact El|]. split.
  - rewrite Hs. sessions_lia.
  - intros Hgt. apply Hpos. lia.
Qed.


(** C6: when the local file exists and the remote size is known,
    [resume_download] raises [TransferError("Local file is larger than remote
    file")] if the local file is strictly larger, and returns the local path
    if the sizes are equal; in both cases all it did was the size query: the
    local disk is as it was, no tracker exists, no SFTP client was asked
    for. *)
Theorem C6_resume_size_checks
  (h : string) (info : BackupInfo.t) (lp : string) (cb : option observer)
  (w : world R) (content : list byte) (rs : Z) :
  local_fs w !! lp = Some content ->
  snd (TransferManager._get_remote_file_size h (BackupInfo.filepath info) w)
    = Return (Some rs) ->
  rs <= file_size content ->
  exists w' r,
    TransferManager.resume_download self h info lp cb w = (w', r)
    /\ (rs < file_size content ->
        r = Raise (TransferError Local_file_is_larger_than_remote_file))
    /\ (file_size content = rs -> r = Return lp)
    /\ local_fs w' = local_fs w
    /\ tracker w' = tracker w
    /\ trace w'
       = trace w ++ [ExecuteCommand h
                       (TransferManager.stat_command (BackupInfo.filepath info))].
Proof.
  intros Hfile Hrs Hle.
  unfold TransferManager.resume_download. unfold bind at 1. unfold local_size at 1.
  rewrite Hfile. cbn beta iota. cbn [fmap option_fmap option_map].
  unfold bind at 1.
  destruct (_get_remote_file_size_run h (BackupInfo.filepath info) w) as (r' & o & E).
  rewrite E in Hrs |- *. cbn in Hrs. injection Hrs as ->.
  destruct (Z.geb_spec (file_size content) rs) as [_|Hlt]; [|lia].
  destruct (Z.eqb_spec (file_size content) rs) as [Heq|Hneq].
  - eexists _, _. split; [reflexivity|]. cbn. repeat split; intros; lia || reflexivity.
  - eexists _, _. split; [reflexivity|]. cbn. repeat split; intros; lia || reflexivity.
Qed.

(** C9: when the local source does not exist, [upload_backup] raises
    [TransferError("Local file not found: {local_path}")] and leaves the
    world as it was: no tracker was created, no collaborator was called, no
    event was logged. *)
Theorem C9_upload_missing_local_file
  (h lp rp : string) (cb : option observer) (w : world R) :
  local_fs w !! lp = None ->
  TransferManager.upload_backup h lp rp cb w
  = (w, Raise (TransferError (Local_file_not_found lp))).
Proof.
  intros Hfile. unfold TransferManager.upload_backup, bind, local_size.
  rewrite Hfile. reflexivity.
Qed.

(** The read loop of a resume only appends to the local file and asks for no
    SFTP client. *)
Lemma seeks_app (a b : list event) : seeks (a ++ b) = seeks a ++ seeks b.
Proof.
  induction a as [|e a IH]; [reflexivity|].
  destruct e; simpl; rewrite ?IH; reflexivity.
Qed.

Lemma update_no_seek (p : TransferProgress.t) (d : Z) :
  seeks (snd (TransferProgress.update p d)) = [].
Proof.
  unfold TransferProgress.update.
  destruct (TransferProgress.callback p), (TransferProgress.cancelled p); reflexivity.
Qed.

Lemma with_progress_seeks
  (f : TransferProgress.t -> TransferProgress.t * list event) (w : world R) :
  (forall p, seeks (snd (f p)) = []) ->
  seeks (trace (fst (TransferManager.with_progress f w))) = seeks (trace w).
Proof.
  intros Hf. unfold TransferManager.with_progress, bind, get_progress.
  destruct (tracker w) as [p|]; [|reflexivity].
  specialize (Hf p). destruct (f p) as [p' evs]. cbn [fst snd trace] in *.
  unfold set_progress, emit_all. cbn [fst trace].
  now rewrite seeks_app, Hf, app_nil_r.
Qed.

(** The loop of the resume appends to the local file a prefix of the chunks
    read, asks for no SFTP client and seeks nowhere. *)
Lemma resume_chunks_run (lp : string) (reads : list (result (list byte))) :
  forall (w : world R) (content : list byte),
    local_fs w !! lp = Some content ->
    exists w' r extra k,
      TransferManager.resume_chunks self lp reads w = (w', r)
      /\ local_fs w' !! lp = Some (content ++ extra)
      /\ sessions (trace w') = sessions (trace w)
      /\ seeks (trace w') = seeks (trace w)
      /\ extra = concat (take k (chunks_of reads)).
Proof.
  induction reads as [|[chunk|e] rest IH]; intros w content Hfile.
  - eexists _, _, [], 0%nat. split; [reflexivity|]. rewrite app_nil_r.
    split; [exact Hfile|]. split; [sessions_lia|]. cbn [trace].
    split; [now rewrite seeks_app, app_nil_r | reflexivity].
  - cbn [TransferManager.resume_chunks]. unfold bind at 1. unfold emit at 1.
    destruct chunk as [|b chunk].
    + eexists _, _, [], 0%nat. split; [reflexivity|]. rewrite app_nil_r.
      split; [exact Hfile|]. split; [sessions_lia|]. cbn [trace].
      split; [now rewrite seeks_app, app_nil_r | reflexivity].
    + unfold bind at 1. unfold emit at 1. unfold bind at 1. unfold local_append at 1.
      cbn [local_fs remote tracker trace]. rewrite Hfile. cbn [default from_option].
      match goal with
      | |- context [bind (TransferManager.with_progress ?f) _ ?w0] =>
          pose proof (with_progress_seeks f w0 (fun p => update_no_seek p _)) as Hk1;
          destruct (with_progress_run f w0 (fun p => update_no_session p _))
            as (w1 & E1 & Hfs1 & _ & Hs1);
          unfold bind at 1; rewrite E1; rewrite E1 in Hk1
      end.
      cbn [local_fs trace fst] in Hfs1, Hs1, Hk1.
      rewrite !seeks_app in Hk1. cbn [seeks] in Hk1. rewrite !app_nil_r in Hk1.
      assert (Hfile1 : local_fs w1 !! lp = Some (content ++ b :: chunk)).
      { rewrite Hfs1. apply lookup_insert_eq. }
      unfold bind at 1. unfold get_progress at 1.
      destruct (from_option TransferProgress.cancelled false (tracker w1)).
      * eexists _, _, (b :: chunk), 1%nat. split; [reflexivity|].
        split; [exact Hfile1|]. split; [sessions_lia|].
        split; [exact Hk1|]. cbn [chunks_of take concat]. now rewrite app_nil_r.
      * destruct (IH w1 _ Hfile1) as (w' & r & extra & k & E & Hfile' & Hs' & Hk' & Hex).
        exists w', r, ((b :: chunk) ++ extra), (S k). split; [exact E|].
        rewrite app_assoc. split; [exact Hfile'|]. split; [sessions_lia|].
        split; [congruence|]. cbn [chunks_of take concat]. now rewrite Hex.
  - eexists _, _, [], 0%nat. split; [reflexivity|]. rewrite app_nil_r.
    split; [exact Hfile|]. split; [sessions_lia|]. cbn [trace].
    split; [now rewrite seeks_app, app_nil_r | reflexivity].
Qed.

(** C2, amended: a resume of an existing local file that is smaller than the
    remote artifact makes exactly one attempt (one SFTP client is asked for,
    nothing is retried).  It continues from the current partial size: the one
    position it seeks the remote file to is the size of the local file, what
    it appends to the local file are chunks read from there, and the bytes
    that were in the file stay.  It either returns the local path, and then
    the file has the remote size, or raises
    [TransferError("Resume download failed: {e}")] around whatever went wrong,
    an I/O error of a chunk included: no other exception reaches the
    caller. *)
Theorem C2_resume_makes_one_attempt
  (h : string) (info : BackupInfo.t) (lp : string) (cb : option observer)
  (w : world R) (content : list byte) (rs : Z) :
  local_fs w !! lp = Some content ->
  snd (TransferManager._get_remote_file_size h (BackupInfo.filepath info) w)
    = Return (Some rs) ->
  file_size content < rs ->
  exists w' r extra,
    TransferManager.resume_download self h info lp cb w = (w', r)
    /\ (r = Return lp /\ file_size (content ++ extra) = rs
        \/ exists e, r = Raise (TransferError (Resume_download_failed e)))
    /\ sessions (trace w') = S (sessions (trace w))
    /\ local_fs w' !! lp = Some (content ++ extra)
    /\ (seeks (trace w') = seeks (trace w) /\ extra = []
        \/ seeks (trace w') = seeks (trace w) ++ [file_size content]
           /\ exists ro k,
                extra = concat (take k (chunks_of
                                          (snd (sftp_reads (file_size content)
                                                  (TransferManager.chunk_size self)
                                                  ro))))).
Proof.
  intros Hfile Hrs Hlt.
  unfold TransferManager.resume_download. unfold bind at 1. unfold local_size at 1.
  rewrite Hfile. cbn beta iota. cbn [fmap option_fmap option_map].
  unfold bind at 1.
  destruct (_get_remote_file_size_run h (BackupInfo.filepath info) w) as (r' & o & E).
  rewrite E in Hrs |- *. cbn in Hrs. injection Hrs as ->.
  destruct (Z.geb_spec (file_size content) rs) as [Hge|_]; [lia|].
  unfold bind at 1. unfold ask at 1. cbn [remote local_fs tracker trace].
  destruct (time_time r') as [r2 now].
  unfold bind at 1. unfold new_progress at 1. cbn [remote local_fs tracker trace].
  unfold bind at 1. unfold TransferManager.with_progress at 1.
  unfold bind at 1. unfold get_progress at 1. cbn [remote local_fs tracker trace].
  unfold bind at 1. unfold set_progress at 1. unfold emit_all at 1.
  cbn [remote local_fs tracker trace].
  unfold try_except.
  unfold bind at 1. unfold emit at 1. unfold bind at 1. unfold call at 1.
  cbn [remote local_fs tracker trace].
  destruct (get_sftp_client h r2) as [r3 [[]|e]].
  2:{ eexists _, _, []. split; [reflexivity|]. rewrite app_nil_r.
      split; [right; eexists; reflexivity|]. split; [sessions_lia|].
      split; [exact Hfile|]. left. cbn [trace].
      rewrite !seeks_app. cbn [seeks]. rewrite !app_nil_r. now split. }
  unfold bind at 1. unfold emit at 1. unfold bind at 1. unfold emit at 1.
  unfold bind at 1. unfold call at 1. cbn [remote local_fs tracker trace].
  destruct (sftp_file (BackupInfo.filepath info) r3) as [r4 [[]|e]].
  2:{ eexists _, _, []. split; [reflexivity|]. rewrite app_nil_r.
      split; [right; eexists; reflexivity|]. split; [sessions_lia|].
      split; [exact Hfile|]. left. cbn [trace].
      rewrite !seeks_app. cbn [seeks]. rewrite !app_nil_r. now split. }
  unfold bind at 1. unfold emit at 1. unfold bind at 1. unfold ask at 1.
  cbn [remote local_fs tracker trace].
  destruct (sftp_reads (file_size content) (TransferManager.chunk_size self) r4)
    as [r5 reads] eqn:Ereads.
  unfold bind at 1.
  match goal with
  | |- context [TransferManager.resume_chunks self lp reads ?w0] =>
      destruct (resume_chunks_run lp reads w0 content Hfile)
        as (w1 & r1 & extra & k & E1 & Hfile1 & Hs1 & Hk1 & Hextra);
      rewrite E1
  end.
  cbn [trace] in Hk1. rewrite !seeks_app in Hk1. cbn [seeks] in Hk1.
  rewrite !app_nil_r in Hk1. cbn [app] in Hk1.
  assert (Hfrom : exists ro k0,
             extra = concat (take k0 (chunks_of
                                        (snd (sftp_reads (file_size content)
                                                (TransferManager.chunk_size self)
                                                ro))))).
  { exists r4, k. now rewrite Ereads. }
  destruct r1 as [[]|e].
  2:{ eexists _, _, extra. split; [reflexivity|].
      split; [right; eexists; reflexivity|]. split; [sessions_lia|].
      split; [exact Hfile1|]. right. split; [exact Hk1 | exact Hfrom]. }
  unfold bind at 1. unfold emit at 1. unfold bind at 1.
  rewrite _verify_download_run. cbn [local_fs]. rewrite Hfile1.
  assert (Hk2 : seeks (trace w1 ++ [SftpClose])
                = seeks (trace w) ++ [file_size content]).
  { now rewrite seeks_app, Hk1, app_nil_r. }
  destruct (Z.eqb_spec (file_size (content ++ extra)) rs) as [Heq|Hneq].
  - eexists _, _, extra. split; [reflexivity|].
    split; [left; split; [reflexivity | exact Heq]|].
    split; [sessions_lia|]. split; [exact Hfile1|].
    right. split; [exact Hk2 | exact Hfrom].
  - eexists _, _, extra. split; [reflexivity|].
    split; [right; eexists; reflexivity|]. split; [sessions_lia|].
    split; [exact Hfile1|]. right. split; [exact Hk2 | exact Hfrom].
Qed.

(** C2, as the specification states it, fails: a resume whose first remote
    read fails makes one attempt, although three are allowed, and raises. *)
Lemma C2_resume_is_not_retried :
  snd Sample.failing_resume
  = Raise (TransferError
             (Resume_download_failed (OtherError "Connection reset by peer")))
  /\ sessions (trace (fst Sample.failing_resume)) = 1%nat
  /\ TransferManager.max_retries (TransferManager.init "/backups") = 3.
Proof. repeat split; vm_compute; reflexivity. Qed.

(** *** What leaves the engine as an exception *)




(** *** The recursion bound of [_ensure_remote_directory] is never reached *)

Lemma _ensure_remote_directory_depth (n : nat) :
  forall (m : nat) (d : string) (w : world R),
    (String.length d < n)%nat -> (String.length d < m)%nat ->
    TransferManager._ensure_remote_directory n d w
    = TransferManager._ensure_remote_directory m d w.
Proof.
  induction n as [|n IH]; intros m d w Hn Hm; [lia|].
  destruct m as [|m]; [lia|].
  cbn [TransferManager._ensure_remote_directory]. unfold try_except.
  destruct (bind (emit (SftpStat d)) (fun _ => call (sftp_stat d)) w) as [w1 [a|e]];
    [reflexivity|].
  destruct e; try reflexivity.
  destruct (negb (PyStr.dirname d =? "")%string && negb (PyStr.dirname d =? d)%string)
    eqn:Econd; [|reflexivity].
  apply andb_true_iff in Econd as [_ Hne].
  apply negb_true_iff, String.eqb_neq, dirname_shorter in Hne.
  unfold bind at 1. unfold bind at 3. rewrite (IH m) by lia. reflexivity.
Qed.

End EngineClaims.

(** ** The claims at concrete inputs *)

Lemma C1_download_exhausts_after_max_retries_witness :
  exists w_first w_last w' e,
    TransferManager.download_backup (C := Sample.flaky "10" [])
      (TransferManager.init "/backups") "host1" Sample.db_2025 None None
      (Sample.empty_world ∅)
    = (w', Raise (TransferError (Download_failed_after_attempts 3 e)))
    /\ local_fs w_first = ∅
    /\ failed_attempts (C := Sample.flaky "10" [])
         (TransferManager.init "/backups") "host1"
         (BackupInfo.filepath Sample.db_2025)
         "/backups/20250101_000000_database.sql.gz" 10 3 w_first w' e
    /\ TransferManager.download_attempt (C := Sample.flaky "10" []) "host1"
         (BackupInfo.filepath Sample.db_2025)
         "/backups/20250101_000000_database.sql.gz" 10 w_last = (w', Raise e)
    /\ Z.of_nat (sessions (trace w')) = 0 + 3
    /\ (1 < 3 -> local_fs w_last !! "/backups/20250101_000000_database.sql.gz" = None).
Proof.
  apply (C1_download_exhausts_after_max_retries (C := Sample.flaky "10" [])
           (TransferManager.init "/backups") "host1" Sample.db_2025 None None
           (Sample.empty_world ∅) 10).
  - simpl. lia.
  - simpl. lia.
  - intros p r. reflexivity.
  - vm_compute. discriminate.
  - reflexivity.
  - intros w0. eexists _, _. reflexivity.
Defined.


Lemma C6_resume_size_checks_witness :
  exists w' r,
    TransferManager.resume_download (C := Sample.flaky "0" [])
      (TransferManager.init "/backups") "host1" Sample.db_2025
      "/backups/20250101_000000_database.sql.gz" None
      (Sample.empty_world {[ "/backups/20250101_000000_database.sql.gz" := ["000"%byte] ]})
    = (w', r)
    /\ r = Raise (TransferError Local_file_is_larger_than_remote_file)
    /\ local_fs w' !! "/backups/20250101_000000_database.sql.gz" = Some ["000"%byte].
Proof.
  destruct (C6_resume_size_checks (C := Sample.flaky "0" [])
              (TransferManager.init "/backups") "host1" Sample.db_2025
              "/backups/20250101_000000_database.sql.gz" None
              (Sample.empty_world
                 {[ "/backups/20250101_000000_database.sql.gz" := ["000"%byte] ]})
              ["000"%byte] 0)
    as (w' & r & E & Hlarger & _ & Hfs & _).
  - vm_compute. reflexivity.
  - reflexivity.
  - unfold file_size. simpl. lia.
  - exists w', r. split; [exact E|]. split.
    + apply Hlarger. unfold file_size. simpl. lia.
    + rewrite Hfs. vm_compute. reflexivity.
Defined.

Lemma C9_upload_missing_local_file_witness :
  TransferManager.upload_backup (C := Sample.flaky "10" []) "host1"
    "/backups/missing.tar" "/srv/restore/missing.tar" None (Sample.empty_world ∅)
  = (Sample.empty_world ∅,
     Raise (TransferError (Local_file_not_found "/backups/missing.tar"))).
Proof.
  apply (C9_upload_missing_local_file (C := Sample.flaky "10" []) "host1"
           "/backups/missing.tar" "/srv/restore/missing.tar" None
           (Sample.empty_world ∅)).
  vm_compute. reflexivity.
Defined.

Lemma C2_resume_makes_one_attempt_witness :
  exists w' r extra,
    Sample.failing_resume = (w', r)
    /\ (r = Return "/backups/20250101_000000_database.sql.gz"
        /\ file_size (["000"%byte] ++ extra) = 10
        \/ exists e, r = Raise (TransferError (Resume_download_failed e)))
    /\ sessions (trace w') = 1%nat
    /\ local_fs w' !! "/backups/20250101_000000_database.sql.gz"
       = Some (["000"%byte] ++ extra)
    /\ (seeks (trace w') = [] /\ extra = []
        \/ seeks (trace w') = [1]
           /\ exists ro k,
                extra = concat (take k (chunks_of
                                          (snd (sftp_reads
                                                  (Collaborators := Sample.flaky "10" [])
                                                  1 32768 ro))))).
Proof.
  apply (C2_resume_makes_one_attempt (C := Sample.flaky "10" [])
           (TransferManager.init "/backups") "host1" Sample.db_2025
           "/backups/20250101_000000_database.sql.gz" None
           (Sample.empty_world
              {[ "/backups/20250101_000000_database.sql.gz" := ["000"%byte] ]})
           ["000"%byte] 10).
  - vm_compute. reflexivity.
  - reflexivity.
  - unfold file_size. simpl. lia.
Defined.

(** *** Remarks at the edges of the claims *)


(** With a non-zero counter and no time elapsed, [eta_seconds] divides by
    zero. *)
Lemma eta_seconds_no_time_elapsed :
  TransferProgress.eta_seconds (TransferProgress.mk 100 40 7 None false) 7
  = Raise ZeroDivisionError.
Proof. reflexivity. Qed.

(** In exact arithmetic the rate is zero only when nothing was transferred. *)
Lemma rate_zero_only_if_nothing_transferred (transferred : Z) (elapsed rate : Q) :
  py_truediv (inject_Z transferred) elapsed = Return rate ->
  (rate == 0)%Q -> transferred = 0.
Proof.
  unfold py_truediv. destruct (Qeq_bool elapsed 0) eqn:E; [discriminate|].
  intros [= <-] Hz. apply Qeq_bool_neq in E.
  destruct (Z.eq_dec transferred 0) as [|Hne]; [assumption|].
  exfalso. apply E.
  assert (Ht : ~ (inject_Z transferred == 0)%Q).
  { unfold Qeq, inject_Z; simpl. lia. }
  assert (H : (elapsed * (inject_Z transferred / elapsed) == inject_Z transferred)%Q)
    by (apply Qmult_div_r; exact E).
  rewrite Hz, Qmult_0_r in H. exfalso. apply Ht. now symmetry.
Qed.

(** * Further properties *)

(** ** [TransferProgress] over any sequence of operations *)

Lemma run_transferred (ops : list TransferProgress.op) :
  forall self : TransferProgress.t,
    TransferProgress.transferred (fst (TransferProgress.run self ops))
    = TransferProgress.transferred self + total_delta ops.
Proof.
  induction ops as [|o ops IH]; intros self; simpl; [lia|].
  destruct o as [d|]; simpl.
  - destruct (TransferProgress.update self d) as [p1 e1] eqn:E1.
    specialize (IH p1). destruct (TransferProgress.run p1 ops) as [p2 e2].
    simpl in *. rewrite IH. unfold TransferProgress.update in E1.
    destruct (TransferProgress.callback self), (TransferProgress.cancelled self);
      injection E1 as <- _; simpl; lia.
  - specialize (IH (TransferProgress.cancel self)).
    destruct (TransferProgress.run (TransferProgress.cancel self) ops) as [p2 e2].
    simpl in *. lia.
Qed.

Lemma total_delta_nonneg (ops : list TransferProgress.op) :
  Forall (fun o => match o with
                   | TransferProgress.Update d => 0 <= d
                   | TransferProgress.Cancel => True
                   end) ops ->
  0 <= total_delta ops.
Proof.
  induction 1 as [|o ops Ho _ IH]; simpl; [lia|]. destruct o; lia.
Qed.

(** X1: over any sequence of [update] and [cancel] calls the counter ends at
    its start value plus the sum of the deltas, cancelled or not; the total
    never changes; and the callback is invoked at most once per [update]. *)
Theorem X1_tracker_counter_law (self : TransferProgress.t)
  (ops : list TransferProgress.op) :
  TransferProgress.transferred (fst (TransferProgress.run self ops))
  = TransferProgress.transferred self + total_delta ops
  /\ TransferProgress.total_size (fst (TransferProgress.run self ops))
     = TransferProgress.total_size self
  /\ (length (snd (TransferProgress.run self ops)) <= updates_in ops)%nat.
Proof.
  revert self. induction ops as [|o ops IH]; intros self; simpl.
  - repeat split; lia.
  - destruct o as [d|]; simpl.
    + destruct (TransferProgress.update self d) as [p1 e1] eqn:E1.
      destruct (IH p1) as (Ht & Hs & Hl).
      destruct (TransferProgress.run p1 ops) as [p2 e2]. simpl in *.
      assert (H1 : TransferProgress.transferred p1 = TransferProgress.transferred self + d
                   /\ TransferProgress.total_size p1 = TransferProgress.total_size self
                   /\ (length e1 <= 1)%nat).
      { unfold TransferProgress.update in E1.
        destruct (TransferProgress.callback self), (TransferProgress.cancelled self);
          injection E1 as <- <-; simpl; repeat split; lia. }
      destruct H1 as (H1 & H2 & H3). rewrite length_app. repeat split; lia.
    + destruct (IH (TransferProgress.cancel self)) as (Ht & Hs & Hl).
      destruct (TransferProgress.run (TransferProgress.cancel self) ops) as [p2 e2].
      simpl in *. repeat split; lia.
Qed.

(** X2: when no delta is negative the counter never goes down. *)
Theorem X2_tracker_counter_monotone (self : TransferProgress.t)
  (ops : list TransferProgress.op) :
  Forall (fun o => match o with
                   | TransferProgress.Update d => 0 <= d
                   | TransferProgress.Cancel => True
                   end) ops ->
  TransferProgress.transferred self
  <= TransferProgress.transferred (fst (TransferProgress.run self ops)).
Proof.
  intros Hops. rewrite (run_transferred ops self).
  pose proof (total_delta_nonneg ops Hops). lia.
Qed.

Lemma X2_tracker_counter_monotone_witness :
  0 <= TransferProgress.transferred
         (fst (TransferProgress.run (TransferProgress.init 100 None 0)
                 [TransferProgress.Update 30; TransferProgress.Cancel;
                  TransferProgress.Update 0])).
Proof.
  apply (X2_tracker_counter_monotone (TransferProgress.init 100 None 0)
           [TransferProgress.Update 30; TransferProgress.Cancel;
            TransferProgress.Update 0]).
  repeat constructor; lia.
Defined.

(** X3: with a positive total and a counter that is not negative,
    [percentage] lies between 0 and 100, and it is 100 exactly when the
    counter has reached the total. *)
Theorem X3_percentage_bounds (self : TransferProgress.t) :
  0 < TransferProgress.total_size self ->
  0 <= TransferProgress.transferred self ->
  exists q,
    TransferProgress.percentage self = Return q
    /\ (0 <= q)%Q /\ (q <= 100)%Q
    /\ ((q == 100)%Q <->
        TransferProgress.total_size self <= TransferProgress.transferred self).
Proof.
  intros Htot Htr. unfold TransferProgress.percentage.
  destruct (Z.eqb_spec (TransferProgress.total_size self) 0) as [Hz|Hnz]; [lia|].
  rewrite py_truediv_nonzero by exact Hnz.
  eexists. split; [reflexivity|].
  set (t := TransferProgress.transferred self) in *.
  set (n := TransferProgress.total_size self) in *.
  assert (Hx : (0 <= inject_Z t / inject_Z n * 100)%Q).
  { destruct n as [|pn|pn]; try lia.
    unfold Qle, Qdiv, Qmult, Qinv, inject_Z; simpl. lia. }
  assert (Hiff : (inject_Z t / inject_Z n * 100 < 100)%Q <-> t < n).
  { destruct n as [|pn|pn]; try lia.
    unfold Qlt, Qdiv, Qmult, Qinv, inject_Z; simpl. lia. }
  unfold TransferProgress.min_100.
  destruct (Qlt_le_dec (inject_Z t / inject_Z n * 100) 100) as [Hlt|Hge].
  - split; [exact Hx|]. split; [now apply Qlt_le_weak|].
    split.
    + intros Heq. rewrite Heq in Hlt. now apply Qlt_irrefl in Hlt.
    + intros Hle. apply Hiff in Hlt. lia.
  - split; [discriminate|]. split; [apply Qle_refl|].
    split; [intros _|reflexivity].
    apply Z.nlt_ge. intros Hlt. apply Hiff in Hlt. now apply (Qlt_not_le _ _ Hlt).
Qed.

Lemma X3_percentage_bounds_witness :
  exists q,
    TransferProgress.percentage (TransferProgress.mk 200 50 0 None false) = Return q
    /\ (0 <= q)%Q /\ (q <= 100)%Q
    /\ ((q == 100)%Q <-> 200 <= 50).
Proof.
  apply (X3_percentage_bounds (TransferProgress.mk 200 50 0 None false));
    simpl; lia.
Defined.

(** ** The download path, step by step *)

Lemma progress_callback_counter (b : Z) (p : TransferProgress.t) :
  TransferProgress.transferred (fst (TransferManager.progress_callback b p)) = b
  /\ TransferProgress.total_size (fst (TransferManager.progress_callback b p))
     = TransferProgress.total_size p.
Proof.
  unfold TransferManager.progress_callback, TransferProgress.update.
  destruct (Z.eqb_spec (TransferProgress.transferred p) 0) as [Hz|Hnz];
    destruct (TransferProgress.callback p), (TransferProgress.cancelled p);
    simpl; split; lia.
Qed.

Lemma report_counts_total (sizes : list Z) :
  forall (p : TransferProgress.t) (so_far : Z),
    TransferProgress.total_size (fst (report_counts p so_far sizes))
    = TransferProgress.total_size p.
Proof.
  induction sizes as [|s rest IH]; intros p so_far; simpl; [reflexivity|].
  pose proof (progress_callback_counter (so_far + s) p) as [_ Ht].
  destruct (TransferManager.progress_callback (so_far + s) p) as [p1 e1].
  specialize (IH p1 (so_far + s)).
  destruct (report_counts p1 (so_far + s) rest) as [p2 e2]. simpl in *. congruence.
Qed.

Lemma report_counts_transferred (sizes : list Z) :
  forall (p : TransferProgress.t) (so_far : Z),
    sizes <> [] ->
    TransferProgress.transferred (fst (report_counts p so_far sizes))
    = so_far + foldr Z.add 0 sizes.
Proof.
  induction sizes as [|s rest IH]; intros p so_far Hne; [congruence|]. simpl.
  pose proof (progress_callback_counter (so_far + s) p) as [Hc _].
  destruct (TransferManager.progress_callback (so_far + s) p) as [p1 e1].
  destruct rest as [|s' rest'].
  - simpl in *. lia.
  - specialize (IH p1 (so_far + s) ltac:(discriminate)).
    destruct (report_counts p1 (so_far + s) (s' :: rest')) as [p2 e2].
    simpl in *. lia.
Qed.

Lemma file_size_concat (chunks : list (list byte)) :
  file_size (concat chunks) = foldr Z.add 0 (map file_size chunks).
Proof.
  unfold file_size. induction chunks as [|c chunks IH]; simpl; [reflexivity|].
  rewrite length_app. lia.
Qed.

Section EngineMore.
Context {R : Type} {C : Collaborators R}.
Variable self : TransferManager.t.

Lemma with_progress_eq
  (f : TransferProgress.t -> TransferProgress.t * list event) (w : world R) :
  TransferManager.with_progress f w
  = match tracker w with
    | Some p => (World (local_fs w) (remote w) (Some (fst (f p)))
                   (trace w ++ snd (f p)), Return tt)
    | None => (w, Return tt)
    end.
Proof.
  unfold TransferManager.with_progress, bind, get_progress.
  destruct (tracker w) as [p|]; [|reflexivity].
  destruct (f p) as [p' evs]. reflexivity.
Qed.

(** What the body of one [sftp.get] does to the world. *)
Lemma receive_chunks_eq (lp : string) (chunks : list (list byte)) :
  forall (so_far : Z) (fs : gmap string (list byte)) (r : R)
         (tk : option TransferProgress.t) (tr : list event),
    TransferManager.receive_chunks lp so_far chunks (World fs r tk tr)
    = (World
         (match chunks with
          | [] => fs
          | _ => <[lp := default [] (fs !! lp) ++ concat chunks]> fs
          end)
         r
         (match tk with
          | Some p => Some (fst (report_counts p so_far (map file_size chunks)))
          | None => None
          end)
         (match tk with
          | Some p => tr ++ snd (report_counts p so_far (map file_size chunks))
          | None => tr
          end),
       Return tt).
Proof.
  induction chunks as [|chunk rest IH]; intros so_far fs r tk tr.
  - destruct tk; simpl; rewrite ?app_nil_r; reflexivity.
  - cbn [TransferManager.receive_chunks]. unfold bind at 1. unfold local_append.
    cbn [local_fs remote tracker trace]. unfold bind at 1.
    rewrite with_progress_eq. cbn [local_fs remote tracker trace].
    destruct tk as [p|].
    + rewrite IH. cbn [map report_counts].
      destruct (TransferManager.progress_callback (so_far + file_size chunk) p)
        as [p1 e1]. cbn [fst snd].
      destruct (report_counts p1 (so_far + file_size chunk) (map file_size rest))
        as [p2 e2]. cbn [fst snd].
      rewrite lookup_insert_eq. cbn [default from_option].
      destruct rest as [|c' rest']; cbn [concat id];
        rewrite ?insert_insert_eq, ?app_nil_r, <- ?app_assoc; reflexivity.
    + rewrite IH. rewrite lookup_insert_eq. cbn [default from_option].
      destruct rest as [|c' rest']; cbn [concat id];
        rewrite ?insert_insert_eq, ?app_nil_r, <- ?app_assoc; reflexivity.
Qed.

(** The possible outcomes of [_download_file_with_progress]. *)
Lemma _download_file_with_progress_cases (h rp lp : string) (w w' : world R)
  (r : result unit) :
  TransferManager._download_file_with_progress h rp lp w = (w', r) ->
  (exists e, r = Raise (TransferError (SFTP_transfer_failed e)))
  \/ (r = Return tt
      /\ exists chunks,
           local_fs w' = <[lp := concat chunks]> (local_fs w)
           /\ tracker w'
              = match tracker w with
                | Some p => Some (fst (report_counts p 0 (map file_size chunks)))
                | None => None
                end).
Proof.
  unfold TransferManager._download_file_with_progress, try_except.
  unfold bind at 1. unfold emit at 1. unfold bind at 1. unfold call at 1.
  cbn [remote local_fs tracker trace].
  destruct (get_sftp_client h (remote w)) as [r1 [[]|e]].
  2:{ unfold raise. intros [= <- <-]. left. eauto. }
  unfold bind at 1. unfold emit at 1. unfold bind at 1. unfold ask at 1.
  cbn [remote local_fs tracker trace].
  destruct (sftp_get rp lp r1) as [r2 [e|chunks err]].
  { unfold raise. intros [= <- <-]. left. eauto. }
  unfold bind at 1. unfold local_truncate at 1. cbn [remote local_fs tracker trace].
  unfold bind at 1. rewrite receive_chunks_eq.
  destruct err as [e|].
  { unfold raise. intros [= <- <-]. left. eauto. }
  unfold emit. cbn [remote local_fs tracker trace]. intros [= <- <-].
  right. split; [reflexivity|]. exists chunks. cbn [local_fs tracker].
  rewrite lookup_insert_eq. cbn [default from_option app].
  split; [|reflexivity].
  destruct chunks; [reflexivity | apply insert_insert_eq].
Qed.

(** An attempt touches no local file but the target, and keeps the tracker
    and its total. *)
Lemma _download_file_with_progress_frame (h rp lp : string) (w w' : world R)
  (r : result unit) :
  TransferManager._download_file_with_progress h rp lp w = (w', r) ->
  (forall q, q <> lp -> local_fs w' !! q = local_fs w !! q)
  /\ (forall p, tracker w = Some p ->
        exists p', tracker w' = Some p'
                   /\ TransferProgress.total_size p' = TransferProgress.total_size p).
Proof.
  unfold TransferManager._download_file_with_progress, try_except.
  unfold bind at 1. unfold emit at 1. unfold bind at 1. unfold call at 1.
  cbn [remote local_fs tracker trace].
  destruct (get_sftp_client h (remote w)) as [r1 [[]|e]].
  2:{ unfold raise. intros [= <- <-]. cbn. eauto. }
  unfold bind at 1. unfold emit at 1. unfold bind at 1. unfold ask at 1.
  cbn [remote local_fs tracker trace].
  destruct (sftp_get rp lp r1) as [r2 [e|chunks err]].
  { unfold raise. intros [= <- <-]. cbn. eauto. }
  unfold bind at 1. unfold local_truncate at 1. cbn [remote local_fs tracker trace].
  unfold bind at 1. rewrite receive_chunks_eq.
  assert (Hframe : forall q, q <> lp ->
            match chunks with
            | [] => <[lp:=[]]> (local_fs w)
            | _ :: _ => <[lp:=default [] (<[lp:=[]]> (local_fs w) !! lp) ++ concat chunks]>
                          (<[lp:=[]]> (local_fs w))
            end !! q = local_fs w !! q).
  { intros q Hq. destruct chunks; rewrite ?lookup_insert_ne by congruence; reflexivity. }
  assert (Htk : forall p, tracker w = Some p ->
            exists p', match tracker w with
                       | Some p0 => Some (fst (report_counts p0 0 (map file_size chunks)))
                       | None => None
                       end = Some p'
                       /\ TransferProgress.total_size p' = TransferProgress.total_size p).
  { intros p ->. eexists; split; [reflexivity | apply report_counts_total]. }
  destruct err as [e|]; unfold raise, emit; cbn [remote local_fs tracker trace];
    intros [= <- <-]; cbn [local_fs tracker]; split; assumption.
Qed.

Lemma download_attempt_frame (h rp lp : string) (rs : Z) (w w' : world R)
  (r : result string) :
  TransferManager.download_attempt h rp lp rs w = (w', r) ->
  (forall q, q <> lp -> local_fs w' !! q = local_fs w !! q)
  /\ (forall p, tracker w = Some p ->
        exists p', tracker w' = Some p'
                   /\ TransferProgress.total_size p' = TransferProgress.total_size p).
Proof.
  unfold TransferManager.download_attempt. unfold bind at 1.
  destruct (TransferManager._download_file_with_progress h rp lp w)
    as [w1 [[]|e]] eqn:E1; apply _download_file_with_progress_frame in E1.
  - unfold bind. rewrite _verify_download_run.
    destruct (match local_fs w1 !! lp with Some _ => _ | None => _ end);
      unfold ret, raise; intros [= <- <-]; exact E1.
  - intros [= <- <-]; exact E1.
Qed.

(** A successful attempt leaves a file of the expected size at the target,
    and, if that size is not zero, a tracker whose counter is the total
    transferred. *)
Lemma download_attempt_success (h rp lp : string) (rs : Z) (w w' : world R)
  (p : string) :
  TransferManager.download_attempt h rp lp rs w = (w', Return p) ->
  p = lp
  /\ (exists content, local_fs w' !! lp = Some content /\ file_size content = rs)
  /\ (forall t, tracker w = Some t -> rs <> 0 ->
        exists t', tracker w' = Some t' /\ TransferProgress.transferred t' = rs).
Proof.
  unfold TransferManager.download_attempt. unfold bind at 1.
  destruct (TransferManager._download_file_with_progress h rp lp w)
    as [w1 [[]|e]] eqn:E1; [|discriminate].
  apply _download_file_with_progress_cases in E1 as [(e & He)|(_ & chunks & Hfs & Htk)];
    [discriminate|].
  unfold bind. rewrite _verify_download_run.
  rewrite Hfs, lookup_insert_eq.
  destruct (Z.eqb_spec (file_size (concat chunks)) rs) as [Heq|Hne];
    unfold ret, raise; intros [= <- <-].
  split; [reflexivity|]. split.
  - exists (concat chunks). rewrite Hfs, lookup_insert_eq. now split.
  - intros t Ht Hrs. rewrite Htk, Ht. eexists; split; [reflexivity|].
    rewrite report_counts_transferred.
    + rewrite <- file_size_concat. lia.
    + destruct chunks; [|discriminate]. exfalso. apply Hrs. now rewrite <- Heq.
Qed.

(** The retry loop, whatever the attempts do. *)
Lemma download_attempts_spec (h rp lp : string) (rs : Z) (n : nat) :
  forall (attempt : Z) (w w' : world R) (r : result string),
    TransferManager.download_attempts self n attempt h rp lp rs w = (w', r) ->
    (forall q, q <> lp -> local_fs w' !! q = local_fs w !! q)
    /\ (forall p, tracker w = Some p ->
          exists p', tracker w' = Some p'
                     /\ TransferProgress.total_size p' = TransferProgress.total_size p)
    /\ (sessions (trace w') <= sessions (trace w) + n)%nat
    /\ (forall path, r = Return path ->
          path = lp
          /\ (exists content, local_fs w' !! lp = Some content /\ file_size content = rs)
          /\ (forall t, tracker w = Some t -> rs <> 0 ->
                exists t', tracker w' = Some t'
                           /\ TransferProgress.transferred t' = rs)).
Proof.
  induction n as [|n IH]; intros attempt w w' r.
  - cbn. unfold raise. intros [= <- <-].
    repeat split; eauto; try lia; discriminate.
  - cbn [TransferManager.download_attempts]. unfold try_except.
    destruct (TransferManager.download_attempt h rp lp rs w) as [w1 [a|e]] eqn:E1.
    + intros [= <- <-].
      destruct (download_attempt_frame _ _ _ _ _ _ _ E1) as [Hfr Htk].
      pose proof (download_attempt_sessions _ _ _ _ _ _ _ E1) as Hs.
      split; [exact Hfr|]. split; [exact Htk|]. split; [lia|].
      intros path [= <-]. now apply (download_attempt_success _ _ _ _ _ _ _ E1).
    + destruct (download_attempt_frame _ _ _ _ _ _ _ E1) as [Hfr Htk].
      pose proof (download_attempt_sessions _ _ _ _ _ _ _ E1) as Hs.
      destruct (attempt <? TransferManager.max_retries self - 1).
      2:{ unfold raise. intros [= <- <-].
          split; [exact Hfr|]. split; [exact Htk|]. split; [lia|]. discriminate. }
      unfold bind at 1.
      destruct (TransferManager.before_retry self lp w1) as [w3 [[]|e3]] eqn:E3b;
        apply before_retry_spec in E3b as (Htr3 & Hss3 & Hfs3 & Hres3).
      2:{ intros [= <- <-].
          split; [intros q Hq; now rewrite Hfs3, Hfr|].
          split; [intros p Hp; rewrite Htr3; now apply Htk|].
          split; [lia | discriminate]. }
      intros E3. apply IH in E3 as (Hfr3 & Htk3 & Hs3 & Hret3).
      split; [|split; [|split]].
      * intros q Hq. now rewrite Hfr3, Hfs3, Hfr.
      * intros p Hp. destruct (Htk p Hp) as (p1 & Hp1 & Ht1).
        rewrite <- Htr3 in Hp1. destruct (Htk3 p1 Hp1) as (p3 & Hp3 & Ht3).
        exists p3. split; [exact Hp3 | congruence].
      * lia.
      * intros path Hpath. destruct (Hret3 path Hpath) as (Hp & Hfile & Htrk).
        split; [exact Hp|]. split; [exact Hfile|].
        intros t Ht Hrs. destruct (Htk t Ht) as (p1 & Hp1 & _).
        rewrite <- Htr3 in Hp1. now apply (Htrk p1).
Qed.

(** The outcomes of [download_backup]: the short circuit, the size that cannot
    be determined, or the retry loop on a fresh tracker. *)
Lemma download_backup_cases (h : string) (info : BackupInfo.t) (name : option string)
  (cb : option observer) (w w' : world R) (r : result string) :
  TransferManager.download_backup self h info name cb w = (w', r) ->
  (file_size <$> local_fs w !! TransferManager.local_target self info name
     = Some (TransferManager.recorded_size info)
   /\ w' = w /\ r = Return (TransferManager.local_target self info name))
  \/ (file_size <$> local_fs w !! TransferManager.local_target self info name
        <> Some (TransferManager.recorded_size info)
      /\ exists wq o,
           TransferManager._get_remote_file_size h (BackupInfo.filepath info) w
           = (wq, Return o)
           /\ local_fs wq = local_fs w /\ tracker wq = tracker w
           /\ trace wq = trace w ++ [ExecuteCommand h
                                       (TransferManager.stat_command
                                          (BackupInfo.filepath info))]
           /\ match o with
              | None =>
                  w' = wq
                  /\ r = Raise (TransferError
                                  (Could_not_determine_size_of_remote_file
                                     (BackupInfo.filepath info)))
              | Some rs =>
                  exists r2 now,
                    TransferManager.download_attempts self
                      (Z.to_nat (TransferManager.max_retries self)) 0 h
                      (BackupInfo.filepath info)
                      (TransferManager.local_target self info name) rs
                      (World (local_fs w) r2
                         (Some (TransferProgress.init rs cb now))
                         (trace wq ++ [ProgressCreated rs]))
                    = (w', r)
              end).
Proof.
  unfold TransferManager.download_backup. unfold bind at 1. unfold local_size at 1.
  cbn beta iota.
  destruct (file_size <$> local_fs w !! TransferManager.local_target self info name)
    as [sz|] eqn:Esz.
  - destruct (Z.eqb_spec sz (TransferManager.recorded_size info)) as [->|Hne].
    + unfold ret. intros [= <- <-]. left. auto.
    + right. split; [congruence|].
      revert H. unfold bind at 1.
      destruct (_get_remote_file_size_run h (BackupInfo.filepath info) w)
        as (r' & o & E). rewrite E. intros H.
      eexists _, o. split; [reflexivity|]. cbn [local_fs tracker trace].
      repeat split.
      destruct o as [rs|]; [|unfold raise in H; now injection H as <- <-].
      revert H. unfold bind at 1. unfold ask at 1. cbn [remote local_fs tracker trace].
      destruct (time_time r') as [r2 now].
      unfold bind at 1. unfold new_progress at 1. cbn [remote local_fs tracker trace].
      intros H. now exists r2, now.
  - right. split; [discriminate|].
    revert H. unfold bind at 1.
    destruct (_get_remote_file_size_run h (BackupInfo.filepath info) w)
      as (r' & o & E). rewrite E. intros H.
    eexists _, o. split; [reflexivity|]. cbn [local_fs tracker trace].
    repeat split.
    destruct o as [rs|]; [|unfold raise in H; now injection H as <- <-].
    revert H. unfold bind at 1. unfold ask at 1. cbn [remote local_fs tracker trace].
    destruct (time_time r') as [r2 now].
    unfold bind at 1. unfold new_progress at 1. cbn [remote local_fs tracker trace].
    intros H. now exists r2, now.
Qed.

(** ** What [download_backup] guarantees *)

(** X4: when [download_backup] returns, it returns the target path, and a
    file is there whose size is the size the record states (the short
    circuit) or the remote size the size query reported at the start (a
    verified transfer). *)
Theorem X4_download_returns_a_verified_file
  (h : string) (info : BackupInfo.t) (name : option string) (cb : option observer)
  (w w' : world R) (path : string) :
  TransferManager.download_backup self h info name cb w = (w', Return path) ->
  path = TransferManager.local_target self info name
  /\ exists content,
       local_fs w' !! path = Some content
       /\ (file_size content = TransferManager.recorded_size info
           \/ snd (TransferManager._get_remote_file_size h
                     (BackupInfo.filepath info) w)
              = Return (Some (file_size content))).
Proof.
  intros H. apply download_backup_cases in H
    as [(Hsz & -> & [= ->])|(_ & wq & o & Eq & _ & _ & _ & Ho)].
  - split; [reflexivity|].
    destruct (local_fs w !! TransferManager.local_target self info name) as [c|];
      [|discriminate].
    exists c. split; [reflexivity|]. left. cbn in Hsz. congruence.
  - destruct o as [rs|]; [|destruct Ho; discriminate].
    destruct Ho as (r2 & now & Ha).
    apply download_attempts_spec in Ha as (_ & _ & _ & Hret).
    destruct (Hret path eq_refl) as (-> & (content & Hc & Hs) & _).
    split; [reflexivity|]. exists content. split; [exact Hc|]. right.
    rewrite Eq. cbn. now rewrite Hs.
Qed.

(** X5: whatever happens, [download_backup] leaves every local file other
    than its target as it was. *)
Theorem X5_download_touches_only_its_target
  (h : string) (info : BackupInfo.t) (name : option string) (cb : option observer)
  (w : world R) (q : string) :
  q <> TransferManager.local_target self info name ->
  local_fs (fst (TransferManager.download_backup self h info name cb w)) !! q
  = local_fs w !! q.
Proof.
  intros Hq.
  destruct (TransferManager.download_backup self h info name cb w) as [w' r] eqn:E.
  apply download_backup_cases in E
    as [(_ & -> & _)|(_ & wq & o & _ & Hfs & _ & _ & Ho)]; [reflexivity|].
  cbn [fst]. destruct o as [rs|].
  - destruct Ho as (r2 & now & Ha).
    apply download_attempts_spec in Ha as (Hfr & _). now rewrite Hfr.
  - destruct Ho as [-> _]. now rewrite Hfs.
Qed.

(** X6: when the remote size cannot be determined, [download_backup] raises
    [TransferError("Could not determine size of remote file: ...")] at once:
    all it did was the size query; no tracker is created, no SFTP client is
    asked for, nothing is retried, the local disk is untouched. *)
Theorem X6_download_without_remote_size
  (h : string) (info : BackupInfo.t) (name : option string) (cb : option observer)
  (w : world R) :
  file_size <$> local_fs w !! TransferManager.local_target self info name
    <> Some (TransferManager.recorded_size info) ->
  snd (TransferManager._get_remote_file_size h (BackupInfo.filepath info) w)
    = Return None ->
  exists w',
    TransferManager.download_backup self h info name cb w
    = (w', Raise (TransferError
                    (Could_not_determine_size_of_remote_file
                       (BackupInfo.filepath info))))
    /\ local_fs w' = local_fs w
    /\ tracker w' = tracker w
    /\ trace w' = trace w ++ [ExecuteCommand h
                                (TransferManager.stat_command
                                   (BackupInfo.filepath info))].
Proof.
  intros Hne Hnone.
  destruct (TransferManager.download_backup self h info name cb w) as [w' r] eqn:E.
  apply download_backup_cases in E
    as [(Hsz & _)|(_ & wq & o & Eq & Hfs & Htk & Htr & Ho)]; [contradiction|].
  rewrite Eq in Hnone. cbn in Hnone. injection Hnone as ->.
  destruct Ho as [-> ->]. exists wq. auto.
Qed.

(** X7: a download asks for an SFTP client at most [max_retries] times,
    whatever the attempts do. *)
Theorem X7_download_attempts_are_bounded
  (h : string) (info : BackupInfo.t) (name : option string) (cb : option observer)
  (w : world R) :
  (sessions (trace (fst (TransferManager.download_backup self h info name cb w)))
   <= sessions (trace w) + Z.to_nat (TransferManager.max_retries self))%nat.
Proof.
  destruct (TransferManager.download_backup self h info name cb w) as [w' r] eqn:E.
  apply download_backup_cases in E
    as [(_ & -> & _)|(_ & wq & o & _ & _ & _ & Htr & Ho)]; cbn [fst]; [lia|].
  destruct o as [rs|].
  - destruct Ho as (r2 & now & Ha).
    apply download_attempts_spec in Ha as (_ & _ & Hs & _).
    cbn [trace] in Hs. rewrite Htr in Hs. sessions_lia.
  - destruct Ho as [-> _]. rewrite Htr. sessions_lia.
Qed.

(** X8: when a download that had to transfer returns, the tracker it created
    holds the remote size as its total, and, unless that size is zero, its
    counter has reached the total, also after failed attempts (the callbacks of
    [sftp.get] report running totals, and the engine turns them into
    deltas). *)
Theorem X8_download_ends_with_a_full_tracker
  (h : string) (info : BackupInfo.t) (name : option string) (cb : option observer)
  (w w' : world R) (path : string) :
  file_size <$> local_fs w !! TransferManager.local_target self info name
    <> Some (TransferManager.recorded_size info) ->
  TransferManager.download_backup self h info name cb w = (w', Return path) ->
  exists t rs,
    snd (TransferManager._get_remote_file_size h (BackupInfo.filepath info) w)
      = Return (Some rs)
    /\ tracker w' = Some t
    /\ TransferProgress.total_size t = rs
    /\ (rs <> 0 -> TransferProgress.transferred t = rs).
Proof.
  intros Hne H. apply download_backup_cases in H
    as [(Hsz & _)|(_ & wq & o & Eq & _ & _ & _ & Ho)]; [contradiction|].
  destruct o as [rs|]; [|destruct Ho; discriminate].
  destruct Ho as (r2 & now & Ha).
  apply download_attempts_spec in Ha as (_ & Htk & _ & Hret).
  destruct (Htk _ eq_refl) as (t & Ht & Htot).
  destruct (Hret path eq_refl) as (_ & _ & Hfull).
  exists t, rs. rewrite Eq. split; [reflexivity|]. split; [exact Ht|].
  split; [exact Htot|]. intros Hrs.
  destruct (Hfull _ eq_refl Hrs) as (t' & Ht' & Hfullt). congruence.
Qed.

End EngineMore.

Lemma X4_download_returns_a_verified_file_witness :
  snd Sample.download_once = Return "/backups/20250101_000000_tiny.tar"
  /\ exists content,
       local_fs (fst Sample.download_once) !! "/backups/20250101_000000_tiny.tar"
       = Some content
       /\ (file_size content = TransferManager.recorded_size Sample.tiny
           \/ snd (TransferManager._get_remote_file_size (C := Sample.steady) "host1"
                     (BackupInfo.filepath Sample.tiny) (Sample.empty_world ∅))
              = Return (Some (file_size content))).
Proof.
  split; [vm_compute; reflexivity|].
  apply (X4_download_returns_a_verified_file (C := Sample.steady)
           (TransferManager.init "/backups") "host1" Sample.tiny None None
           (Sample.empty_world ∅) (fst Sample.download_once)
           "/backups/20250101_000000_tiny.tar").
  vm_compute. reflexivity.
Defined.

Lemma X5_download_touches_only_its_target_witness :
  local_fs (fst Sample.failing_download) !! "/backups/other.tar"
  = local_fs (Sample.empty_world ∅) !! "/backups/other.tar".
Proof.
  unfold Sample.failing_download.
  apply (X5_download_touches_only_its_target (C := Sample.flaky "10" [["000"%byte]])
           (TransferManager.init "/backups") "host1" Sample.db_2025 None None
           (Sample.empty_world ∅) "/backups/other.tar").
  vm_compute. discriminate.
Defined.

Lemma X6_download_without_remote_size_witness :
  exists w',
    TransferManager.download_backup (C := Sample.flaky "n/a" [])
      (TransferManager.init "/backups") "host1" Sample.db_2025 None None
      (Sample.empty_world ∅)
    = (w', Raise (TransferError
                    (Could_not_determine_size_of_remote_file
                       (BackupInfo.filepath Sample.db_2025))))
    /\ local_fs w' = ∅
    /\ tracker w' = None
    /\ trace w' = [] ++ [ExecuteCommand "host1"
                           (TransferManager.stat_command
                              (BackupInfo.filepath Sample.db_2025))].
Proof.
  apply (X6_download_without_remote_size (C := Sample.flaky "n/a" [])
           (TransferManager.init "/backups") "host1" Sample.db_2025 None None
           (Sample.empty_world ∅)).
  - vm_compute. discriminate.
  - reflexivity.
Defined.

Lemma X8_download_ends_with_a_full_tracker_witness :
  exists t rs,
    snd (TransferManager._get_remote_file_size (C := Sample.steady) "host1"
           (BackupInfo.filepath Sample.tiny) (Sample.empty_world ∅))
      = Return (Some rs)
    /\ tracker (fst Sample.download_once) = Some t
    /\ TransferProgress.total_size t = rs
    /\ (rs <> 0 -> TransferProgress.transferred t = rs).
Proof.
  apply (X8_download_ends_with_a_full_tracker (C := Sample.steady)
           (TransferManager.init "/backups") "host1" Sample.tiny None None
           (Sample.empty_world ∅) (fst Sample.download_once)
           "/backups/20250101_000000_tiny.tar").
  - vm_compute. discriminate.
  - vm_compute. reflexivity.
Defined.

(** ** What the observer sees *)

Lemma update_never_cancelled (p : TransferProgress.t) (d : Z) :
  TransferProgress.cancelled p = false ->
  never_cancels (TransferProgress.callback p) ->
  TransferProgress.cancelled (fst (TransferProgress.update p d)) = false
  /\ TransferProgress.callback (fst (TransferProgress.update p d))
     = TransferProgress.callback p
  /\ TransferProgress.transferred (fst (TransferProgress.update p d))
     = TransferProgress.transferred p + d
  /\ TransferProgress.total_size (fst (TransferProgress.update p d))
     = TransferProgress.total_size p
  /\ snd (TransferProgress.update p d)
     = match TransferProgress.callback p with
       | Some _ => [CallbackInvoked (TransferProgress.transferred p + d)
                      (TransferProgress.total_size p)]
       | None => []
       end.
Proof.
  intros Hc Hn. unfold TransferProgress.update. rewrite Hc.
  destruct (TransferProgress.callback p) as [f|] eqn:Ef; simpl; [|now repeat split].
  rewrite (Hn f eq_refl). now repeat split.
Qed.

Lemma report_counts_events (sizes : list Z) :
  forall (p : TransferProgress.t) (so_far : Z) (f : observer),
    TransferProgress.callback p = Some f ->
    TransferProgress.cancelled p = false ->
    (forall a b, f a b = false) ->
    snd (report_counts p so_far sizes)
    = map (fun c => CallbackInvoked c (TransferProgress.total_size p))
        (running_sums so_far sizes).
Proof.
  induction sizes as [|s rest IH]; intros p so_far f Hf Hc Hn; [reflexivity|].
  cbn [report_counts running_sums map].
  assert (Hnc : never_cancels (TransferProgress.callback p)).
  { intros g Hg. rewrite Hf in Hg. injection Hg as <-. exact Hn. }
  assert (Hstep : exists d,
             TransferManager.progress_callback (so_far + s) p
             = TransferProgress.update p d
             /\ TransferProgress.transferred p + d = so_far + s).
  { unfold TransferManager.progress_callback.
    destruct (Z.eqb_spec (TransferProgress.transferred p) 0) as [Hz|Hnz];
      eexists; split; try reflexivity; lia. }
  destruct Hstep as (d & -> & Hd).
  destruct (update_never_cancelled p d Hc Hnc) as (Hc1 & Hf1 & _ & Ht1 & He1).
  rewrite Hf, Hd in He1. rewrite Hf in Hf1.
  destruct (TransferProgress.update p d) as [p1 e1]. cbn [fst snd] in *.
  specialize (IH p1 (so_far + s) f Hf1 Hc1 Hn).
  destruct (report_counts p1 (so_far + s) rest) as [p2 e2]. cbn [fst snd] in *.
  subst e1 e2. rewrite Ht1. reflexivity.
Qed.

Section ObserverFacts.
Context {R : Type} {C : Collaborators R}.
Variable self : TransferManager.t.

(** X9: in a transfer that goes through, an observer that does not cancel is
    called once per chunk, in order, and each time the tracker shows the
    running total of the bytes received so far. *)
Theorem X9_observer_sees_running_totals
  (h rp lp : string) (w : world R) (p : TransferProgress.t) (f : observer)
  (r1 r2 : R) (chunks : list (list byte)) :
  tracker w = Some p ->
  TransferProgress.callback p = Some f ->
  TransferProgress.cancelled p = false ->
  (forall a b, f a b = false) ->
  get_sftp_client h (remote w) = (r1, Return tt) ->
  sftp_get rp lp r1 = (r2, GetTransferred chunks None) ->
  exists w',
    TransferManager._download_file_with_progress h rp lp w = (w', Return tt)
    /\ trace w'
       = trace w ++ [GetSftpClient h; SftpGet rp lp]
         ++ map (fun c => CallbackInvoked c (TransferProgress.total_size p))
              (running_sums 0 (map file_size chunks))
         ++ [SftpClose]
    /\ local_fs w' !! lp = Some (concat chunks).
Proof.
  intros Htk Hf Hc Hn Hcl Hget.
  unfold TransferManager._download_file_with_progress, try_except.
  unfold bind at 1. unfold emit at 1. unfold bind at 1. unfold call at 1.
  cbn [remote local_fs tracker trace]. rewrite Hcl.
  unfold bind at 1. unfold emit at 1. unfold bind at 1. unfold ask at 1.
  cbn [remote local_fs tracker trace]. rewrite Hget.
  unfold bind at 1. unfold local_truncate at 1. cbn [remote local_fs tracker trace].
  unfold bind at 1. rewrite receive_chunks_eq. rewrite Htk.
  unfold emit. cbn [remote local_fs tracker trace].
  eexists. split; [reflexivity|]. cbn [trace local_fs]. split.
  - rewrite (report_counts_events _ p 0 f Hf Hc Hn).
    rewrite <- !app_assoc. reflexivity.
  - rewrite lookup_insert_eq. cbn [default from_option app].
    destruct chunks; [apply lookup_insert_eq|].
    rewrite lookup_insert_eq. reflexivity.
Qed.

End ObserverFacts.

Lemma X9_observer_sees_running_totals_witness :
  exists w',
    TransferManager._download_file_with_progress (C := Sample.steady) "host1"
      "/remote/a.tar" "/backups/a.tar"
      (World ∅ O (Some (TransferProgress.init 10 (Some (fun _ _ => false)) 0)) [])
    = (w', Return tt)
    /\ trace w'
       = [] ++ [GetSftpClient "host1"; SftpGet "/remote/a.tar" "/backups/a.tar"]
         ++ map (fun c => CallbackInvoked c 10)
              (running_sums 0 (map file_size [Sample.ten_bytes]))
         ++ [SftpClose]
    /\ local_fs w' !! "/backups/a.tar" = Some (concat [Sample.ten_bytes]).
Proof.
  apply (X9_observer_sees_running_totals (C := Sample.steady) "host1"
           "/remote/a.tar" "/backups/a.tar"
           (World ∅ O (Some (TransferProgress.init 10 (Some (fun _ _ => false)) 0)) [])
           (TransferProgress.init 10 (Some (fun _ _ => false)) 0)
           (fun _ _ => false) 1%nat 2%nat [Sample.ten_bytes]);
    reflexivity.
Defined.

(** ** Resuming *)

Section ResumeFacts.
Context {R : Type} {C : Collaborators R}.
Variable self : TransferManager.t.

(** The read loop when every read delivers a chunk and nobody cancels. *)
Lemma resume_chunks_clean (lp : string) (chunks : list (list byte)) :
  Forall (fun c => c <> []) chunks ->
  forall (w : world R) (content : list byte) (p : TransferProgress.t),
    local_fs w !! lp = Some content ->
    tracker w = Some p ->
    TransferProgress.cancelled p = false ->
    never_cancels (TransferProgress.callback p) ->
    exists w' p',
      TransferManager.resume_chunks self lp (map Return chunks) w = (w', Return tt)
      /\ local_fs w' !! lp = Some (content ++ concat chunks)
      /\ (forall q, q <> lp -> local_fs w' !! q = local_fs w !! q)
      /\ tracker w' = Some p'
      /\ TransferProgress.transferred p'
         = TransferProgress.transferred p + file_size (concat chunks)
      /\ TransferProgress.total_size p' = TransferProgress.total_size p
      /\ sessions (trace w') = sessions (trace w).
Proof.
  induction 1 as [|chunk rest Hne _ IH]; intros w content p Hfile Htk Hc Hn.
  - exists (World (local_fs w) (remote w) (tracker w)
              (trace w ++ [RemoteRead (TransferManager.chunk_size self)])), p.
    split; [reflexivity|]. cbn [local_fs tracker trace concat]. rewrite app_nil_r.
    split; [exact Hfile|]. split; [reflexivity|]. split; [exact Htk|].
    split; [unfold file_size; simpl; lia|]. split; [reflexivity | sessions_lia].
  - destruct chunk as [|b chunk]; [congruence|].
    cbn [map TransferManager.resume_chunks]. unfold bind at 1. unfold emit at 1.
    unfold bind at 1. unfold emit at 1. unfold bind at 1. unfold local_append at 1.
    cbn [local_fs remote tracker trace]. rewrite Hfile. cbn [default from_option].
    unfold bind at 1. rewrite with_progress_eq. cbn [local_fs remote tracker trace].
    rewrite Htk.
    destruct (update_never_cancelled p (file_size (b :: chunk)) Hc Hn)
      as (Hc1 & Hf1 & Ht1 & Htot1 & _).
    pose proof (update_no_session p (file_size (b :: chunk))) as Hs1.
    destruct (TransferProgress.update p (file_size (b :: chunk))) as [p1 e1].
    cbn [fst snd] in *.
    unfold bind at 1. unfold get_progress at 1. cbn [tracker from_option].
    rewrite Hc1.
    match goal with
    | |- context [TransferManager.resume_chunks self lp (map Return rest) ?w0] =>
        destruct (IH w0 (content ++ b :: chunk) p1) as
          (w' & p' & E & Hfile' & Hfr' & Htk' & Ht' & Htot' & Hs')
    end.
    + cbn [local_fs]. apply lookup_insert_eq.
    + reflexivity.
    + exact Hc1.
    + now rewrite Hf1.
    + exists w', p'. split; [exact E|]. cbn [local_fs trace] in *.
      split; [cbn [concat]; now rewrite app_assoc|].
      split; [intros q Hq; rewrite Hfr' by exact Hq; now apply lookup_insert_ne|].
      split; [exact Htk'|].
      split.
      * rewrite Ht', Ht1. cbn [concat]. unfold file_size. rewrite !length_app. lia.
      * split; [congruence | sessions_lia].
Qed.

(** The read loop when the observer cancels at the first chunk. *)
Lemma resume_chunks_cancel (lp : string) (b : byte) (chunk : list byte)
  (rest : list (result (list byte))) (w : world R) (content : list byte)
  (p : TransferProgress.t) (f : observer) :
  local_fs w !! lp = Some content ->
  tracker w = Some p ->
  TransferProgress.callback p = Some f ->
  TransferProgress.cancelled p = false ->
  f (TransferProgress.transferred p + file_size (b :: chunk))
    (TransferProgress.total_size p) = true ->
  exists w',
    TransferManager.resume_chunks self lp (Return (b :: chunk) :: rest) w
    = (w', Raise (TransferError Transfer_cancelled_by_user))
    /\ local_fs w' !! lp = Some (content ++ b :: chunk)
    /\ length (List.filter (fun e => match e with
                                     | CallbackInvoked _ _ => true
                                     | _ => false
                                     end) (trace w'))
       = S (length (List.filter (fun e => match e with
                                          | CallbackInvoked _ _ => true
                                          | _ => false
                                          end) (trace w))).
Proof.
  intros Hfile Htk Hf Hc Hcancel.
  cbn [TransferManager.resume_chunks]. unfold bind at 1. unfold emit at 1.
  unfold bind at 1. unfold emit at 1. unfold bind at 1. unfold local_append at 1.
  cbn [local_fs remote tracker trace]. rewrite Hfile. cbn [default from_option].
  unfold bind at 1. rewrite with_progress_eq. cbn [local_fs remote tracker trace].
  rewrite Htk. unfold TransferProgress.update. rewrite Hf, Hc. cbn [negb fst snd].
  rewrite Hcancel.
  unfold bind at 1. unfold get_progress at 1.
  cbn [tracker from_option TransferProgress.cancelled]. unfold raise.
  eexists. split; [reflexivity|]. cbn [local_fs trace]. split.
  - apply lookup_insert_eq.
  - repeat rewrite List.filter_app. repeat rewrite length_app. simpl. lia.
Qed.

(** X10: a resume whose reads all succeed, with nobody cancelling, appends
    exactly the chunks read to the bytes that were already there, leaves the
    other local files alone, and returns the local path if the file then has
    the remote size; if it has not, the result is
    [TransferError("Resume download failed: Resume download verification
    failed")] and the file stays as written. *)
Theorem X10_resume_appends_what_it_reads
  (h : string) (info : BackupInfo.t) (lp : string) (cb : option observer)
  (w : world R) (content : list byte) (rs : Z) (chunks : list (list byte)) :
  local_fs w !! lp = Some content ->
  snd (TransferManager._get_remote_file_size h (BackupInfo.filepath info) w)
    = Return (Some rs) ->
  file_size content < rs ->
  (forall r, snd (get_sftp_client h r) = Return tt) ->
  (forall r, snd (sftp_file (BackupInfo.filepath info) r) = Return tt) ->
  (forall r, snd (sftp_reads (file_size content) (TransferManager.chunk_size self) r)
             = map Return chunks) ->
  Forall (fun c => c <> []) chunks ->
  never_cancels cb ->
  exists w' r,
    TransferManager.resume_download self h info lp cb w = (w', r)
    /\ local_fs w' !! lp = Some (content ++ concat chunks)
    /\ (forall q, q <> lp -> local_fs w' !! q = local_fs w !! q)
    /\ (file_size (content ++ concat chunks) = rs -> r = Return lp)
    /\ (file_size (content ++ concat chunks) <> rs ->
        r = Raise (TransferError
                     (Resume_download_failed
                        (TransferError Resume_download_verification_failed)))).
Proof.
  intros Hfile Hrs Hlt Hcl Hopen Hreads Hne Hnc.
  unfold TransferManager.resume_download. unfold bind at 1. unfold local_size at 1.
  rewrite Hfile. cbn beta iota. cbn [fmap option_fmap option_map].
  unfold bind at 1.
  destruct (_get_remote_file_size_run h (BackupInfo.filepath info) w) as (r' & o & E).
  rewrite E in Hrs |- *. cbn in Hrs. injection Hrs as ->.
  destruct (Z.geb_spec (file_size content) rs) as [Hge|_]; [lia|].
  unfold bind at 1. unfold ask at 1. cbn [remote local_fs tracker trace].
  destruct (time_time r') as [r2 now].
  unfold bind at 1. unfold new_progress at 1. cbn [remote local_fs tracker trace].
  unfold bind at 1. rewrite with_progress_eq. cbn [remote local_fs tracker trace fst snd].
  unfold try_except.
  unfold bind at 1. unfold emit at 1. unfold bind at 1. unfold call at 1.
  cbn [remote local_fs tracker trace].
  pose proof (Hcl r2) as Hcl2.
  destruct (get_sftp_client h r2) as [r3 res3]. cbn in Hcl2. subst res3.
  unfold bind at 1. unfold emit at 1. unfold bind at 1. unfold emit at 1.
  unfold bind at 1. unfold call at 1. cbn [remote local_fs tracker trace].
  pose proof (Hopen r3) as Hopen3.
  destruct (sftp_file (BackupInfo.filepath info) r3) as [r4 res4].
  cbn in Hopen3. subst res4.
  unfold bind at 1. unfold emit at 1. unfold bind at 1. unfold ask at 1.
  cbn [remote local_fs tracker trace].
  pose proof (Hreads r4) as Hreads4.
  destruct (sftp_reads (file_size content) (TransferManager.chunk_size self) r4)
    as [r5 reads]. cbn in Hreads4. subst reads.
  unfold bind at 1.
  match goal with
  | |- context [TransferManager.resume_chunks self lp (map Return chunks) ?w0] =>
      destruct (resume_chunks_clean lp chunks Hne w0 content
                  (TransferProgress.mk rs (file_size content) now cb false))
        as (w1 & p1 & E1 & Hfile1 & Hfr1 & _)
  end; try reflexivity; try exact Hfile; try exact Hnc.
  rewrite E1. unfold bind at 1. unfold emit at 1. unfold bind at 1.
  rewrite _verify_download_run. cbn [local_fs]. rewrite Hfile1.
  cbn [local_fs] in Hfr1.
  destruct (Z.eqb_spec (file_size (content ++ concat chunks)) rs) as [Heq|Hneq];
    eexists _, _; (split; [reflexivity|]); cbn [local_fs];
    (split; [exact Hfile1|]); (split; [exact Hfr1|]); split; intros; congruence.
Qed.

(** X11: when the observer cancels during the callback of the first chunk, the
    resume stops after that chunk: the chunk is in the file, after the bytes
    that were there (nothing is deleted or truncated, so a later resume can
    continue), the callback was invoked once, and the result is
    [TransferError("Resume download failed: Transfer cancelled by user")]. *)
Theorem X11_resume_cancelled_at_first_chunk
  (h : string) (info : BackupInfo.t) (lp : string) (f : observer)
  (w : world R) (content : list byte) (rs : Z) (b : byte) (chunk : list byte)
  (rest : list (result (list byte))) :
  local_fs w !! lp = Some content ->
  snd (TransferManager._get_remote_file_size h (BackupInfo.filepath info) w)
    = Return (Some rs) ->
  file_size content < rs ->
  (forall r, snd (get_sftp_client h r) = Return tt) ->
  (forall r, snd (sftp_file (BackupInfo.filepath info) r) = Return tt) ->
  (forall r, snd (sftp_reads (file_size content) (TransferManager.chunk_size self) r)
             = Return (b :: chunk) :: rest) ->
  f (file_size content + file_size (b :: chunk)) rs = true ->
  exists w',
    TransferManager.resume_download self h info lp (Some f) w
    = (w', Raise (TransferError
                    (Resume_download_failed
                       (TransferError Transfer_cancelled_by_user))))
    /\ local_fs w' !! lp = Some (content ++ b :: chunk)
    /\ length (List.filter (fun e => match e with
                                     | CallbackInvoked _ _ => true
                                     | _ => false
                                     end) (trace w'))
       = S (length (List.filter (fun e => match e with
                                          | CallbackInvoked _ _ => true
                                          | _ => false
                                          end) (trace w))).
Proof.
  intros Hfile Hrs Hlt Hcl Hopen Hreads Hcancel.
  unfold TransferManager.resume_download. unfold bind at 1. unfold local_size at 1.
  rewrite Hfile. cbn beta iota. cbn [fmap option_fmap option_map].
  unfold bind at 1.
  destruct (_get_remote_file_size_run h (BackupInfo.filepath info) w) as (r' & o & E).
  rewrite E in Hrs |- *. cbn in Hrs. injection Hrs as ->.
  destruct (Z.geb_spec (file_size content) rs) as [Hge|_]; [lia|].
  unfold bind at 1. unfold ask at 1. cbn [remote local_fs tracker trace].
  destruct (time_time r') as [r2 now].
  unfold bind at 1. unfold new_progress at 1. cbn [remote local_fs tracker trace].
  unfold bind at 1. rewrite with_progress_eq. cbn [remote local_fs tracker trace fst snd].
  unfold try_except.
  unfold bind at 1. unfold emit at 1. unfold bind at 1. unfold call at 1.
  cbn [remote local_fs tracker trace].
  pose proof (Hcl r2) as Hcl2.
  destruct (get_sftp_client h r2) as [r3 res3]. cbn in Hcl2. subst res3.
  unfold bind at 1. unfold emit at 1. unfold bind at 1. unfold emit at 1.
  unfold bind at 1. unfold call at 1. cbn [remote local_fs tracker trace].
  pose proof (Hopen r3) as Hopen3.
  destruct (sftp_file (BackupInfo.filepath info) r3) as [r4 res4].
  cbn in Hopen3. subst res4.
  unfold bind at 1. unfold emit at 1. unfold bind at 1. unfold ask at 1.
  cbn [remote local_fs tracker trace].
  pose proof (Hreads r4) as Hreads4.
  destruct (sftp_reads (file_size content) (TransferManager.chunk_size self) r4)
    as [r5 reads]. cbn in Hreads4. subst reads.
  unfold bind at 1.
  match goal with
  | |- context [TransferManager.resume_chunks self lp _ ?w0] =>
      destruct (resume_chunks_cancel lp b chunk rest w0 content
                  (TransferProgress.mk rs (file_size content) now (Some f) false) f)
        as (w1 & E1 & Hfile1 & Hcb1)
  end; try reflexivity; try exact Hfile; try exact Hcancel.
  rewrite E1. unfold raise.
  eexists. split; [reflexivity|]. split; [exact Hfile1|].
  rewrite Hcb1. cbn [trace].
  repeat rewrite List.filter_app. repeat rewrite length_app. simpl. lia.
Qed.

End ResumeFacts.

Lemma X10_resume_appends_what_it_reads_witness :
  exists w' r,
    TransferManager.resume_download (C := Sample.steady)
      (TransferManager.init "/backups") "host1" Sample.tiny
      "/backups/20250101_000000_tiny.tar" None
      (Sample.empty_world {[ "/backups/20250101_000000_tiny.tar" := [] ]})
    = (w', r)
    /\ local_fs w' !! "/backups/20250101_000000_tiny.tar"
       = Some ([] ++ concat [Sample.ten_bytes])
    /\ (forall q, q <> "/backups/20250101_000000_tiny.tar" ->
          local_fs w' !! q
          = local_fs (Sample.empty_world
                        {[ "/backups/20250101_000000_tiny.tar" := [] ]}) !! q)
    /\ (file_size ([] ++ concat [Sample.ten_bytes]) = 10 ->
        r = Return "/backups/20250101_000000_tiny.tar")
    /\ (file_size ([] ++ concat [Sample.ten_bytes]) <> 10 ->
        r = Raise (TransferError
                     (Resume_download_failed
                        (TransferError Resume_download_verification_failed)))).
Proof.
  apply (X10_resume_appends_what_it_reads (C := Sample.steady)
           (TransferManager.init "/backups") "host1" Sample.tiny
           "/backups/20250101_000000_tiny.tar" None
           (Sample.empty_world {[ "/backups/20250101_000000_tiny.tar" := [] ]})
           [] 10 [Sample.ten_bytes]).
  - vm_compute. reflexivity.
  - reflexivity.
  - unfold file_size. simpl. lia.
  - intros r. reflexivity.
  - intros r. reflexivity.
  - intros r. reflexivity.
  - repeat constructor. discriminate.
  - intros f Hf. discriminate.
Defined.

Lemma X11_resume_cancelled_at_first_chunk_witness :
  exists w',
    TransferManager.resume_download (C := Sample.steady)
      (TransferManager.init "/backups") "host1" Sample.tiny
      "/backups/20250101_000000_tiny.tar" (Some (fun _ _ => true))
      (Sample.empty_world {[ "/backups/20250101_000000_tiny.tar" := [] ]})
    = (w', Raise (TransferError
                    (Resume_download_failed
                       (TransferError Transfer_cancelled_by_user))))
    /\ local_fs w' !! "/backups/20250101_000000_tiny.tar"
       = Some ([] ++ Sample.ten_bytes)
    /\ length (List.filter (fun e => match e with
                                     | CallbackInvoked _ _ => true
                                     | _ => false
                                     end) (trace w'))
       = 1%nat.
Proof.
  apply (X11_resume_cancelled_at_first_chunk (C := Sample.steady)
           (TransferManager.init "/backups") "host1" Sample.tiny
           "/backups/20250101_000000_tiny.tar" (fun _ _ => true)
           (Sample.empty_world {[ "/backups/20250101_000000_tiny.tar" := [] ]})
           [] 10 "000"%byte (repeat "000"%byte 9) []).
  - vm_compute. reflexivity.
  - reflexivity.
  - unfold file_size. simpl. lia.
  - intros r. reflexivity.
  - intros r. reflexivity.
  - intros r. reflexivity.
  - reflexivity.
Defined.

(** ** Uploading *)

Lemma startswith_refl (s : string) : PyStr.startswith s s = true.
Proof. induction s as [|c s IH]; simpl; [reflexivity|]. now rewrite Ascii.eqb_refl. Qed.

Lemma startswith_trans (a b c : string) :
  PyStr.startswith a b = true -> PyStr.startswith b c = true ->
  PyStr.startswith a c = true.
Proof.
  revert a b; induction c as [|x c IH]; intros a b Hab Hbc; [now destruct a|].
  destruct b as [|y b]; [discriminate|]. simpl in Hbc.
  destruct (Ascii.eqb_spec x y) as [->|]; [|discriminate].
  destruct a as [|z a]; [discriminate|]. simpl in Hab |- *.
  destruct (Ascii.eqb_spec y z) as [->|]; [|discriminate].
  now apply (IH a b).
Qed.

Lemma startswith_length (a b : string) :
  PyStr.startswith a b = true -> (String.length b <= String.length a)%nat.
Proof.
  revert a; induction b as [|x b IH]; intros a H; simpl; [lia|].
  destruct a as [|y a]; [discriminate|]. simpl in H |- *.
  destruct (Ascii.eqb x y); [|discriminate]. apply IH in H. lia.
Qed.

Lemma rstrip_by_prefix (p : ascii -> bool) (s : string) :
  PyStr.startswith s (PyStr.rstrip_by p s) = true.
Proof.
  induction s as [|c s IH]; simpl; [reflexivity|].
  destruct (PyStr.rstrip_by p s) as [|c' r].
  - destruct (p c); simpl; [reflexivity | now rewrite Ascii.eqb_refl].
  - cbn [PyStr.startswith]. now rewrite Ascii.eqb_refl.
Qed.

Lemma upto_last_sep_prefix (s : string) :
  PyStr.startswith s (PyStr.upto_last_sep s) = true.
Proof.
  induction s as [|c s IH]; simpl; [reflexivity|].
  destruct (PyStr.upto_last_sep s) as [|c' r].
  - destruct (PyStr.is_sep c); simpl; [now rewrite Ascii.eqb_refl | reflexivity].
  - cbn [PyStr.startswith]. now rewrite Ascii.eqb_refl.
Qed.

(** The parent directory is a leading part of the path. *)
Lemma dirname_prefix (p : string) : PyStr.startswith p (PyStr.dirname p) = true.
Proof.
  unfold PyStr.dirname.
  pose proof (upto_last_sep_prefix p) as H.
  destruct (PyStr.upto_last_sep p) as [|c head]; [now destruct p|].
  destruct (PyStr.all_chars PyStr.is_sep (String c head)); [exact H|].
  eapply startswith_trans; [exact H | apply rstrip_by_prefix].
Qed.

Lemma mkdirs_app (a b : list event) : mkdirs (a ++ b) = mkdirs a ++ mkdirs b.
Proof.
  induction a as [|e a IH]; [reflexivity|].
  destruct e; simpl; rewrite ?IH; reflexivity.
Qed.

Section UploadFacts.
Context {R : Type} {C : Collaborators R}.

(** What [_ensure_remote_directory] does, whatever the server answers. *)
Lemma _ensure_remote_directory_spec (n : nat) :
  forall (d : string) (w w' : world R) (r : result unit),
    TransferManager._ensure_remote_directory n d w = (w', r) ->
    local_fs w' = local_fs w /\ tracker w' = tracker w
    /\ exists evs,
         trace w' = trace w ++ evs
         /\ Forall (on_the_way_to d) evs
         /\ StronglySorted proper_prefix (mkdirs evs).
Proof.
  induction n as [|n IH]; intros d w w' r.
  - cbn. unfold raise. intros [= <- <-]. repeat split.
    exists []. rewrite app_nil_r. repeat split; constructor.
  - cbn [TransferManager._ensure_remote_directory]. unfold try_except.
    unfold bind at 1. unfold emit at 1. unfold call at 1.
    cbn [local_fs remote tracker trace].
    assert (Hd : on_the_way_to d (SftpStat d)) by apply startswith_refl.
    destruct (sftp_stat d (remote w)) as [r1 [[]|e]].
    { intros [= <- <-]. repeat split. exists [SftpStat d].
      repeat split; [now constructor | constructor]. }
    destruct e; try (unfold raise; intros [= <- <-]; repeat split;
                     exists [SftpStat d]; repeat split;
                     [now constructor | constructor]).
    unfold bind at 1.
    destruct (negb (PyStr.dirname d =? "")%string && negb (PyStr.dirname d =? d)%string)
      eqn:Econd.
    + apply andb_true_iff in Econd as [_ Hne].
      apply negb_true_iff, String.eqb_neq in Hne.
      pose proof (dirname_shorter d Hne) as Hshort.
      pose proof (dirname_prefix d) as Hpre.
      match goal with
      | |- context [TransferManager._ensure_remote_directory n (PyStr.dirname d) ?w0] =>
          destruct (TransferManager._ensure_remote_directory n (PyStr.dirname d) w0)
            as [w1 r1'] eqn:E1
      end.
      apply IH in E1 as (Hfs1 & Htk1 & evs & Htr1 & Hev1 & Hsort1).
      cbn [local_fs tracker trace] in *.
      assert (Hev : Forall (on_the_way_to d) evs).
      { eapply Forall_impl; [exact Hev1|]. intros e He.
        destruct e; try contradiction; simpl in *;
          eapply startswith_trans; eassumption. }
      destruct r1' as [[]|e1].
      * unfold bind at 1. unfold emit at 1. unfold call at 1.
        cbn [local_fs remote tracker trace].
        destruct (sftp_mkdir d (remote w1)) as [r2 res]. intros [= <- <-].
        cbn [local_fs tracker trace]. split; [exact Hfs1|]. split; [exact Htk1|].
        exists (SftpStat d :: evs ++ [SftpMkdir d]).
        split; [rewrite Htr1, <- !app_assoc; reflexivity|].
        split.
        -- constructor; [exact Hd|]. apply Forall_app. split; [exact Hev|].
           constructor; [apply startswith_refl | constructor].
        -- cbn [mkdirs]. rewrite mkdirs_app. cbn [mkdirs].
           clear - Hsort1 Hev1 Hshort Hpre.
           induction evs as [|e evs IHe]; [repeat constructor|].
           apply Forall_cons in Hev1 as [He Hev1].
           destruct e; try contradiction; cbn [mkdirs app] in *;
             try (now apply IHe).
           apply StronglySorted_inv in Hsort1 as [Hs1 Hall].
           constructor; [now apply IHe|].
           apply Forall_app. split; [exact Hall|].
           constructor; [|constructor]. split.
           ++ eapply startswith_trans; eassumption.
           ++ apply startswith_length in He. lia.
      * intros [= <- <-]. split; [exact Hfs1|]. split; [exact Htk1|].
        exists (SftpStat d :: evs).
        split; [rewrite Htr1, <- !app_assoc; reflexivity|].
        split; [now constructor | exact Hsort1].
    + unfold ret at 1. unfold bind at 1. unfold emit at 1. unfold call at 1.
      cbn [local_fs remote tracker trace].
      destruct (sftp_mkdir d r1) as [r2 res]. intros [= <- <-].
      cbn [local_fs tracker trace]. repeat split.
      exists [SftpStat d; SftpMkdir d].
      split; [now rewrite <- app_assoc|].
      split.
      * constructor; [exact Hd|]. constructor; [apply startswith_refl | constructor].
      * cbn. repeat constructor.
Qed.

(** X12: [_ensure_remote_directory] only asks about, and only creates,
    [remote_dir] and paths [remote_dir] starts with; it creates them parents
    first, each created path a proper leading part of the ones created after
    it; and it touches neither the local disk nor the tracker. *)
Theorem X12_ensure_remote_directory_creates_parents_first
  (n : nat) (d : string) (w : world R) :
  local_fs (fst (TransferManager._ensure_remote_directory n d w)) = local_fs w
  /\ tracker (fst (TransferManager._ensure_remote_directory n d w)) = tracker w
  /\ exists evs,
       trace (fst (TransferManager._ensure_remote_directory n d w)) = trace w ++ evs
       /\ Forall (on_the_way_to d) evs
       /\ StronglySorted proper_prefix (mkdirs evs).
Proof.
  destruct (TransferManager._ensure_remote_directory n d w) as [w' r] eqn:E.
  now apply _ensure_remote_directory_spec in E.
Qed.

(** X13: the recursion of [_ensure_remote_directory] ends: each recursive call
    is on a strictly shorter path, so a depth above the length of the path is
    never used up, and any two such depths give the same result. *)
Theorem X13_ensure_remote_directory_terminates
  (n m : nat) (d : string) (w : world R) :
  (String.length d < n)%nat -> (String.length d < m)%nat ->
  TransferManager._ensure_remote_directory n d w
  = TransferManager._ensure_remote_directory m d w.
Proof.
  revert m d w. induction n as [|n IH]; intros m d w Hn Hm; [lia|].
  destruct m as [|m]; [lia|].
  cbn [TransferManager._ensure_remote_directory]. unfold try_except.
  destruct (bind (emit (SftpStat d)) (fun _ => call (sftp_stat d)) w) as [w1 [a|e]];
    [reflexivity|].
  destruct e; try reflexivity.
  destruct (negb (PyStr.dirname d =? "")%string && negb (PyStr.dirname d =? d)%string)
    eqn:Econd; [|reflexivity].
  apply andb_true_iff in Econd as [_ Hne].
  apply negb_true_iff, String.eqb_neq, dirname_shorter in Hne.
  unfold bind at 1. unfold bind at 3. rewrite (IH m) by lia. reflexivity.
Qed.

Lemma report_progress_run (counts : list Z) :
  forall w : world R,
  exists w',
    TransferManager.report_progress counts w = (w', Return tt)
    /\ local_fs w' = local_fs w
    /\ sessions (trace w') = sessions (trace w)
    /\ (forall t, tracker w = Some t ->
          exists t', tracker w' = Some t'
                     /\ TransferProgress.total_size t' = TransferProgress.total_size t).
Proof.
  induction counts as [|c rest IH]; intros w.
  - exists w. repeat split. eauto.
  - cbn [TransferManager.report_progress]. unfold bind at 1.
    rewrite with_progress_eq.
    destruct (tracker w) as [t|] eqn:Et.
    + pose proof (progress_callback_counter c t) as [_ Htot].
      pose proof (progress_callback_no_session c t) as Hs.
      match goal with
      | |- context [TransferManager.report_progress rest ?w0] =>
          destruct (IH w0) as (w' & E & Hfs & Hss & Htk)
      end.
      exists w'. split; [exact E|]. cbn [local_fs tracker trace] in *.
      split; [exact Hfs|]. split; [sessions_lia|].
      intros t0 [= <-]. destruct (Htk _ eq_refl) as (t' & Ht' & Htot').
      exists t'. split; [exact Ht' | congruence].
    + destruct (IH w) as (w' & E & Hfs & Hss & Htk).
      exists w'. split; [exact E|]. split; [exact Hfs|]. split; [exact Hss|].
      intros t0 Ht0. now apply Htk.
Qed.

Lemma upload_backup_spec (h lp rp : string) (cb : option observer)
  (w w' : world R) (r : result bool) :
  TransferManager.upload_backup h lp rp cb w = (w', r) ->
  local_fs w' = local_fs w
  /\ (sessions (trace w') <= S (sessions (trace w)))%nat
  /\ (r = Return true \/ exists m, r = Raise (TransferError m))
  /\ (forall content, local_fs w !! lp = Some content ->
        exists t, tracker w' = Some t
                  /\ TransferProgress.total_size t = file_size content).
Proof.
  unfold TransferManager.upload_backup. unfold bind at 1. unfold local_size at 1.
  destruct (local_fs w !! lp) as [content|] eqn:Efile;
    cbn [fmap option_fmap option_map].
  2:{ unfold raise. intros [= <- <-].
      repeat split; [lia | right; eauto | discriminate]. }
  unfold bind at 1. unfold ask at 1. cbn [remote local_fs tracker trace].
  destruct (time_time (remote w)) as [r1 now].
  unfold bind at 1. unfold new_progress at 1. cbn [remote local_fs tracker trace].
  unfold try_except.
  unfold bind at 1. unfold emit at 1. unfold bind at 1. unfold call at 1.
  cbn [remote local_fs tracker trace].
  assert (Hgoal : forall (w1 : world R) (res : result bool),
             local_fs w1 = local_fs w ->
             (sessions (trace w1) <= S (sessions (trace w)))%nat ->
             (exists t, tracker w1 = Some t
                        /\ TransferProgress.total_size t = file_size content) ->
             (res = Return true \/ exists e, res = Raise e) ->
             match res with
             | Return a => (w1, Return a)
             | Raise e => raise (TransferError (Upload_failed e)) w1
             end = (w', r) ->
             local_fs w' = local_fs w
             /\ (sessions (trace w') <= S (sessions (trace w)))%nat
             /\ (r = Return true \/ exists m, r = Raise (TransferError m))
             /\ (forall c, Some content = Some c ->
                   exists t, tracker w' = Some t
                             /\ TransferProgress.total_size t = file_size c)).
  { intros w1 res Hfs Hs Htk [->|(e & ->)]; unfold raise; intros [= <- <-];
      (split; [exact Hfs|]); (split; [exact Hs|]);
      (split; [eauto|]); intros c [= <-]; exact Htk. }
  destruct (get_sftp_client h r1) as [r2 [[]|e]].
  2:{ intros Hres. refine (Hgoal _ (Raise e) _ _ _ _ Hres);
        cbn [local_fs trace tracker]; eauto; sessions_lia. }
  unfold bind at 1.
  set (m := if negb (PyStr.dirname rp =? "")%string
            then TransferManager._ensure_remote_directory
                   (S (String.length (PyStr.dirname rp))) (PyStr.dirname rp)
            else ret tt).
  match goal with
  | |- context [m ?w0] =>
      assert (Hens : exists w1 res1,
                 m w0 = (w1, res1) /\ local_fs w1 = local_fs w
                 /\ sessions (trace w1) = S (sessions (trace w))
                 /\ tracker w1 = tracker w0)
  end.
  { subst m. destruct (negb (PyStr.dirname rp =? "")%string).
    - match goal with
      | |- context [TransferManager._ensure_remote_directory ?n ?d ?w0] =>
          destruct (TransferManager._ensure_remote_directory n d w0) as [w1 res1] eqn:E1
      end.
      pose proof (_ensure_remote_directory_spec _ _ _ _ _ E1)
        as (Hfs1 & Htk1 & evs & Htr1 & Hev1 & _).
      exists w1, res1. split; [reflexivity|]. cbn [local_fs tracker trace] in *.
      split; [exact Hfs1|]. split; [|exact Htk1].
      rewrite Htr1.
      assert (Hz : sessions evs = 0%nat).
      { clear - Hev1. induction Hev1 as [|e evs He _ IH]; [reflexivity|].
        destruct e; try contradiction; exact IH. }
      rewrite sessions_app, Hz. sessions_lia.
    - eexists _, _. split; [reflexivity|]. cbn [local_fs tracker trace].
      repeat split. sessions_lia. }
  destruct Hens as (w1 & res1 & E1 & Hfs1 & Hs1 & Htk1). rewrite E1.
  cbn [tracker] in Htk1.
  destruct res1 as [[]|e].
  2:{ intros Hres. refine (Hgoal _ (Raise e) _ _ _ _ Hres); eauto; lia. }
  unfold bind at 1. unfold emit at 1. unfold bind at 1.
  cbn [remote local_fs tracker trace].
  unfold bind at 1. unfold ask at 1. cbn [remote local_fs tracker trace].
  destruct (sftp_put (default [] (local_fs w1 !! lp)) rp (remote w1)) as [r3 out].
  unfold bind at 1.
  match goal with
  | |- context [TransferManager.report_progress ?cs ?w0] =>
      destruct (report_progress_run cs w0) as (w2 & E2 & Hfs2 & Hs2 & Htk2)
  end.
  rewrite E2. cbn [local_fs tracker trace] in *.
  destruct (Htk2 _ Htk1) as (t2 & Ht2 & Htot2).
  cbn [TransferProgress.init TransferProgress.total_size] in Htot2.
  destruct (put_error out) as [e|].
  - intros Hres. refine (Hgoal _ (Raise e) _ _ _ _ Hres); eauto;
      [congruence | sessions_lia].
  - unfold bind, emit, ret. cbn [local_fs tracker trace].
    intros Hres. refine (Hgoal _ (Return true) _ _ _ _ Hres);
      cbn [local_fs tracker trace]; eauto; [congruence | sessions_lia].
Qed.

(** X14: [upload_backup] never changes the local disk and asks for at most
    one SFTP client.  When the local file is there (a regular file that can be
    examined), what it returns is [True], what it raises is a
    [TransferError], and the tracker it creates has the size of that file as
    its total. *)
Theorem X14_upload_outcomes
  (h lp rp : string) (cb : option observer) (w : world R) :
  local_fs (fst (TransferManager.upload_backup h lp rp cb w)) = local_fs w
  /\ (sessions (trace (fst (TransferManager.upload_backup h lp rp cb w)))
      <= S (sessions (trace w)))%nat
  /\ (forall content, local_fs w !! lp = Some content ->
        (snd (TransferManager.upload_backup h lp rp cb w) = Return true
         \/ exists m, snd (TransferManager.upload_backup h lp rp cb w)
                      = Raise (TransferError m))
        /\ exists t,
             tracker (fst (TransferManager.upload_backup h lp rp cb w)) = Some t
             /\ TransferProgress.total_size t = file_size content).
Proof.
  destruct (TransferManager.upload_backup h lp rp cb w) as [w' r] eqn:E.
  apply upload_backup_spec in E as (Hfs & Hs & Hres & Htk). cbn [fst snd].
  split; [exact Hfs|]. split; [exact Hs|].
  intros content Hfile. split; [exact Hres | now apply (Htk content)].
Qed.

End UploadFacts.

Lemma X13_ensure_remote_directory_terminates_witness :
  TransferManager._ensure_remote_directory (C := Sample.flaky "10" []) 7
    "/srv/a" (Sample.empty_world ∅)
  = TransferManager._ensure_remote_directory (C := Sample.flaky "10" []) 20
      "/srv/a" (Sample.empty_world ∅).
Proof.
  apply (X13_ensure_remote_directory_terminates (C := Sample.flaky "10" []) 7 20
           "/srv/a" (Sample.empty_world ∅)); simpl; lia.
Defined.

(** ** Errors that leave the engine *)


(** When the operating system does not remove the partial file, the removal
    before a retry raises what it was told and leaves the file. *)
Lemma before_retry_refused {R : Type} {C : Collaborators R} (self : TransferManager.t)
  (lp : string) (w : world R) (content : list byte) (e : exception) :
  0 <= TransferManager.retry_delay self ->
  local_fs w !! lp = Some content ->
  snd (os_unlink lp (remote w)) = Raise e ->
  exists w',
    TransferManager.before_retry self lp w = (w', Raise e)
    /\ local_fs w' = local_fs w
    /\ sessions (trace w') = sessions (trace w).
Proof.
  intros Hdelay Hfile Hun.
  unfold TransferManager.before_retry, time_sleep.
  destruct (Z.ltb_spec (TransferManager.retry_delay self) 0) as [Hneg|_]; [lia|].
  unfold bind at 1. unfold emit at 1. unfold bind at 1. unfold local_size at 1.
  cbn [local_fs remote tracker trace]. rewrite Hfile.
  cbn [fmap option_fmap option_map].
  unfold os_remove, bind, call. cbn [local_fs remote tracker trace].
  destruct (os_unlink lp (remote w)) as [r1 res]. cbn [snd] in Hun. subst res.
  eexists. split; [reflexivity|]. cbn [local_fs trace].
  split; [reflexivity | sessions_lia].
Qed.

(** X25: a partial file that cannot be removed ends the download at once.
    When the first attempt fails, another attempt is due, and the operating
    system answers the removal of the partial file with an exception,
    [download_backup] raises that exception as it is, not a [TransferError]:
    one SFTP client was asked for, nothing is retried, and the partial file is
    still at the destination. *)
Theorem X25_failed_removal_ends_the_download_raw
  {R : Type} {C : Collaborators R} (self : TransferManager.t)
  (h : string) (info : BackupInfo.t) (name : option string) (cb : option observer)
  (w : world R) (rs : Z) (e : exception) :
  1 < TransferManager.max_retries self ->
  0 <= TransferManager.retry_delay self ->
  file_size <$> local_fs w !! TransferManager.local_target self info name
    <> Some (TransferManager.recorded_size info) ->
  snd (TransferManager._get_remote_file_size h (BackupInfo.filepath info) w)
    = Return (Some rs) ->
  (forall w0, exists w1 e1,
      TransferManager.download_attempt h (BackupInfo.filepath info)
        (TransferManager.local_target self info name) rs w0 = (w1, Raise e1)
      /\ is_Some (local_fs w1 !! TransferManager.local_target self info name)) ->
  (forall r, snd (os_unlink (TransferManager.local_target self info name) r)
             = Raise e) ->
  exists w',
    TransferManager.download_backup self h info name cb w = (w', Raise e)
    /\ sessions (trace w') = S (sessions (trace w))
    /\ is_Some (local_fs w' !! TransferManager.local_target self info name).
Proof.
  intros Hmax Hdelay Hsize Hrs Hfail Hun.
  unfold TransferManager.download_backup. unfold bind at 1. unfold local_size at 1.
  cbn beta iota.
  assert (Hne : match file_size <$> local_fs w !! TransferManager.local_target self info name with
                | Some local_size => local_size =? TransferManager.recorded_size info
                | None => false
                end = false).
  { destruct (local_fs w !! TransferManager.local_target self info name) as [c|];
      [|reflexivity]. cbn in *. apply Z.eqb_neq. congruence. }
  rewrite Hne. unfold bind at 1.
  destruct (_get_remote_file_size_run h (BackupInfo.filepath info) w) as (r' & o & E).
  rewrite E in Hrs |- *. cbn in Hrs. injection Hrs as ->.
  unfold bind at 1. unfold ask at 1. cbn [remote local_fs tracker trace].
  destruct (time_time r') as [r2 now].
  unfold bind at 1. unfold new_progress at 1. cbn [remote local_fs tracker trace].
  remember (Z.to_nat (TransferManager.max_retries self - 1)) as n eqn:Hn.
  replace (Z.to_nat (TransferManager.max_retries self)) with (S n) by lia.
  cbn [TransferManager.download_attempts]. unfold try_except.
  match goal with
  | |- context [TransferManager.download_attempt _ _ _ _ ?w0] =>
      destruct (Hfail w0) as (w1 & e1 & E1 & [partial Hpartial]); rewrite E1;
      pose proof (download_attempt_sessions _ _ _ _ _ _ _ E1) as Hs1
  end.
  destruct (Z.ltb_spec 0 (TransferManager.max_retries self - 1)); [|lia].
  unfold bind at 1.
  destruct (before_retry_refused self _ w1 partial e Hdelay Hpartial (Hun _))
    as (w' & -> & Hfs & Hs).
  exists w'. split; [reflexivity|]. split.
  - rewrite Hs, Hs1. sessions_lia.
  - rewrite Hfs. now exists partial.
Qed.

Lemma X25_failed_removal_ends_the_download_raw_witness :
  exists w',
    TransferManager.download_backup (C := Sample.locked "10" [])
      (TransferManager.init "/backups") "host1" Sample.db_2025 None None
      (Sample.empty_world ∅)
    = (w', Raise (OtherError "PermissionError: [Errno 13] Permission denied"))
    /\ sessions (trace w') = 1%nat
    /\ is_Some (local_fs w' !! "/backups/20250101_000000_database.sql.gz").
Proof.
  apply (X25_failed_removal_ends_the_download_raw (C := Sample.locked "10" [])
           (TransferManager.init "/backups") "host1" Sample.db_2025 None None
           (Sample.empty_world ∅) 10
           (OtherError "PermissionError: [Errno 13] Permission denied")).
  - simpl. lia.
  - simpl. lia.
  - vm_compute. discriminate.
  - reflexivity.
  - intros w0. eexists _, _. split; [reflexivity|].
    cbn [local_fs]. apply lookup_insert_is_Some. now left.
  - intros r. reflexivity.
Defined.

(** ** The primary file of a backup set *)

Lemma first_database_spec (files : list BackupInfo.t) :
  match BackupSet.first_database files with
  | Some name =>
      exists before f after,
        files = before ++ f :: after
        /\ has_database before = false
        /\ PyStr.contains (BackupInfo.filename f) "database" = true
        /\ name = BackupInfo.filename f
  | None => has_database files = false
  end.
Proof.
  induction files as [|f files IH]; simpl; [reflexivity|].
  destruct (PyStr.contains (BackupInfo.filename f) "database") eqn:Ef.
  - exists [], f, files. repeat split; assumption.
  - destruct (BackupSet.first_database files) as [name|].
    + destruct IH as (before & g & after & -> & Hb & Hg & ->).
      exists (f :: before), g, after. simpl. rewrite Ef. repeat split; assumption.
    + simpl. exact IH.
Qed.

Lemma primary_filename_member (s : BackupSet.t) :
  BackupSet.files s <> [] ->
  exists f, In f (BackupSet.files s)
            /\ BackupSet.primary_filename s = BackupInfo.filename f.
Proof.
  intros Hne. unfold BackupSet.primary_filename.
  pose proof (first_database_spec (BackupSet.files s)) as H.
  destruct (BackupSet.first_database (BackupSet.files s)) as [name|].
  - destruct H as (before & f & after & Hfiles & _ & _ & ->).
    exists f. split; [|reflexivity].
    rewrite Hfiles. apply in_or_app. right. now left.
  - destruct (BackupSet.files s) as [|f rest]; [congruence|].
    exists f. split; [now left | reflexivity].
Qed.

(** X16: the primary file name of a set that has files is the name of one of
    them: of the first file with 'database' in its name when there is one, of
    the first file otherwise; only a set without files gets the made-up name
    [{timestamp}-{site_name}]. *)
Theorem X16_primary_filename_is_a_member (s : BackupSet.t) :
  (has_database (BackupSet.files s) = true ->
   exists before f after,
     BackupSet.files s = before ++ f :: after
     /\ has_database before = false
     /\ PyStr.contains (BackupInfo.filename f) "database" = true
     /\ BackupSet.primary_filename s = BackupInfo.filename f)
  /\ (has_database (BackupSet.files s) = false ->
      forall f rest, BackupSet.files s = f :: rest ->
                     BackupSet.primary_filename s = BackupInfo.filename f)
  /\ (BackupSet.files s <> [] ->
      exists f, In f (BackupSet.files s)
                /\ BackupSet.primary_filename s = BackupInfo.filename f).
Proof.
  unfold BackupSet.primary_filename.
  pose proof (first_database_spec (BackupSet.files s)) as H.
  destruct (BackupSet.first_database (BackupSet.files s)) as [name|].
  - destruct H as (before & f & after & Hfiles & Hb & Hf & ->).
    split; [intros _; now exists before, f, after|].
    split.
    + intros Hno. exfalso. rewrite Hfiles in Hno. unfold has_database in Hno.
      rewrite existsb_app in Hno. simpl in Hno. rewrite Hf in Hno.
      now rewrite orb_true_r in Hno.
    + intros _. exists f. split; [|reflexivity].
      rewrite Hfiles. apply in_or_app. right. now left.
  - split; [intros Hyes; congruence|].
    split.
    + intros _ f rest ->. reflexivity.
    + intros Hne. destruct (BackupSet.files s) as [|f rest]; [congruence|].
      exists f. split; [now left | reflexivity].
Qed.

Lemma X16_primary_filename_is_a_member_witness :
  BackupSet.primary_filename
    (BackupSet.mk "20250101_000000" "s1" "mixed" 1010 4
       [Sample.tar_2025; Sample.db_2025])
  = BackupInfo.filename Sample.db_2025.
Proof.
  destruct (proj1 (X16_primary_filename_is_a_member
                     (BackupSet.mk "20250101_000000" "s1" "mixed" 1010 4
                        [Sample.tar_2025; Sample.db_2025])) eq_refl)
    as (before & f & after & Hfiles & Hb & Hf & ->).
  destruct before as [|b before]; simpl in Hfiles.
  - injection Hfiles as <- _. discriminate Hf.
  - injection Hfiles as <- Hrest.
    destruct before as [|b' before]; simpl in Hrest.
    + now injection Hrest as <- _.
    + injection Hrest as _ Hrest'. now destruct before.
Defined.

(** The sets [list_backup_sets] builds have files, all of the set's token. *)
Lemma listed_sets_have_files (site : string) (recs : list BackupInfo.t)
  (sets : list BackupSet.t) :
  BackupManager.list_backup_sets site recs = Some sets ->
  Forall (fun s => BackupSet.files s <> []
                   /\ Forall (token_is (BackupSet.timestamp s)) (BackupSet.files s)
                   /\ Forall (fun f => In f recs) (BackupSet.files s))
    sets.
Proof.
  unfold BackupManager.list_backup_sets.
  destruct (backup_sets_unsorted_total site recs) as (unsorted & Hun & HF2).
  rewrite Hun. intros [= <-].
  eapply Permutation_Forall;
    [symmetry; apply (py_sorted_reverse_perm BackupSet.created_at)|].
  destruct (group_by_timestamp_well_grouped recs) as [_ Hok].
  pose proof (group_by_timestamp_members recs) as Hmem.
  assert (Hin : Forall (fun kv => Forall (fun f => In f recs) (snd kv))
                  (group_by_timestamp recs)).
  { apply List.Forall_forall. intros kv Hkv. apply List.Forall_forall. intros f Hf.
    assert (Hc : In f (concat (map snd (group_by_timestamp recs)))).
    { apply in_concat. exists (snd kv). split; [now apply in_map | exact Hf]. }
    eapply Permutation_in in Hc; [|exact Hmem].
    now apply filter_In in Hc as [Hc _]. }
  clear Hun Hmem.
  induction HF2 as [|kv s g sets Hs _ IH]; [constructor|].
  apply Forall_cons in Hok as [[Hne Htok] Hok].
  apply Forall_cons in Hin as [Hin1 Hin].
  apply BackupManager_make_set_spec in Hs as (Ht & Hf & _).
  constructor; [rewrite Ht, Hf; now repeat split | now apply IH].
Qed.

(** X17: for every set [list_backup_sets] returns, the primary file name is
    the name of one of the records that were listed, a member of the set, and
    it starts with the timestamp of the set. *)
Theorem X17_primary_filename_of_listed_sets (site : string) (recs : list BackupInfo.t) :
  exists sets,
    BackupManager.list_backup_sets site recs = Some sets
    /\ Forall (fun s =>
                 exists f, In f (BackupSet.files s) /\ In f recs
                           /\ BackupSet.primary_filename s = BackupInfo.filename f
                           /\ timestamp_match (BackupSet.primary_filename s)
                              = Some (BackupSet.timestamp s))
         sets.
Proof.
  destruct (BackupManager.list_backup_sets site recs) as [sets|] eqn:E.
  2:{ unfold BackupManager.list_backup_sets in E.
      destruct (backup_sets_unsorted_total site recs) as (unsorted & Hun & _).
      rewrite Hun in E. discriminate. }
  exists sets. split; [reflexivity|].
  eapply Forall_impl; [apply (listed_sets_have_files _ _ _ E)|].
  intros s (Hne & Htok & Hin).
  destruct (primary_filename_member s Hne) as (f & Hf & Hp).
  exists f. rewrite List.Forall_forall in Htok, Hin.
  split; [exact Hf|]. split; [now apply Hin|]. split; [exact Hp|].
  rewrite Hp. now apply Htok.
Qed.

(** ** The remote listing ([core/backup_manager.py], [core/ssh_manager.py]) *)

Lemma only_ran_commands_refl {R : Type} (w : world R) : only_ran_commands w w.
Proof.
  split; [reflexivity|]. split; [reflexivity|].
  exists []. split; [now rewrite app_nil_r | constructor].
Qed.

Lemma only_ran_commands_trans {R : Type} (w1 w2 w3 : world R) :
  only_ran_commands w1 w2 -> only_ran_commands w2 w3 -> only_ran_commands w1 w3.
Proof.
  intros (Hf1 & Ht1 & evs1 & He1 & Hc1) (Hf2 & Ht2 & evs2 & He2 & Hc2).
  split; [congruence|]. split; [congruence|].
  exists (evs1 ++ evs2). split.
  - rewrite He2, He1. now rewrite <- app_assoc.
  - apply Forall_app. now split.
Qed.

Lemma only_ran_commands_step {R : Type} (w : world R) (r : R) (h c : string) :
  only_ran_commands w
    (World (local_fs w) r (tracker w) (trace w ++ [ExecuteCommand h c])).
Proof.
  split; [reflexivity|]. split; [reflexivity|].
  exists [ExecuteCommand h c]. split; [reflexivity|].
  constructor; [exact I | constructor].
Qed.

Lemma ran_commands_step {R : Type} (w : world R) (r : R) (h c : string) :
  ran_commands 1 w
    (World (local_fs w) r (tracker w) (trace w ++ [ExecuteCommand h c])).
Proof.
  split; [reflexivity|]. split; [reflexivity|].
  exists [ExecuteCommand h c]. split; [reflexivity|].
  split; [|reflexivity]. constructor; [exact I | constructor].
Qed.

Section RemoteListing.
Context {R : Type} {C : Collaborators R}.
Variable timestamp_in_range : Z -> bool.

(** One remote command followed by the rest of the method. *)
Lemma command_run {A : Type} (h c : string) (k : Z * string * string -> M (R := R) A)
  (w : world R) :
  (emit (ExecuteCommand h c) ;; r <- call (execute_command h c) ;; k r) w
  = let w1 := World (local_fs w) (fst (execute_command h c (remote w))) (tracker w)
                (trace w ++ [ExecuteCommand h c]) in
    match snd (execute_command h c (remote w)) with
    | Return r => k r w1
    | Raise e => (w1, Raise e)
    end.
Proof.
  unfold bind, emit, call. cbn [remote local_fs tracker trace].
  destruct (execute_command h c (remote w)) as [r [a|e]]; reflexivity.
Qed.

Lemma is_directory_run (h p : string) (w : world R) :
  exists w' b, SSHManager.is_directory h p w = (w', Return b)
               /\ only_ran_commands w w'.
Proof.
  unfold SSHManager.is_directory, try_except. cbv zeta.
  rewrite command_run. cbv zeta.
  destruct (snd (execute_command h _ (remote w))) as [[[ec out] err]|e];
    eexists; eexists; (split; [reflexivity | apply only_ran_commands_step]).
Qed.

Lemma file_exists_run (h p : string) (w : world R) :
  exists r b,
    SSHManager.file_exists h p w
    = (World (local_fs w) r (tracker w)
         (trace w ++ [ExecuteCommand h ("test -e " ++ dquote ++ p ++ dquote)]),
       Return b).
Proof.
  unfold SSHManager.file_exists, try_except. cbv zeta.
  rewrite command_run. cbv zeta.
  destruct (snd (execute_command h _ (remote w))) as [[[ec out] err]|e];
    eexists; eexists; reflexivity.
Qed.

Lemma get_backup_size_run (h p : string) (w : world R) :
  exists r o,
    BackupManagerIO.get_backup_size h p w
    = (World (local_fs w) r (tracker w)
         (trace w ++ [ExecuteCommand h
                        ("stat -c %s " ++ dquote ++ p ++ dquote
                         ++ " 2>/dev/null || stat -f %z " ++ dquote ++ p ++ dquote)]),
       Return o).
Proof.
  unfold BackupManagerIO.get_backup_size, try_except. cbv zeta.
  rewrite command_run. cbv zeta.
  destruct (snd (execute_command h _ (remote w))) as [[[ec out] err]|e];
    [destruct ((ec =? 0) && PyStr.isdigit (PyStr.strip out))|];
    eexists; eexists; reflexivity.
Qed.

Lemma exit_code_is_zero_run (h c : string) (w : world R) :
  exists r res,
    BackupManagerIO.exit_code_is_zero h c w
    = (World (local_fs w) r (tracker w) (trace w ++ [ExecuteCommand h c]), res).
Proof.
  unfold BackupManagerIO.exit_code_is_zero. rewrite command_run. cbv zeta.
  destruct (snd (execute_command h _ (remote w))) as [[[ec out] err]|e];
    eexists; eexists; reflexivity.
Qed.

Lemma backup_file_is_compressed (filename : string) :
  BackupManager._is_backup_file filename = true ->
  PyStr.endswith_any filename [".gz"; ".tar"; ".tgz"] = true.
Proof.
  unfold BackupManager._is_backup_file, PyStr.endswith_any, PyStr.endswith.
  cbn [existsb]. rewrite !orb_false_r, !orb_true_iff.
  intros [H|[H|[H|H]]].
  - left. eapply startswith_trans; [exact H | reflexivity].
  - right. now left.
  - left. eapply startswith_trans; [exact H | reflexivity].
  - right. now right.
Qed.

Lemma _parse_backup_info_run (h filepath filename site : string) (w : world R) :
  exists w' o,
    BackupManagerIO._parse_backup_info timestamp_in_range h filepath filename site w
    = (w', Return o)
    /\ only_ran_commands w w'
    /\ forall b, o = Some b ->
         BackupInfo.filename b = filename /\ BackupInfo.filepath b = filepath
         /\ BackupInfo.site_name b = site
         /\ BackupInfo.backup_type b = BackupManager._determine_backup_type filename
         /\ BackupInfo.compressed b
            = PyStr.endswith_any filename [".gz"; ".tar"; ".tgz"]
         /\ BackupInfo.md5_hash b = None.
Proof.
  unfold BackupManagerIO._parse_backup_info, try_except.
  rewrite command_run. cbv zeta.
  destruct (snd (execute_command h _ (remote w))) as [[[ec out] err]|e].
  2:{ eexists; eexists. split; [reflexivity|].
      split; [apply only_ran_commands_step | discriminate]. }
  destruct (negb (ec =? 0)).
  { eexists; eexists. split; [reflexivity|].
    split; [apply only_ran_commands_step | discriminate]. }
  destruct (PyStr.split_ws (PyStr.strip out)) as [|part0 [|part1 parts]].
  1,2: eexists; eexists; (split; [reflexivity|]);
       (split; [apply only_ran_commands_step | discriminate]).
  destruct (PyStr.parse_int part0) as [size_bytes|],
           (PyStr.parse_int part1) as [timestamp|].
  2,3,4: eexists; eexists; (split; [reflexivity|]);
         (split; [apply only_ran_commands_step | discriminate]).
  destruct (timestamp_in_range timestamp).
  - eexists; eexists. split; [reflexivity|].
    split; [apply only_ran_commands_step|].
    intros b [= <-]. cbn. repeat split; reflexivity.
  - eexists; eexists. split; [reflexivity|].
    split; [apply only_ran_commands_step | discriminate].
Qed.

Lemma scan_lines_run (h backup_path site : string) (lines : list string) :
  forall (backups : list BackupInfo.t) (w : world R),
    Forall (listed_ok backup_path site) backups ->
    exists w' l,
      BackupManagerIO.scan_lines timestamp_in_range h backup_path site lines backups w
      = (w', Return l)
      /\ only_ran_commands w w'
      /\ Forall (listed_ok backup_path site) l.
Proof.
  induction lines as [|line rest IH]; intros backups w Hok.
  - exists w, backups. split; [reflexivity|].
    split; [apply only_ran_commands_refl | exact Hok].
  - cbn [BackupManagerIO.scan_lines].
    destruct (String.eqb (PyStr.strip line) EmptyString || PyStr.startswith line "total");
      [now apply IH|].
    cbv zeta.
    destruct ((length (PyStr.split_ws line) <? 9)%nat
              || PyStr.startswith (hd EmptyString (PyStr.split_ws line)) "d");
      [now apply IH|].
    destruct (BackupManager._is_backup_file (List.last (PyStr.split_ws line) EmptyString))
      eqn:Hfile; cbn [negb]; [|now apply IH].
    unfold bind at 1.
    destruct (_parse_backup_info_run h
                (backup_path ++ "/" ++ List.last (PyStr.split_ws line) EmptyString)
                (List.last (PyStr.split_ws line) EmptyString) site w)
      as (w1 & o & -> & Hw1 & Ho).
    destruct o as [info|].
    + destruct (Ho info eq_refl) as (Hn & Hp & Hs & Ht & Hc & Hm).
      destruct (IH (backups ++ [info]) w1) as (w' & l & E & Hw' & Hl).
      { apply Forall_app. split; [exact Hok|]. constructor; [|constructor].
        unfold listed_ok. rewrite Hn, Hp, Hs, Ht, Hc, Hm.
        repeat split; try reflexivity; [exact Hfile|].
        now apply backup_file_is_compressed. }
      exists w', l. split; [exact E|].
      split; [eapply only_ran_commands_trans; eassumption | exact Hl].
    + destruct (IH backups w1 Hok) as (w' & l & E & Hw' & Hl).
      exists w', l. split; [exact E|].
      split; [eapply only_ran_commands_trans; eassumption | exact Hl].
Qed.


Lemma read_listing_spec (h backup_path site : string) (w w' : world R)
  (r : result (list BackupInfo.t)) :
  BackupManagerIO.read_listing timestamp_in_range h backup_path site w = (w', r) ->
  only_ran_commands w w'
  /\ match r with
     | Return l => Forall (listed_ok backup_path site) l
     | Raise e =>
         snd (execute_command h ("ls -la " ++ dquote ++ backup_path ++ dquote)
                (remote w)) = Raise e
     end.
Proof.
  unfold BackupManagerIO.read_listing. cbv zeta. rewrite command_run. cbv zeta.
  destruct (snd (execute_command h _ (remote w))) as [[[ec out] err]|e].
  2:{ intros [= <- <-]. split; [apply only_ran_commands_step | reflexivity]. }
  destruct (negb (ec =? 0)).
  { intros [= <- <-]. split; [apply only_ran_commands_step | constructor]. }
  match goal with
  | |- BackupManagerIO.scan_lines _ _ _ _ ?ls _ ?w1 = _ -> _ =>
      destruct (scan_lines_run h backup_path site ls [] w1) as (w2 & l & -> & Hw2 & Hl);
        [constructor|]
  end.
  intros [= <- <-]. split; [|exact Hl].
  eapply only_ran_commands_trans; [apply only_ran_commands_step | exact Hw2].
Qed.

Lemma list_backups_spec (h bench site : string) (w w' : world R)
  (o : BackupManagerIO.outcome (list BackupInfo.t)) :
  BackupManagerIO.list_backups timestamp_in_range h bench site w = (w', o) ->
  only_ran_commands w w'
  /\ match o with
     | BackupManagerIO.Done l =>
         StronglySorted (desc BackupInfo.created_at) l
         /\ Forall (listed_ok (BackupManagerIO.backup_path_of bench site) site) l
     | BackupManagerIO.Fail e =>
         exists e0,
           e = BackupManagerIO.BackupError
                 (BackupManagerIO.Failed_to_list_backups_for site e0)
     end.
Proof.
  unfold BackupManagerIO.list_backups. cbv zeta.
  destruct (is_directory_run h (BackupManagerIO.backup_path_of bench site) w)
    as (w1 & b & -> & Hw1).
  destruct b.
  2:{ intros [= <- <-]. split; [exact Hw1|]. split; constructor. }
  destruct (BackupManagerIO.read_listing timestamp_in_range h
              (BackupManagerIO.backup_path_of bench site) site w1)
    as [w2 [l|e]] eqn:E; apply read_listing_spec in E as [Hw2 Hr];
    intros [= <- <-];
    (split; [eapply only_ran_commands_trans; eassumption|]).
  - split; [apply py_sorted_reverse_sorted|].
    eapply Permutation_Forall; [symmetry; apply py_sorted_reverse_perm | exact Hr].
  - now exists e.
Qed.

(** The listing fails only when the [ls] command itself raised; when that
    command returns, whatever it printed and whatever the size queries of the
    files did, the listing is returned. *)
Lemma list_backups_failure (h bench site : string) (w : world R) :
  (forall e,
     snd (BackupManagerIO.list_backups timestamp_in_range h bench site w)
     = BackupManagerIO.Fail e ->
     exists e0,
       e = BackupManagerIO.BackupError
             (BackupManagerIO.Failed_to_list_backups_for site e0)
       /\ snd (execute_command h
                 (listing_command (BackupManagerIO.backup_path_of bench site))
                 (remote (fst (SSHManager.is_directory h
                                 (BackupManagerIO.backup_path_of bench site) w))))
          = Raise e0)
  /\ (forall out,
        snd (execute_command h
               (listing_command (BackupManagerIO.backup_path_of bench site))
               (remote (fst (SSHManager.is_directory h
                               (BackupManagerIO.backup_path_of bench site) w))))
        = Return out ->
        exists l,
          snd (BackupManagerIO.list_backups timestamp_in_range h bench site w)
          = BackupManagerIO.Done l).
Proof.
  unfold BackupManagerIO.list_backups, listing_command. cbv zeta.
  destruct (is_directory_run h (BackupManagerIO.backup_path_of bench site) w)
    as (w1 & b & -> & _). cbn [fst].
  destruct b.
  2:{ cbn [snd]. split; [discriminate | intros out _; now eexists]. }
  destruct (BackupManagerIO.read_listing timestamp_in_range h
              (BackupManagerIO.backup_path_of bench site) site w1)
    as [w2 [l|e]] eqn:E; apply read_listing_spec in E as [_ Hr]; cbn [snd].
  - split; [discriminate | intros out _; now eexists].
  - split.
    + intros e' [= <-]. now exists e.
    + intros out Hout. rewrite Hr in Hout. discriminate.
Qed.

(** X18 ([list_backups]): listing the backups of a site only runs remote
    commands (the local disk and the tracker are untouched).  It fails, with
    [BackupError('Failed to list backups for ...')], only when the [ls]
    command itself raised; when that command returns, the listing is
    returned: a line that does not parse and a size query that fails or
    raises are passed over.  The records returned are sorted newest first, and
    each names a file with a backup extension in the site's backup directory,
    carries the site's name, the type derived from its file name, no checksum,
    and is marked compressed. *)
Theorem X18_list_backups_returns_sorted_backup_files (h bench site : string)
  (w : world R) :
  only_ran_commands w
    (fst (BackupManagerIO.list_backups timestamp_in_range h bench site w))
  /\ match snd (BackupManagerIO.list_backups timestamp_in_range h bench site w) with
     | BackupManagerIO.Done l =>
         StronglySorted (desc BackupInfo.created_at) l
         /\ Forall (listed_ok (BackupManagerIO.backup_path_of bench site) site) l
     | BackupManagerIO.Fail e =>
         exists e0,
           e = BackupManagerIO.BackupError
                 (BackupManagerIO.Failed_to_list_backups_for site e0)
           /\ snd (execute_command h
                     (listing_command (BackupManagerIO.backup_path_of bench site))
                     (remote (fst (SSHManager.is_directory h
                                     (BackupManagerIO.backup_path_of bench site)
                                     w))))
              = Raise e0
     end
  /\ (forall out,
        snd (execute_command h
               (listing_command (BackupManagerIO.backup_path_of bench site))
               (remote (fst (SSHManager.is_directory h
                               (BackupManagerIO.backup_path_of bench site) w))))
        = Return out ->
        exists l,
          snd (BackupManagerIO.list_backups timestamp_in_range h bench site w)
          = BackupManagerIO.Done l).
Proof.
  destruct (list_backups_failure h bench site w) as [Hfail Hdone].
  destruct (BackupManagerIO.list_backups timestamp_in_range h bench site w)
    as [w' o] eqn:E.
  apply list_backups_spec in E as [Hw Ho]. cbn [fst snd] in *.
  split; [exact Hw|]. split; [|exact Hdone].
  destruct o as [l|e]; [exact Ho | now apply Hfail].
Qed.

Lemma string_app_assoc (a b c : string) : ((a ++ b) ++ c = a ++ (b ++ c))%string.
Proof.
  induction a as [|x a IH]; [reflexivity|].
  change (String x ((a ++ b) ++ c) = String x (a ++ (b ++ c)))%string.
  now rewrite IH.
Qed.

Lemma take_digits_app (n : nat) : forall s d r : string,
  PyStr.take_digits n s = Some (d, r) ->
  s = (d ++ r)%string /\ forall t, PyStr.take_digits n (d ++ t) = Some (d, t).
Proof.
  induction n as [|n IH]; intros s d r; simpl.
  - intros [= <- <-]. split; reflexivity.
  - destruct s as [|c s]; [discriminate|].
    destruct (PyStr.is_digit c) eqn:Hc; [|discriminate].
    destruct (PyStr.take_digits n s) as [[d' r']|] eqn:E; [|discriminate].
    intros [= <- <-]. apply IH in E as [-> Ht]. split; [reflexivity|].
    intros t. change (String c d' ++ t)%string with (String c (d' ++ t)).
    simpl. now rewrite Hc, Ht.
Qed.

(** The token is a prefix of the name, and every name with that prefix has
    the same token. *)
Lemma timestamp_match_inv (name ts : string) :
  timestamp_match name = Some ts ->
  exists d1 d2 r1 r2,
    PyStr.take_digits 8 name = Some (d1, String "_" r1)
    /\ PyStr.take_digits 6 r1 = Some (d2, r2)
    /\ ts = (d1 ++ String "_" d2)%string.
Proof.
  unfold timestamp_match.
  destruct (PyStr.take_digits 8 name) as [[d1 r1]|]; [|discriminate].
  destruct r1 as [|c r1]; [discriminate|].
  destruct c as [[] [] [] [] [] [] [] []]; try discriminate.
  destruct (PyStr.take_digits 6 r1) as [[d2 r2]|] eqn:E2; [|discriminate].
  intros [= <-]. exists d1, d2, r1, r2. split; [reflexivity|]. split; [exact E2 | reflexivity].
Qed.

Lemma startswith_app (a b : string) : PyStr.startswith (a ++ b) a = true.
Proof.
  induction a as [|x a IH]; [now destruct b|].
  change (PyStr.startswith (String x (a ++ b)) (String x a) = true).
  simpl. now rewrite Ascii.eqb_refl.
Qed.

(** The token is a prefix of the name, and every name with that prefix has
    the same token. *)
Lemma timestamp_match_prefix (name ts : string) :
  timestamp_match name = Some ts ->
  PyStr.startswith name ts = true
  /\ forall t, timestamp_match (ts ++ t) = Some ts.
Proof.
  intros H. apply timestamp_match_inv in H as (d1 & d2 & r1 & r2 & E1 & E2 & ->).
  apply take_digits_app in E1 as [-> H1]. apply take_digits_app in E2 as [-> H2].
  split.
  - change (String "_" (d2 ++ r2)) with (String "_" d2 ++ r2)%string.
    rewrite <- string_app_assoc. apply startswith_app.
  - intros t. unfold timestamp_match. rewrite string_app_assoc, H1.
    change (String "_" d2 ++ t)%string with (String "_" (d2 ++ t)).
    cbv beta match. now rewrite H2.
Qed.

Lemma startswith_app_inv (s p : string) :
  PyStr.startswith s p = true -> exists rest, s = (p ++ rest)%string.
Proof.
  revert s; induction p as [|a p IH]; intros s; simpl.
  - intros _. now exists s.
  - destruct s as [|b s]; simpl; [discriminate|].
    destruct (Ascii.eqb_spec a b) as [->|]; [|discriminate].
    intros H. apply IH in H as [rest ->]. now exists rest.
Qed.

Lemma same_token (name ts x other : string) :
  timestamp_match name = Some ts ->
  PyStr.startswith other (ts ++ x) = true ->
  timestamp_match other = Some ts.
Proof.
  intros Hts Hsw. apply timestamp_match_prefix in Hts as [_ Hall].
  apply startswith_app_inv in Hsw as [rest ->].
  rewrite string_app_assoc. apply Hall.
Qed.

Lemma StronglySorted_filter {A : Type} (rel : A -> A -> Prop) (f : A -> bool)
  (l : list A) :
  StronglySorted rel l -> StronglySorted rel (List.filter f l).
Proof.
  induction 1 as [|x l Hs IH Hx]; simpl; [constructor|].
  destruct (f x); [|exact IH]. constructor; [exact IH|].
  apply List.Forall_forall. intros y Hy. apply filter_In in Hy as [Hy _].
  rewrite List.Forall_forall in Hx. now apply Hx.
Qed.


(** X19 ([get_backup_set_files]): the related files of a record.  Only remote
    commands are run.  A record whose name has no timestamp token is returned
    alone, without any remote command.  A record whose name has a token but no
    [-] makes the method raise [IndexError] before anything is run, and that
    is the only way it raises [IndexError].  Otherwise
    the listing is read: the result is never empty, and it is either the
    record alone or records of the listing, newest first, whose names all carry
    the token of the given record, for the same site. *)
Theorem X19_backup_set_files_share_the_token (h : string) (info : BackupInfo.t)
  (w : world R) :
  only_ran_commands w
    (fst (BackupManagerIO.get_backup_set_files timestamp_in_range h info w))
  /\ match snd (BackupManagerIO.get_backup_set_files timestamp_in_range h info w) with
     | BackupManagerIO.Done l =>
         l <> []
         /\ (l = [info]
             \/ exists ts,
                  token_is ts info
                  /\ Forall (token_is ts) l
                  /\ StronglySorted (desc BackupInfo.created_at) l
                  /\ Forall (fun b =>
                               BackupInfo.site_name b = BackupInfo.site_name info
                               /\ BackupManager._is_backup_file (BackupInfo.filename b)
                                  = true) l)
     | BackupManagerIO.Fail BackupManagerIO.IndexError =>
         fst (BackupManagerIO.get_backup_set_files timestamp_in_range h info w) = w
         /\ has_token info = true
         /\ (length (PyStr.split "-" (BackupInfo.filename info)) < 2)%nat
     | BackupManagerIO.Fail BackupManagerIO.ValueError => False
     | BackupManagerIO.Fail (BackupManagerIO.BackupError _) => has_token info = true
     end
  /\ (has_token info = false ->
      BackupManagerIO.get_backup_set_files timestamp_in_range h info w
      = (w, BackupManagerIO.Done [info]))
  /\ (has_token info = true ->
      (length (PyStr.split "-" (BackupInfo.filename info)) < 2)%nat ->
      BackupManagerIO.get_backup_set_files timestamp_in_range h info w
      = (w, BackupManagerIO.Fail BackupManagerIO.IndexError)).
Proof.
  unfold BackupManagerIO.get_backup_set_files, has_token.
  destruct (timestamp_match (BackupInfo.filename info)) as [ts|] eqn:Hts.
  2:{ cbn [fst snd]. split; [apply only_ran_commands_refl|].
      split; [split; [discriminate | now left]|].
      split; [reflexivity | discriminate]. }
  split; [|split; [|split; [discriminate|]]].
  3:{ intros _.
      destruct (PyStr.split "-" (BackupInfo.filename info)) as [|x [|y rest]];
        cbn [length]; [reflexivity | reflexivity | lia]. }
  - destruct (PyStr.split "-" (BackupInfo.filename info)) as [|x [|site_prefix rest]];
      try apply only_ran_commands_refl.
    cbv zeta.
    match goal with
    | |- context [BackupManagerIO.list_backups ?t ?a ?b ?c ?d] =>
        destruct (BackupManagerIO.list_backups t a b c d) as [w1 [l|e]] eqn:E
    end; now apply list_backups_spec in E as [Hw _].
  - destruct (PyStr.split "-" (BackupInfo.filename info)) as [|x [|site_prefix rest]].
    1,2: cbn [fst snd length]; repeat split; lia.
    cbv zeta.
    match goal with
    | |- context [BackupManagerIO.list_backups ?t ?a ?b ?c ?d] =>
        destruct (BackupManagerIO.list_backups t a b c d) as [w1 [l|e]] eqn:E
    end; apply list_backups_spec in E as [_ Hl]; cbn [fst snd].
    2:{ destruct Hl as [e0 ->]. reflexivity. }
    destruct Hl as [Hsorted Hok].
    match goal with
    | |- context [List.filter ?f l] =>
        pose proof (StronglySorted_filter (desc BackupInfo.created_at) f l Hsorted)
          as Hs;
        assert (Hall : Forall (fun b => f b = true /\ In b l) (List.filter f l))
          by (apply List.Forall_forall; intros b Hb;
              apply filter_In in Hb as [Hb Hf]; now split);
        destruct (List.filter f l) as [|b0 related] eqn:Hrel
    end.
    { split; [discriminate | now left]. }
    split; [discriminate|]. right. exists ts.
    split; [exact Hts|]. split; [|split; [exact Hs|]].
    + eapply Forall_impl; [exact Hall|]. intros b [Hb _].
      unfold token_is. eapply same_token; [exact Hts | exact Hb].
    + eapply Forall_impl; [exact Hall|]. intros b [_ Hb].
      rewrite List.Forall_forall in Hok. destruct (Hok b Hb) as (Hf & _ & Hsite & _).
      now split.
Qed.


(** X20 ([list_backup_sets], the method): listing the backup sets of a site
    only runs remote commands and fails only where [list_backups] fails, with
    [BackupError]; in particular [max()] never meets an empty group.  The sets
    are sorted newest first; none is empty, and each holds records of the
    listing whose names start with the set's timestamp. *)
Theorem X20_list_backup_sets_of_a_site (h bench site : string) (w : world R) :
  only_ran_commands w
    (fst (BackupManagerIO.list_backup_sets timestamp_in_range h bench site w))
  /\ match snd (BackupManagerIO.list_backup_sets timestamp_in_range h bench site w) with
     | BackupManagerIO.Done sets =>
         StronglySorted (desc BackupSet.created_at) sets
         /\ Forall (fun s =>
                      BackupSet.files s <> []
                      /\ Forall (fun f =>
                                   token_is (BackupSet.timestamp s) f
                                   /\ listed_ok
                                        (BackupManagerIO.backup_path_of bench site)
                                        site f)
                           (BackupSet.files s)) sets
     | BackupManagerIO.Fail (BackupManagerIO.BackupError _) => True
     | BackupManagerIO.Fail _ => False
     end.
Proof.
  unfold BackupManagerIO.list_backup_sets.
  destruct (BackupManagerIO.list_backups timestamp_in_range h bench site w)
    as [w1 [l|e]] eqn:E; apply list_backups_spec in E as [Hw Hl].
  2:{ destruct Hl as [e0 ->]. now split. }
  destruct Hl as [_ Hok].
  destruct (BackupManager.list_backup_sets site l) as [sets|] eqn:Hsets.
  2:{ exfalso. unfold BackupManager.list_backup_sets in Hsets.
      destruct (backup_sets_unsorted_total site l) as (unsorted & Hun & _).
      rewrite Hun in Hsets. discriminate. }
  cbn [fst snd]. split; [exact Hw|]. split.
  - unfold BackupManager.list_backup_sets in Hsets.
    destruct (BackupManager.backup_sets_unsorted site l); [|discriminate].
    injection Hsets as <-. apply py_sorted_reverse_sorted.
  - eapply Forall_impl; [exact (listed_sets_have_files site l sets Hsets)|].
    intros s (Hne & Htok & Hin). split; [exact Hne|].
    rewrite List.Forall_forall in Htok, Hin, Hok |- *.
    intros f Hf. split; [now apply Htok | apply Hok; now apply Hin].
Qed.


(** X21 ([verify_backup_integrity]): the check never raises and touches
    neither the local disk nor the tracker.  What it runs is a leading part of
    its tests on the file of the record, in their order: the existence test
    [test -e], the size query [stat], and, for a record marked compressed,
    [gzip -t] when the name ends in [.gz] or [tar -tf] when it ends in [.tar]
    or [.tgz].  At least the existence test is run, and the answer is [True]
    only when all of them were run. *)
Theorem X21_verify_backup_integrity_runs_its_tests (h : string) (info : BackupInfo.t)
  (w : world R) :
  exists w' b n,
    BackupManagerIO.verify_backup_integrity h info w = (w', Return b)
    /\ local_fs w' = local_fs w
    /\ tracker w' = tracker w
    /\ trace w' = trace w ++ take n (integrity_commands h info)
    /\ (1 <= n <= length (integrity_commands h info))%nat
    /\ (b = true -> n = length (integrity_commands h info)).
Proof.
  unfold BackupManagerIO.verify_backup_integrity, try_except, integrity_commands.
  unfold bind at 1.
  destruct (file_exists_run h (BackupInfo.filepath info) w) as (r1 & found & ->).
  destruct found; cbn [negb].
  2:{ eexists; exists false, 1%nat. split; [reflexivity|]. cbn [local_fs tracker trace].
      split; [reflexivity|]. split; [reflexivity|]. split; [reflexivity|].
      split; [|discriminate]. rewrite length_app. cbn [length]. lia. }
  unfold bind at 1.
  match goal with
  | |- context [BackupManagerIO.get_backup_size h ?p ?w1] =>
      destruct (get_backup_size_run h p w1) as (r2 & size & ->)
  end.
  cbn [local_fs tracker trace].
  assert (Hno : forall tests : list event,
             exists w' b n,
               (World (local_fs w) r2 (tracker w)
                  ((trace w
                    ++ [ExecuteCommand h
                          ("test -e " ++ dquote ++ BackupInfo.filepath info ++ dquote)])
                   ++ [ExecuteCommand h
                         ("stat -c %s " ++ dquote ++ BackupInfo.filepath info ++ dquote
                          ++ " 2>/dev/null || stat -f %z " ++ dquote
                          ++ BackupInfo.filepath info ++ dquote)]),
                Return false) = (w', Return b)
               /\ local_fs w' = local_fs w
               /\ tracker w' = tracker w
               /\ trace w'
                  = trace w
                    ++ take n
                         ([ExecuteCommand h
                             ("test -e " ++ dquote ++ BackupInfo.filepath info
                              ++ dquote);
                           ExecuteCommand h
                             ("stat -c %s " ++ dquote ++ BackupInfo.filepath info
                              ++ dquote ++ " 2>/dev/null || stat -f %z " ++ dquote
                              ++ BackupInfo.filepath info ++ dquote)] ++ tests)
               /\ (1 <= n
                   <= length
                        ([ExecuteCommand h
                            ("test -e " ++ dquote ++ BackupInfo.filepath info
                             ++ dquote);
                          ExecuteCommand h
                            ("stat -c %s " ++ dquote ++ BackupInfo.filepath info
                             ++ dquote ++ " 2>/dev/null || stat -f %z " ++ dquote
                             ++ BackupInfo.filepath info ++ dquote)] ++ tests))%nat
               /\ (b = true ->
                   n = length
                         ([ExecuteCommand h
                             ("test -e " ++ dquote ++ BackupInfo.filepath info
                              ++ dquote);
                           ExecuteCommand h
                             ("stat -c %s " ++ dquote ++ BackupInfo.filepath info
                              ++ dquote ++ " 2>/dev/null || stat -f %z " ++ dquote
                              ++ BackupInfo.filepath info ++ dquote)] ++ tests))).
  { intros tests. eexists; exists false, 2%nat. split; [reflexivity|].
    cbn [local_fs tracker trace app take length].
    split; [reflexivity|]. split; [reflexivity|].
    split; [now rewrite <- app_assoc|]. split; [lia | discriminate]. }
  assert (Hyes : exists w' b n,
             (World (local_fs w) r2 (tracker w)
                ((trace w
                  ++ [ExecuteCommand h
                        ("test -e " ++ dquote ++ BackupInfo.filepath info ++ dquote)])
                 ++ [ExecuteCommand h
                       ("stat -c %s " ++ dquote ++ BackupInfo.filepath info ++ dquote
                        ++ " 2>/dev/null || stat -f %z " ++ dquote
                        ++ BackupInfo.filepath info ++ dquote)]),
              Return true) = (w', Return b)
             /\ local_fs w' = local_fs w
             /\ tracker w' = tracker w
             /\ trace w'
                = trace w
                  ++ take n
                       ([ExecuteCommand h
                           ("test -e " ++ dquote ++ BackupInfo.filepath info
                            ++ dquote);
                         ExecuteCommand h
                           ("stat -c %s " ++ dquote ++ BackupInfo.filepath info
                            ++ dquote ++ " 2>/dev/null || stat -f %z " ++ dquote
                            ++ BackupInfo.filepath info ++ dquote)] ++ [])
             /\ (1 <= n
                 <= length
                      ([ExecuteCommand h
                          ("test -e " ++ dquote ++ BackupInfo.filepath info
                           ++ dquote);
                        ExecuteCommand h
                          ("stat -c %s " ++ dquote ++ BackupInfo.filepath info
                           ++ dquote ++ " 2>/dev/null || stat -f %z " ++ dquote
                           ++ BackupInfo.filepath info ++ dquote)] ++ []))%nat
             /\ (b = true ->
                 n = length
                       ([ExecuteCommand h
                           ("test -e " ++ dquote ++ BackupInfo.filepath info
                            ++ dquote);
                         ExecuteCommand h
                           ("stat -c %s " ++ dquote ++ BackupInfo.filepath info
                            ++ dquote ++ " 2>/dev/null || stat -f %z " ++ dquote
                            ++ BackupInfo.filepath info ++ dquote)] ++ []))).
  { eexists; exists true, 2%nat. split; [reflexivity|].
    cbn [local_fs tracker trace app take length].
    split; [reflexivity|]. split; [reflexivity|].
    split; [now rewrite <- app_assoc|]. split; [lia | reflexivity]. }
  assert (Htest : forall c,
             exists w' b n,
               match BackupManagerIO.exit_code_is_zero h c
                       (World (local_fs w) r2 (tracker w)
                          ((trace w
                            ++ [ExecuteCommand h
                                  ("test -e " ++ dquote ++ BackupInfo.filepath info
                                   ++ dquote)])
                           ++ [ExecuteCommand h
                                 ("stat -c %s " ++ dquote ++ BackupInfo.filepath info
                                  ++ dquote ++ " 2>/dev/null || stat -f %z " ++ dquote
                                  ++ BackupInfo.filepath info ++ dquote)]))
               with
               | (w0, Return a) => (w0, Return a)
               | (w0, Raise _) => ret false w0
               end = (w', Return b)
               /\ local_fs w' = local_fs w
               /\ tracker w' = tracker w
               /\ trace w'
                  = trace w
                    ++ take n
                         ([ExecuteCommand h
                             ("test -e " ++ dquote ++ BackupInfo.filepath info
                              ++ dquote);
                           ExecuteCommand h
                             ("stat -c %s " ++ dquote ++ BackupInfo.filepath info
                              ++ dquote ++ " 2>/dev/null || stat -f %z " ++ dquote
                              ++ BackupInfo.filepath info ++ dquote)]
                          ++ [ExecuteCommand h c])
               /\ (1 <= n
                   <= length
                        ([ExecuteCommand h
                            ("test -e " ++ dquote ++ BackupInfo.filepath info
                             ++ dquote);
                          ExecuteCommand h
                            ("stat -c %s " ++ dquote ++ BackupInfo.filepath info
                             ++ dquote ++ " 2>/dev/null || stat -f %z " ++ dquote
                             ++ BackupInfo.filepath info ++ dquote)]
                         ++ [ExecuteCommand h c]))%nat
               /\ (b = true ->
                   n = length
                         ([ExecuteCommand h
                             ("test -e " ++ dquote ++ BackupInfo.filepath info
                              ++ dquote);
                           ExecuteCommand h
                             ("stat -c %s " ++ dquote ++ BackupInfo.filepath info
                              ++ dquote ++ " 2>/dev/null || stat -f %z " ++ dquote
                              ++ BackupInfo.filepath info ++ dquote)]
                          ++ [ExecuteCommand h c]))).
  { intros c.
    match goal with
    | |- context [BackupManagerIO.exit_code_is_zero h c ?w2] =>
        destruct (exit_code_is_zero_run h c w2) as (r3 & res & ->)
    end.
    cbn [local_fs tracker trace].
    destruct res as [a|e]; unfold ret;
      eexists; eexists; exists 3%nat; (split; [reflexivity|]);
      cbn [local_fs tracker trace app take length];
      (split; [reflexivity|]); (split; [reflexivity|]);
      (split; [now rewrite <- !app_assoc|]); (split; [lia | reflexivity]). }
  destruct size as [[|p|p]|]; try apply Hno.
  - destruct (BackupInfo.compressed info); [|exact Hyes].
    destruct (PyStr.endswith (BackupInfo.filename info) ".gz"); [apply Htest|].
    destruct (PyStr.endswith_any (BackupInfo.filename info) [".tar"; ".tgz"]);
      [apply Htest | exact Hyes].
  - destruct (BackupInfo.compressed info); [|exact Hyes].
    destruct (PyStr.endswith (BackupInfo.filename info) ".gz"); [apply Htest|].
    destruct (PyStr.endswith_any (BackupInfo.filename info) [".tar"; ".tgz"]);
      [apply Htest | exact Hyes].
Qed.

End RemoteListing.

(** ** Housekeeping of the local storage ([cleanup_local_backups]) *)

Lemma StronglySorted_app_cross {A : Type} (rel : A -> A -> Prop) (l1 l2 : list A) :
  StronglySorted rel (l1 ++ l2) ->
  forall a b, In a l1 -> In b l2 -> rel a b.
Proof.
  induction l1 as [|x l1 IH]; intros Hs a b Ha Hb; [destruct Ha|].
  apply StronglySorted_inv in Hs as [Hs Hx].
  destruct Ha as [<-|Ha]; [|now apply (IH Hs a b)].
  rewrite List.Forall_forall in Hx. apply Hx. apply in_or_app. now right.
Qed.

Section Housekeeping.
Context {R : Type} {C : Collaborators R}.

(** One removal of the cleanup never raises; it leaves the tracker and every
    other path alone; the path itself is gone afterwards, unless the operating
    system refused, and then the local disk is as it was. *)
Lemma unlink_or_report_run (p : string) (w : world R) :
  exists w',
    TransferManager.unlink_or_report p w = (w', Return tt)
    /\ tracker w' = tracker w
    /\ (forall q, q <> p -> local_fs w' !! q = local_fs w !! q)
    /\ (local_fs w' !! p = None
        \/ local_fs w' = local_fs w
           /\ exists e, snd (os_unlink p (remote w)) = Raise e).
Proof.
  unfold TransferManager.unlink_or_report, try_except.
  unfold bind at 1. unfold local_size at 1.
  destruct (local_fs w !! p) as [content|] eqn:Efile;
    cbn [fmap option_fmap option_map].
  - unfold os_remove, bind, call, local_unlink. cbn [local_fs remote tracker trace].
    destruct (os_unlink p (remote w)) as [r1 [[]|e]];
      eexists; (split; [reflexivity|]); cbn [local_fs tracker snd].
    + split; [reflexivity|]. split; [intros q Hq; now apply lookup_delete_ne|].
      left. apply lookup_delete_eq.
    + split; [reflexivity|]. split; [reflexivity|]. right. split; [reflexivity|].
      now exists e.
  - exists w. split; [reflexivity|]. split; [reflexivity|].
    split; [reflexivity|]. now left.
Qed.

Lemma remove_backups_run (entries : list (string * TransferManager.local_backup)) :
  forall w : world R,
  exists w',
    TransferManager.remove_backups entries w = (w', Return tt)
    /\ tracker w' = tracker w
    /\ (forall p, (forall b, In b entries -> TransferManager.path (snd b) <> p) ->
          local_fs w' !! p = local_fs w !! p)
    /\ (forall p, local_fs w' !! p = None \/ local_fs w' !! p = local_fs w !! p)
    /\ ((forall p r, snd (os_unlink p r) = Return tt) ->
        forall b, In b entries -> local_fs w' !! TransferManager.path (snd b) = None).
Proof.
  induction entries as [|[filename info] rest IH]; intros w.
  - exists w. split; [reflexivity|]. split; [reflexivity|].
    split; [reflexivity|]. split; [now right|]. intros _ b [].
  - cbn [TransferManager.remove_backups]. unfold bind at 1.
    destruct (unlink_or_report_run (TransferManager.path info) w)
      as (w1 & -> & Ht1 & Hfr1 & Hp1).
    destruct (IH w1) as (w' & -> & Ht & Hfr & Hall & Hgone).
    exists w'. split; [reflexivity|]. split; [congruence|]. split; [|split].
    + intros p Hp. rewrite Hfr.
      * apply Hfr1. intros Heq. apply (Hp (filename, info)); [now left | now symmetry].
      * intros b Hb. apply Hp. now right.
    + intros p. destruct (Hall p) as [Hn|Heq]; [now left|]. rewrite Heq.
      destruct (String.eqb_spec p (TransferManager.path info)) as [Hp|Hne].
      * subst p. destruct Hp1 as [Hn|[Hsame _]]; [now left | right; now rewrite Hsame].
      * right. now apply Hfr1.
    + intros Hunlink b [<-|Hb]; [|now apply Hgone].
      cbn [snd]. destruct (Hall (TransferManager.path info)) as [Hn|Heq];
        [exact Hn|]. rewrite Heq.
      destruct Hp1 as [Hn|[_ [e He]]]; [exact Hn|].
      rewrite Hunlink in He. discriminate.
Qed.

(** X22 ([cleanup_local_backups]): with [keep_latest >= 0] the cleanup never
    raises.  It picks exactly [max(0, len - keep_latest)] of the local backups
    for removal, none of them newer than one it keeps.  Afterwards every path
    it did not pick is as before, and every file on the local disk is either
    gone or as before; a picked file the operating system does not let go
    stays.  If no removal is refused, none of the picked paths exists any
    more. *)
Theorem X22_cleanup_removes_only_the_oldest
  (backups : list (string * TransferManager.local_backup)) (keep_latest : Z)
  (w : world R) :
  0 <= keep_latest ->
  exists w' kept picked,
    TransferManager.cleanup_local_backups backups keep_latest w = (w', Return tt)
    /\ Permutation (kept ++ picked) backups
    /\ length picked = Z.to_nat (Z.of_nat (length backups) - keep_latest)
    /\ (forall a b, In a kept -> In b picked ->
          TransferManager.modified (snd b) <= TransferManager.modified (snd a))
    /\ (forall p, (forall b, In b picked -> TransferManager.path (snd b) <> p) ->
          local_fs w' !! p = local_fs w !! p)
    /\ (forall p, local_fs w' !! p = None \/ local_fs w' !! p = local_fs w !! p)
    /\ ((forall p r, snd (os_unlink p r) = Return tt) ->
        forall b, In b picked -> local_fs w' !! TransferManager.path (snd b) = None)
    /\ tracker w' = tracker w.
Proof.
  intros Hkeep.
  set (key := fun x : string * TransferManager.local_backup =>
                TransferManager.modified (snd x)).
  set (sorted_backups := py_sorted_reverse key backups).
  pose proof (py_sorted_reverse_perm key backups) as Hperm.
  pose proof (py_sorted_reverse_sorted key backups) as Hsorted.
  fold sorted_backups in Hperm, Hsorted.
  set (picked := drop (Z.to_nat keep_latest) sorted_backups).
  assert (Hrun : TransferManager.cleanup_local_backups backups keep_latest w
                 = TransferManager.remove_backups picked w).
  { unfold TransferManager.cleanup_local_backups.
    destruct (Z.leb_spec (Z.of_nat (length backups)) keep_latest) as [Hle|Hgt].
    - unfold picked. rewrite drop_ge; [reflexivity|].
      rewrite (Permutation_length Hperm). lia.
    - cbv zeta. fold key. fold sorted_backups. unfold py_slice_from.
      destruct (Z.leb_spec 0 keep_latest); [reflexivity | lia]. }
  destruct (remove_backups_run picked w) as (w' & Hw' & Ht & Hfr & Hall & Hgone).
  exists w', (take (Z.to_nat keep_latest) sorted_backups), picked.
  split; [now rewrite Hrun|].
  split; [unfold picked; now rewrite take_drop|].
  split.
  { unfold picked. rewrite length_drop, (Permutation_length Hperm). lia. }
  split.
  { intros a b Ha Hb.
    refine (StronglySorted_app_cross (desc key) _ _ _ a b Ha Hb).
    unfold picked. now rewrite take_drop. }
  split; [exact Hfr|]. split; [exact Hall|]. split; [exact Hgone | exact Ht].
Qed.

End Housekeeping.

Lemma X22_cleanup_removes_only_the_oldest_witness :
  0 <= 1
  /\ exists w' kept picked,
       TransferManager.cleanup_local_backups (C := Sample.steady)
         [("a.tar", TransferManager.mk_local "/backups/a.tar" 1 100 "x");
          ("b.tar", TransferManager.mk_local "/backups/b.tar" 1 300 "y");
          ("c.tar", TransferManager.mk_local "/backups/c.tar" 1 200 "z")] 1
         (Sample.empty_world {[ "/backups/a.tar" := []; "/backups/b.tar" := [];
                                "/backups/c.tar" := [] ]})
       = (w', Return tt)
       /\ Permutation (kept ++ picked)
            [("a.tar", TransferManager.mk_local "/backups/a.tar" 1 100 "x");
             ("b.tar", TransferManager.mk_local "/backups/b.tar" 1 300 "y");
             ("c.tar", TransferManager.mk_local "/backups/c.tar" 1 200 "z")]
       /\ length picked = Z.to_nat (Z.of_nat 3 - 1)
       /\ (forall b, In b picked ->
             local_fs w' !! TransferManager.path (snd b) = None).
Proof.
  split; [lia|].
  destruct (X22_cleanup_removes_only_the_oldest (C := Sample.steady)
              [("a.tar", TransferManager.mk_local "/backups/a.tar" 1 100 "x");
               ("b.tar", TransferManager.mk_local "/backups/b.tar" 1 300 "y");
               ("c.tar", TransferManager.mk_local "/backups/c.tar" 1 200 "z")] 1
              (Sample.empty_world {[ "/backups/a.tar" := []; "/backups/b.tar" := [];
                                     "/backups/c.tar" := [] ]}))
    as (w' & kept & picked & E & Hperm & Hlen & _ & _ & _ & Hgone & _).
  - lia.
  - exists w', kept, picked. split; [exact E|]. split; [exact Hperm|].
    split; [exact Hlen|]. apply Hgone. intros p r. reflexivity.
Defined.

(** ** Checksums ([calculate_file_hash], [compare_checksums]) *)

Lemma file_read_split (n : Z) (rest : list byte) :
  TransferManager.file_read n rest
  ++ drop (length (TransferManager.file_read n rest)) rest = rest.
Proof.
  unfold TransferManager.file_read. destruct (n <? 0).
  - rewrite drop_all. apply app_nil_r.
  - rewrite length_take. destruct (Nat.min_spec (Z.to_nat n) (length rest)) as [[_ ->]|[Hle ->]].
    + apply take_drop.
    + rewrite drop_all, take_ge by lia. apply app_nil_r.
Qed.

Lemma file_read_nil (n : Z) (rest : list byte) :
  n <> 0 -> TransferManager.file_read n rest = [] -> rest = [].
Proof.
  unfold TransferManager.file_read. intros Hn. destruct (Z.ltb_spec n 0); [easy|].
  destruct rest as [|b rest]; [reflexivity|].
  destruct (Z.to_nat n) eqn:E; [lia | discriminate].
Qed.

Section Checksums.
Context {R : Type} {C : Collaborators R}.
Variable lib : TransferManager.hashlib.

Lemma hash_chunks_whole (n : Z) :
  (forall s, TransferManager.hash_update lib s [] = s) ->
  (forall s a b,
     TransferManager.hash_update lib (TransferManager.hash_update lib s a) b
     = TransferManager.hash_update lib s (a ++ b)) ->
  n <> 0 ->
  forall (rounds : nat) (s : TransferManager.hash_state lib) (rest : list byte),
    (length rest < rounds)%nat ->
    TransferManager.hash_chunks lib n rounds s rest
    = TransferManager.hash_update lib s rest.
Proof.
  intros Hnil Happ Hn.
  induction rounds as [|rounds IH]; intros s rest Hlen; [lia|].
  cbn [TransferManager.hash_chunks].
  pose proof (file_read_split n rest) as Hsplit.
  destruct (TransferManager.file_read n rest) as [|c chunk] eqn:E.
  - apply file_read_nil in E; [|exact Hn]. subst rest. now rewrite Hnil.
  - rewrite IH.
    + rewrite Happ. now rewrite Hsplit.
    + apply (f_equal length) in Hsplit. rewrite length_app in Hsplit.
      cbn [length] in Hsplit |- *. lia.
Qed.

(** X23 ([calculate_file_hash]): for a hash whose [update] is streaming
    (feeding two pieces one after the other is feeding their concatenation)
    and a chunk size other than zero, the digest returned is the digest of the
    whole content of the file, whatever the chunk size; the world is left as
    it was. *)
Theorem X23_file_hash_does_not_depend_on_the_chunk_size (self : TransferManager.t)
  (file_path algorithm : string) (w : world R) (content : list byte)
  (st : TransferManager.hash_state lib) :
  (forall s, TransferManager.hash_update lib s [] = s) ->
  (forall s a b,
     TransferManager.hash_update lib (TransferManager.hash_update lib s a) b
     = TransferManager.hash_update lib s (a ++ b)) ->
  TransferManager.chunk_size self <> 0 ->
  TransferManager.hash_new lib algorithm = Return st ->
  local_fs w !! file_path = Some content ->
  TransferManager.calculate_file_hash lib self file_path algorithm w
  = (w, Return (TransferManager.hexdigest lib
                  (TransferManager.hash_update lib st content))).
Proof.
  intros Hnil Happ Hn Hnew Hfile.
  unfold TransferManager.calculate_file_hash. rewrite Hnew, Hfile.
  rewrite hash_chunks_whole by (assumption || lia). reflexivity.
Qed.

Lemma calculate_file_hash_frame (self : TransferManager.t)
  (file_path algorithm : string) (w : world R) :
  fst (TransferManager.calculate_file_hash lib self file_path algorithm w) = w
  /\ (local_fs w !! file_path = None ->
      forall x, snd (TransferManager.calculate_file_hash lib self file_path algorithm w)
                <> Return x).
Proof.
  unfold TransferManager.calculate_file_hash.
  destruct (TransferManager.hash_new lib algorithm) as [st|e];
    [|split; [reflexivity | discriminate]].
  destruct (local_fs w !! file_path); split; try reflexivity; discriminate.
Qed.

(** X24 ([compare_checksums]): the comparison never raises and runs at most
    one remote command.  When the local file does not exist the answer is
    [False] and nothing is run.  The answer is [True] only when the remote
    command ended with exit code 0 and the first word of its output is the
    digest of the local file. *)
Theorem X24_compare_checksums_answer (self : TransferManager.t)
  (hostname local_path remote_path : string) (w : world R) :
  exists w' b n,
    TransferManager.compare_checksums lib self hostname local_path remote_path w
    = (w', Return b)
    /\ ran_commands n w w' /\ (n <= 1)%nat
    /\ (local_fs w !! local_path = None -> b = false /\ n = 0%nat)
    /\ (b = true ->
        exists out err rest,
          snd (execute_command hostname (TransferManager.md5_command remote_path)
                 (remote w)) = Return (0, out, err)
          /\ TransferManager.calculate_file_hash lib self local_path "md5" w
             = (w, Return (hd EmptyString (PyStr.split_ws (PyStr.strip out))))
          /\ PyStr.split_ws (PyStr.strip out)
             = hd EmptyString (PyStr.split_ws (PyStr.strip out)) :: rest).
Proof.
  unfold TransferManager.compare_checksums, try_except. unfold bind at 1.
  destruct (calculate_file_hash_frame self local_path "md5" w) as [Hw Hmiss].
  destruct (TransferManager.calculate_file_hash lib self local_path "md5" w)
    as [w0 [local_checksum|e]] eqn:Ehash; cbn [fst snd] in Hw, Hmiss; subst w0.
  2:{ exists w, false, 0%nat. split; [reflexivity|].
      split; [|repeat split; (lia || discriminate)].
      split; [reflexivity|]. split; [reflexivity|]. exists [].
      split; [now rewrite app_nil_r|]. split; [constructor | reflexivity]. }
  assert (Hfile : local_fs w !! local_path = None -> False).
  { intros H. now apply (Hmiss H local_checksum). }
  rewrite command_run. cbv zeta.
  destruct (snd (execute_command hostname (TransferManager.md5_command remote_path)
                   (remote w))) as [[[ec out] err]|e] eqn:Ecmd.
  2:{ eexists; exists false, 1%nat. split; [reflexivity|].
      split; [apply ran_commands_step|].
      split; [lia|]. split; [intros H; now elim Hfile | discriminate]. }
  destruct (Z.eqb_spec ec 0) as [->|Hec].
  2:{ eexists; exists false, 1%nat. split; [reflexivity|].
      split; [apply ran_commands_step|].
      split; [lia|]. split; [intros H; now elim Hfile | discriminate]. }
  destruct (PyStr.split_ws (PyStr.strip out)) as [|remote_checksum rest] eqn:Esplit.
  { eexists; exists false, 1%nat. split; [reflexivity|].
    split; [apply ran_commands_step|].
    split; [lia|]. split; [intros H; now elim Hfile | discriminate]. }
  eexists; exists (String.eqb local_checksum remote_checksum), 1%nat.
  split; [reflexivity|]. split; [apply ran_commands_step|].
  split; [lia|]. split; [intros H; now elim Hfile|].
  intros Heq. apply String.eqb_eq in Heq. subst remote_checksum.
  exists out, err, rest. split; [reflexivity|]. rewrite Esplit. cbn [hd].
  split; reflexivity.
Qed.

End Checksums.

Lemma X23_file_hash_does_not_depend_on_the_chunk_size_witness :
  (forall s, TransferManager.hash_update Sample.spelling_hash s [] = s)
  /\ TransferManager.chunk_size (TransferManager.init "/backups") <> 0
  /\ TransferManager.calculate_file_hash Sample.spelling_hash
       (TransferManager.init "/backups") "/backups/a.tar" "md5"
       (Sample.empty_world {[ "/backups/a.tar" := ["a"; "b"; "c"]%byte ]})
     = (Sample.empty_world {[ "/backups/a.tar" := ["a"; "b"; "c"]%byte ]},
        Return "abc"%string).
Proof.
  split; [intros s; apply app_nil_r|]. split; [discriminate|].
  apply (X23_file_hash_does_not_depend_on_the_chunk_size (R := nat)
           Sample.spelling_hash
           (TransferManager.init "/backups") "/backups/a.tar" "md5"
           (Sample.empty_world {[ "/backups/a.tar" := ["a"; "b"; "c"]%byte ]})
           ["a"; "b"; "c"]%byte []).
  - intros s; apply app_nil_r.
  - intros s a b. symmetry. apply app_assoc.
  - discriminate.
  - reflexivity.
  - reflexivity.
Defined.
